(** * django-simple-history: historical records of model instances

    A shallow embedding of [simple_history/models.py] and
    [simple_history/__init__.py].  Python objects become records, dicts
    become [gmap]s, and the code of the signal handlers becomes functions
    in a state-and-exception monad over the part of the Django process
    they read and write. *)

From Stdlib Require Import ZArith Ascii String.
From stdpp Require Import base strings gmap list sorting.

Open Scope string_scope.
Open Scope list_scope.
Open Scope Z_scope.

(** ** Field objects *)

(** The field classes the code tests with [isinstance]. *)
Inductive FieldClass :=
  | AutoField
  | IntegerField
  | TextField
  | CharField
  | DateTimeField
  | FileField
  | ImageField
  | OrderWrt
  | ForeignKey
  | OneToOneField
  | ForeignKeySubclass (cls : string)
  | OtherField (cls : string).

Inductive OnDelete := CASCADE | PROTECT | SET_NULL | SET_DEFAULT | DO_NOTHING.

#[global] Instance FieldClass_eq_dec : EqDecision FieldClass.
Proof. solve_decision. Defined.

#[global] Instance OnDelete_eq_dec : EqDecision OnDelete.
Proof. solve_decision. Defined.

(** [isinstance(field, models.ForeignKey)]: [OneToOneField] and user
    subclasses are foreign keys. *)
Definition is_ForeignKey (c : FieldClass) : bool :=
  match c with
  | ForeignKey | OneToOneField | ForeignKeySubclass _ => true
  | _ => false
  end.

Definition is_OneToOneField (c : FieldClass) : bool :=
  match c with OneToOneField => true | _ => false end.

Definition is_OrderWrt (c : FieldClass) : bool :=
  match c with OrderWrt => true | _ => false end.

Definition is_AutoField (c : FieldClass) : bool :=
  match c with AutoField => true | _ => false end.

(** [ImageField] derives from [FileField]. *)
Definition is_FileField (c : FieldClass) : bool :=
  match c with FileField | ImageField => true | _ => false end.

(** The attributes of a field object that the code reads or writes.
    [f_unique_] is Django's [_unique]; the [unique] property and [attname],
    which Django computes from the name, are below. *)
Record Field := mkField {
  f_name : string;
  f_class : FieldClass;
  f_model : string;                    (* field.model, the owning class *)
  f_to : option string;                (* rel.to *)
  f_related_name : option string;
  f_null : bool;
  f_blank : bool;
  f_primary_key : bool;
  f_unique_ : bool;
  f_db_index : bool;
  f_serialize : bool;
  f_on_delete : option OnDelete;
  f_db_constraint : bool;
  f_to_fields : list (option string);
  f_db_column : option string;
  f_one_to_one : bool;
  f_auto_now : bool;
  f_auto_now_add : bool;
  f_max_length : option nat;
  f_choices : list (string * string)
}.

#[global] Instance Field_eq_dec : EqDecision Field.
Proof. solve_decision. Defined.

(** Django: [unique = property(lambda self: self._unique or self.primary_key)]. *)
Definition f_unique (f : Field) : bool := f_unique_ f || f_primary_key f.

(** Django's [get_attname]: the name, and [name_id] for a foreign key.  A
    field has this [attname] from the moment it is attached to a class. *)
Definition f_attname (f : Field) : string :=
  if is_ForeignKey (f_class f) then f_name f +:+ "_id" else f_name f.

Definition set_class (c : FieldClass) (f : Field) : Field :=
  mkField (f_name f) c (f_model f) (f_to f) (f_related_name f)
    (f_null f) (f_blank f) (f_primary_key f) (f_unique_ f) (f_db_index f)
    (f_serialize f) (f_on_delete f) (f_db_constraint f) (f_to_fields f)
    (f_db_column f) (f_one_to_one f) (f_auto_now f) (f_auto_now_add f)
    (f_max_length f) (f_choices f).

Definition set_name (n : string) (f : Field) : Field :=
  mkField n (f_class f) (f_model f) (f_to f) (f_related_name f)
    (f_null f) (f_blank f) (f_primary_key f) (f_unique_ f) (f_db_index f)
    (f_serialize f) (f_on_delete f) (f_db_constraint f) (f_to_fields f)
    (f_db_column f) (f_one_to_one f) (f_auto_now f) (f_auto_now_add f)
    (f_max_length f) (f_choices f).

Definition set_auto_now (now add : bool) (f : Field) : Field :=
  mkField (f_name f) (f_class f) (f_model f) (f_to f)
    (f_related_name f) (f_null f) (f_blank f) (f_primary_key f) (f_unique_ f)
    (f_db_index f) (f_serialize f) (f_on_delete f) (f_db_constraint f)
    (f_to_fields f) (f_db_column f) (f_one_to_one f) now add
    (f_max_length f) (f_choices f).

(** The four assignments under [if field.primary_key or field.unique]. *)
Definition set_indexed_not_unique (f : Field) : Field :=
  mkField (f_name f) (f_class f) (f_model f) (f_to f)
    (f_related_name f) (f_null f) (f_blank f) false false true true
    (f_on_delete f) (f_db_constraint f) (f_to_fields f) (f_db_column f)
    (f_one_to_one f) (f_auto_now f) (f_auto_now_add f) (f_max_length f)
    (f_choices f).

(** ** Model classes *)

Record ManyToManyField := mkM2M {
  m2m_name : string;
  m2m_through : string;                (* rel.through, a class name *)
  m2m_to : string;                     (* rel.to *)
  m2m_column_name : string;            (* column of the declaring side *)
  m2m_reverse_name : string            (* column of the related side *)
}.

(** A model class: what the code reads of the class and of its [_meta]. *)
Record Model := mkModel {
  m_name : string;                     (* __name__ and _meta.object_name *)
  m_module : string;                   (* __module__ *)
  m_bases : list string;               (* __bases__ *)
  m_mro : list string;                 (* __mro__, the class itself first *)
  m_app_label : string;
  m_model_name : string;
  m_db_table : string;
  m_verbose_name : string;
  m_proxy : bool;
  m_abstract : bool;
  m_auto_created : bool;
  m_pk : string;                       (* _meta.pk.attname *)
  m_fields : list Field;               (* _meta.fields *)
  m_many_to_many : list ManyToManyField
}.

(** The Django process around the code: settings, the app registry and the
    class objects that class names denote. *)
Record Django := mkDjango {
  (* settings.DATABASES[router.db_for_write(model)]['ENGINE'], by model name *)
  write_engine : string → string;
  (* getattr(settings, 'AUTH_USER_MODEL', 'auth.User') *)
  AUTH_USER_MODEL : string;
  (* apps.app_configs[label].name, or get_app(label).__name__ before 1.7 *)
  app_name : string → option string;
  class_of : string → Model
}.

Section Settings.

Variable write_engine : string → string.

(** ** Copying the fields of the tracked model *)

Definition convert_auto_field (field : Field) : FieldClass :=
  if decide (write_engine (f_model field) = "django_mongodb_engine")
  then TextField
  else IntegerField.

Definition transform_field (field : Field) : Field :=
  let field := set_name (f_attname field) field in
  let field :=
    if is_AutoField (f_class field) then set_class (convert_auto_field field) field
    else if is_FileField (f_class field) then set_class TextField field
    else field in
  let field := set_auto_now false false field in
  if f_primary_key field || f_unique field
  then set_indexed_not_unique field
  else field.

(** The [field_arguments] dict of [copy_fields]: [db_constraint] always,
    [to_field] and [db_column] when the old field has them. *)
Record FieldArguments := mkFieldArguments {
  fa_db_constraint : bool;
  fa_to_field : option (option string);
  fa_db_column : option string
}.

Definition field_arguments (old_field : Field) : FieldArguments :=
  mkFieldArguments false
    (match f_to_fields old_field with
     | [] => None
     | t :: _ => Some t
     end)
    (match f_db_column old_field with
     | Some c => if decide (c = "") then None else Some c
     | None => None
     end).

(** [FieldType(old_field.rel.to, related_name='+', null=True, blank=True,
    primary_key=False, db_index=True, serialize=True, unique=False,
    on_delete=models.DO_NOTHING, **field_arguments)] followed by
    [field.name = old_field.name]. *)
Definition new_foreign_key (FieldType : FieldClass) (old_field : Field)
    (args : FieldArguments) : Field :=
  {| f_name := f_name old_field;
     f_class := FieldType;
     f_model := "";
     f_to := f_to old_field;
     f_related_name := Some "+";
     f_null := true;
     f_blank := true;
     f_primary_key := false;
     f_unique_ := false;
     f_db_index := true;
     f_serialize := true;
     f_on_delete := Some DO_NOTHING;
     f_db_constraint := fa_db_constraint args;
     f_to_fields := [default None (fa_to_field args)];
     f_db_column := fa_db_column args;
     f_one_to_one := false;
     f_auto_now := false;
     f_auto_now_add := false;
     f_max_length := None;
     f_choices := [] |}.

(** The body of the loop of [copy_fields]. *)
Definition copy_field (field : Field) : Field :=
  let field := if is_OrderWrt (f_class field) then set_class IntegerField field else field in
  if is_ForeignKey (f_class field) then
    let old_field := field in
    let FieldType :=
      if f_one_to_one old_field || is_OneToOneField (f_class old_field)
      then ForeignKey
      else f_class old_field in
    new_foreign_key FieldType old_field (field_arguments old_field)
  else transform_field field.

Definition copy_fields (model : Model) : gmap string Field :=
  foldl (λ fields field, let field := copy_field field in <[f_name field := field]> fields)
        ∅ (m_fields model).

End Settings.

(** What the host does to a referencing row when the referenced row is
    deleted, by the [on_delete] and [db_constraint] of the reference. *)
Inductive DeleteEffect := RowKept | RowDeleted | ReferenceCleared | DeleteRefused.

Definition referenced_delete_effect (f : Field) : DeleteEffect :=
  match f_on_delete f with
  | Some CASCADE | None => RowDeleted
  | Some PROTECT => DeleteRefused
  | Some SET_NULL | Some SET_DEFAULT => ReferenceCleared
  | Some DO_NOTHING => if f_db_constraint f then DeleteRefused else RowKept
  end.

Definition loosely_constrained (f : Field) : Prop :=
  f_db_constraint f = false ∧ f_on_delete f = Some DO_NOTHING ∧
  f_null f = true ∧ f_unique f = false ∧ f_primary_key f = false ∧
  f_db_index f = true.

(** ** Python values, instances and the process state *)

Inductive value := VNone | VInt (z : Z) | VStr (s : string) | VBool (b : bool).

#[global] Instance value_eq_dec : EqDecision value.
Proof. solve_decision. Defined.

Record User := mkUser { user_pk : Z; is_authenticated : bool }.

(** A model instance: its class, the attribute of every field (by
    [attname]), and the optional attributes the code looks for with
    [hasattr] and [getattr].  [__pre_clear_items] holds the evaluated
    queryset that [m2m_changed] stores on the instance. *)
#[warnings="-register-all"]
Inductive Obj := mkObj {
  o_class : string;
  o_vals : string → value;
  o_skip_history_when_saving : bool;
  o__history_date : option Z;
  o__history_user : option (option User);
  o___pre_clear_items : option (list Obj)
}.

Definition set_skip_history_when_saving (b : bool) (o : Obj) : Obj :=
  mkObj (o_class o) (o_vals o) b (o__history_date o) (o__history_user o)
        (o___pre_clear_items o).

Definition set___pre_clear_items (items : option (list Obj)) (o : Obj) : Obj :=
  mkObj (o_class o) (o_vals o) (o_skip_history_when_saving o)
        (o__history_date o) (o__history_user o) items.

(** A row of a table, as the keyword arguments it was created from. *)
Abbreviation Row := (gmap string value).

Inductive M2MFieldsOption :=
  | M2M_None
  | ALL_M2M_FIELDS
  | M2M_Names (names : list string)
  | M2M_Other (truthy : bool).          (* any value that is no list or tuple *)

(** A [HistoricalRecords] object.  [manager_name] and [module] are
    assigned right after construction on both registration paths, before
    any method reads them; [cls] is read under [try]. *)
Record HistoricalRecords := mkHistoricalRecords {
  user_set_verbose_name : option string;
  user_related_name : string;
  table_name : option string;
  inherit : bool;
  m2m_fields : M2MFieldsOption;
  bases : list string;
  manager_name : string;
  module : string;
  cls : option string
}.

Record MetaOptions := mkMeta {
  ordering : list string;
  get_latest_by : string;
  verbose_name : string;
  db_table : option string
}.

(** The values of the class dictionary of a historical model. *)
Inductive Attr :=
  | AttrModule (m : string)
  | AttrField (f : Field)
  | AttrHistoricalObjectDescriptor (model : string)
  | AttrInstanceProperty (model : string) (fields : gmap string Field)
  | AttrInstanceType (model : string)
  | AttrRevertUrl (model : string)
  | AttrStr
  | AttrMeta (meta : MetaOptions).

(** [type(str(name), self.bases, attrs)]. *)
Record HistoricalModel := mkHistoricalModel {
  hm_name : string;
  hm_bases : list string;
  hm_attrs : gmap string Attr
}.

(** Attributes the code sets on model classes at run time. *)
Inductive ClassAttr :=
  | CA_HistoricalRecords (r : HistoricalRecords)
  | CA_HistoryDescriptor (history_model : HistoricalModel)
  | CA_save_without_historical_record.

Inductive Signal :=
  | class_prepared | sig_post_save | sig_pre_delete | sig_post_delete | sig_m2m_changed.

#[global] Instance Signal_eq_dec : EqDecision Signal.
Proof. solve_decision. Defined.

(** [signal.connect(handler, sender=..., weak=False)], the handler being a
    bound method of [r_self]. *)
Record Receiver := mkReceiver {
  r_signal : Signal;
  r_sender : option string;
  r_self : HistoricalRecords
}.

Record World := mkWorld {
  registered_models : gmap string string;        (* db_table ↦ model *)
  class_dict : gmap string (gmap string ClassAttr);
  simple_history_manager_attribute : gmap string string;   (* on cls._meta *)
  module_dict : gmap string (gmap string HistoricalModel);
  receivers : list Receiver;
  tables : gmap string (list Row);               (* historical rows, oldest first *)
  db : gmap string (list (string → value));      (* live rows of each model *)
  clock : Z;                                     (* what now() returns *)
  thread_request_user : option User              (* thread.request.user *)
}.

Definition empty_world : World :=
  mkWorld ∅ ∅ ∅ ∅ [] ∅ ∅ 0 None.

(** ** Exceptions and the monad of the handlers *)

Inductive Exception :=
  | MultipleRegistrationsError (msg : string)
  | TypeError (msg : string)
  | AssertionError (msg : string)
  | AttributeError (msg : string)
  | IndexError
  | KeyError (key : string)
  | DoesNotExist
  | IntegrityError
  | RecursionError
  | DatabaseError.

Inductive Outcome (A : Type) :=
  | Return (a : A)
  | Raise (e : Exception).
Arguments Return {A} a.
Arguments Raise {A} e.

Definition Py (A : Type) : Type := World → Outcome A * World.

Definition ret {A} (a : A) : Py A := λ w, (Return a, w).
Definition raise {A} (e : Exception) : Py A := λ w, (Raise e, w).
Definition bind {A B} (m : Py A) (k : A → Py B) : Py B :=
  λ w, match m w with
       | (Return a, w') => k a w'
       | (Raise e, w') => (Raise e, w')
       end.
Definition get : Py World := λ w, (Return w, w).
Definition modify (f : World → World) : Py unit := λ w, (Return tt, f w).

Notation "x <- m ;; k" := (bind m (λ x, k))
  (at level 100, m at next level, right associativity).
Notation "m ;;; k" := (bind m (λ _, k))
  (at level 100, right associativity).

(** [for x in xs: body]. *)
Fixpoint for_each {A} (xs : list A) (body : A → Py unit) : Py unit :=
  match xs with
  | [] => ret tt
  | x :: xs => body x ;;; for_each xs body
  end.

(** [try: body finally: cleanup], the cleanup acting on the state. *)
Definition try_finally {A} (body : Py A) (cleanup : Py unit) : Py A :=
  λ w, match body w with
       | (r, w') =>
           match cleanup w' with
           | (Return _, w'') => (r, w'')
           | (Raise e, w'') => (Raise e, w'')
           end
       end.

(** ** The historical model class *)

Section Process.

Variable django : Django.

Inductive BasesArg :=
  | BasesSeq (l : list string)
  | BasesString (s : string)
  | BasesNotIterable.

(** The keyword arguments of [HistoricalRecords(...)], defaults filled in;
    [c_unexpected] lists keywords that [__init__] does not take. *)
Record RecordsConfig := mkConfig {
  c_verbose_name : option string;
  c_bases : BasesArg;
  c_user_related_name : string;
  c_table_name : option string;
  c_inherit : bool;
  c_m2m_fields : M2MFieldsOption;
  c_unexpected : list string
}.

Definition default_config : RecordsConfig :=
  mkConfig None (BasesSeq ["Model"]) "+" None false M2M_None [].

(** [HistoricalRecords.__init__]; the three attributes assigned after
    construction start empty. *)
Definition HistoricalRecords__init__ (c : RecordsConfig) : Py HistoricalRecords :=
  match c_unexpected c with
  | k :: _ => raise (TypeError ("__init__() got an unexpected keyword argument " +:+ k))
  | [] =>
      match c_bases c with
      | BasesSeq l =>
          ret (mkHistoricalRecords (c_verbose_name c) (c_user_related_name c)
                 (c_table_name c) (c_inherit c) (c_m2m_fields c) l "" "" None)
      | BasesString _ | BasesNotIterable =>
          raise (TypeError "The `bases` option must be a list or a tuple.")
      end
  end.

Definition set_registration (manager_name module : string) (cls : string)
    (r : HistoricalRecords) : HistoricalRecords :=
  mkHistoricalRecords (user_set_verbose_name r) (user_related_name r)
    (table_name r) (inherit r) (m2m_fields r) (bases r)
    manager_name module (Some cls).

Definition get_meta_options (self : HistoricalRecords) (model : Model) : MetaOptions :=
  let name :=
    match user_set_verbose_name self with
    | Some n => if decide (n = "") then "historical " +:+ m_verbose_name model else n
    | None => "historical " +:+ m_verbose_name model
    end in
  {| ordering := ["-history_date"; "-history_id"];
     get_latest_by := "history_date";
     verbose_name := name;
     db_table := None |}.

(** Field constructors with Django's defaults for what is not passed. *)
Definition models_Field (c : FieldClass) : Field :=
  mkField "" c "" None None false false false false false true None true
          [] None false false false None [].

Definition models_AutoField_primary_key : Field :=
  mkField "" AutoField "" None None false true true false false true None
          true [] None false false false None [].

Definition models_DateTimeField : Field := models_Field DateTimeField.

Definition models_ForeignKey_null (to related_name : string) (on_delete : OnDelete) : Field :=
  mkField "" ForeignKey "" (Some to) (Some related_name) true false false
          false true true (Some on_delete) true [None] None false false false
          None [].

Definition models_CharField (max_length : nat) (choices : list (string * string)) : Field :=
  mkField "" CharField "" None None false false false false false true None
          true [] None false false false (Some max_length) choices.

Definition get_extra_fields (self : HistoricalRecords) (model : Model)
    (fields : gmap string Field) : gmap string Attr :=
  let user_model := AUTH_USER_MODEL django in
  list_to_map [
    ("history_id", AttrField models_AutoField_primary_key);
    ("history_date", AttrField models_DateTimeField);
    ("history_user", AttrField
       (models_ForeignKey_null user_model (user_related_name self) SET_NULL));
    ("history_type", AttrField
       (models_CharField 1 [("+", "Created"); ("~", "Changed"); ("-", "Deleted")]));
    ("history_object", AttrHistoricalObjectDescriptor (m_name model));
    ("instance", AttrInstanceProperty (m_name model) fields);
    ("instance_type", AttrInstanceType (m_name model));
    ("revert_url", AttrRevertUrl (m_name model));
    ("__str__", AttrStr)
  ].

Definition set_Meta_db_table (t : string) (a : Attr) : Attr :=
  match a with
  | AttrMeta m => AttrMeta (mkMeta (ordering m) (get_latest_by m) (verbose_name m) (Some t))
  | a => a
  end.

Definition set_registered_models (k v : string) (w : World) : World :=
  mkWorld (<[k := v]> (registered_models w)) (class_dict w)
    (simple_history_manager_attribute w) (module_dict w) (receivers w)
    (tables w) (db w) (clock w) (thread_request_user w).

Definition create_history_model (self : HistoricalRecords) (model : Model)
    : Py HistoricalModel :=
  let attrs : gmap string Attr := {[ "__module__" := AttrModule (module self) ]} in
  let app_module := m_app_label model +:+ ".models" in
  attrs <-
    (if decide (m_module model ≠ module self) then
       ret (<["__module__" := AttrModule (module self)]> attrs)
     else if decide (app_module ≠ module self) then
       match app_name django (m_app_label model) with
       | Some models_module => ret (<["__module__" := AttrModule models_module]> attrs)
       | None => raise (KeyError (m_app_label model))
       end
     else ret attrs) ;;
  let fields := copy_fields (write_engine django) model in
  let attrs := (AttrField <$> fields) ∪ attrs in
  let attrs := get_extra_fields self model fields ∪ attrs in
  let attrs := <["Meta" := AttrMeta (get_meta_options self model)]> attrs in
  let attrs :=
    match table_name self with
    | Some t => alter (set_Meta_db_table t) "Meta" attrs
    | None => attrs
    end in
  let name := "Historical" +:+ m_name model in
  modify (set_registered_models (m_db_table model) (m_name model)) ;;;
  ret (mkHistoricalModel name (bases self) attrs).

(** The model fields among the attributes of the historical class. *)
Definition declared_fields (attrs : gmap string Attr) : gmap string Field :=
  omap (λ a, match a with AttrField f => Some f | _ => None end) attrs.

(** ** Registration *)

Definition set_class_attr (c k : string) (a : ClassAttr) (w : World) : World :=
  mkWorld (registered_models w)
    (<[c := <[k := a]> (default ∅ (class_dict w !! c))]> (class_dict w))
    (simple_history_manager_attribute w) (module_dict w) (receivers w)
    (tables w) (db w) (clock w) (thread_request_user w).

Definition set_manager_attribute (c name : string) (w : World) : World :=
  mkWorld (registered_models w) (class_dict w)
    (<[c := name]> (simple_history_manager_attribute w)) (module_dict w)
    (receivers w) (tables w) (db w) (clock w) (thread_request_user w).

Definition set_module_attr (m k : string) (hm : HistoricalModel) (w : World) : World :=
  mkWorld (registered_models w) (class_dict w)
    (simple_history_manager_attribute w)
    (<[m := <[k := hm]> (default ∅ (module_dict w !! m))]> (module_dict w))
    (receivers w) (tables w) (db w) (clock w) (thread_request_user w).

Definition connect (s : Signal) (sender : option string) (self : HistoricalRecords)
    (w : World) : World :=
  mkWorld (registered_models w) (class_dict w)
    (simple_history_manager_attribute w) (module_dict w)
    (receivers w ++ [mkReceiver s sender self])
    (tables w) (db w) (clock w) (thread_request_user w).

(** Attribute lookup on a class: the first class of the MRO whose
    dictionary has the name. *)
Fixpoint lookup_mro (d : gmap string (gmap string ClassAttr)) (name : string)
    (mro : list string) : option ClassAttr :=
  match mro with
  | [] => None
  | c :: mro =>
      match d !! c ≫= (λ attrs, attrs !! name) with
      | Some a => Some a
      | None => lookup_mro d name mro
      end
  end.

Definition not_registered (model : Model) : Py bool :=
  w <- get ;;
  if m_proxy model
  then ret (bool_decide (registered_models w !! (m_db_table model +:+ m_name model) = None))
  else ret (bool_decide (registered_models w !! m_db_table model = None)).

Definition add_extra_methods (self : HistoricalRecords) (cls : Model) : Py unit :=
  modify (set_class_attr (m_name cls) "save_without_historical_record"
            CA_save_without_historical_record).

(** [sum([isinstance(item, HistoricalRecords) for item in
    through.__dict__.values()])] is not zero. *)
Definition has_HistoricalRecords (w : World) (through : string) : bool :=
  existsb (λ kv, match kv.2 with CA_HistoricalRecords _ => true | _ => false end)
          (map_to_list (default ∅ (class_dict w !! through))).

(** The part of [setup_m2m_history] that both branches run for a field. *)
Definition setup_through (register_through : Model → Py unit) (field : ManyToManyField)
    : Py unit :=
  w <- get ;;
  if negb (has_HistoricalRecords w (m2m_through field)) then
    let through_model := class_of django (m2m_through field) in
    unregistered <- not_registered through_model ;;
    if m_auto_created through_model && unregistered then
      records <- HistoricalRecords__init__ default_config ;;
      modify (set_class_attr (m_name through_model) "history" (CA_HistoricalRecords records)) ;;;
      register_through through_model
    else ret tt
  else ret tt.

(** [getattr(cls, field_name).field] followed by the assertion that it is
    a [ManyToManyField]. *)
Definition many_to_many_field (cls : Model) (field_name : string) : Py ManyToManyField :=
  match find (λ f, bool_decide (m2m_name f = field_name)) (m_many_to_many cls) with
  | Some field => ret field
  | None =>
      if existsb (λ f, bool_decide (f_name f = field_name) && is_ForeignKey (f_class f))
                 (m_fields cls)
      then raise (AssertionError (field_name +:+ " must be a ManyToManyField"))
      else raise (AttributeError field_name)
  end.

Definition setup_m2m_history (register_through : Model → Py unit)
    (self : HistoricalRecords) (cls : Model) : Py unit :=
  match m2m_fields self with
  | ALL_M2M_FIELDS =>
      for_each (m_many_to_many cls) (setup_through register_through)
  | M2M_Names [] | M2M_None | M2M_Other false => ret tt
  | M2M_Names names =>
      for_each names (λ field_name,
        field <- many_to_many_field cls field_name ;;
        setup_through register_through field)
  | M2M_Other true => raise (AssertionError "m2m_history_fields must be a list or tuple")
  end.

Definition connect_handlers (self : HistoricalRecords) (sender : string) (w : World) : World :=
  connect sig_m2m_changed (Some sender) self
    (connect sig_post_delete (Some sender) self
       (connect sig_pre_delete (Some sender) self
          (connect sig_post_save (Some sender) self w))).

Definition finalize
    (register_ : Model → option string → string → RecordsConfig → Py unit)
    (self : HistoricalRecords) (sender : Model) : Py unit :=
  let registration : Py unit :=
    w <- get ;;
    if bool_decide (is_Some (simple_history_manager_attribute w !! m_name sender)) then
      raise (MultipleRegistrationsError
               (m_app_label sender +:+ "." +:+ m_name sender +:+
                " registered multiple times for history tracking."))
    else
      history_model <-
        (if m_proxy sender then
           match filter (λ b, m_abstract (class_of django b) = false) (m_bases sender) with
           | [] => raise IndexError
           | original :: _ =>
               let original_class := class_of django original in
               unregistered <- not_registered original_class ;;
               (if unregistered : bool then
                  register_ original_class None (manager_name self)
                    (mkConfig (user_set_verbose_name self) (BasesSeq (bases self))
                       (user_related_name self) None false (m2m_fields self)
                       ["records_class"])
                else ret tt) ;;;
               w <- get ;;
               match lookup_mro (class_dict w) (manager_name self) (m_mro sender) with
               | Some (CA_HistoryDescriptor history_model) => ret history_model
               | _ => raise (AttributeError (manager_name self))
               end
           end
         else
           history_model <- create_history_model self sender ;;
           modify (set_module_attr (module self) (hm_name history_model) history_model) ;;;
           ret history_model) ;;
      modify (connect_handlers self (m_name sender)) ;;;
      modify (set_class_attr (m_name sender) (manager_name self)
                (CA_HistoryDescriptor history_model)) ;;;
      modify (set_manager_attribute (m_name sender) (manager_name self)) in
  match cls self with
  | None => registration
  | Some hint_class =>
      if decide (hint_class ≠ m_name sender) then
        if negb (inherit self && bool_decide (hint_class ∈ m_mro sender))
        then ret tt
        else registration
      else registration
  end.

(** [register] of [simple_history/__init__.py].  It calls itself through
    [setup_m2m_history] and [finalize]; [fuel] bounds the nesting. *)
Fixpoint register_fuel (fuel : nat) (model : Model) (app : option string)
    (manager_name : string) (records_config : RecordsConfig) : Py unit :=
  match fuel with
  | O => raise RecursionError
  | S fuel =>
      w <- get ;;
      if bool_decide (registered_models w !! m_db_table model = None) then
        records <- HistoricalRecords__init__ records_config ;;
        let module :=
          match app with
          | Some a => if decide (a = "") then m_module model else a +:+ ".models"
          | None => m_module model
          end in
        let records := set_registration manager_name module (m_name model) records in
        add_extra_methods records model ;;;
        setup_m2m_history
          (λ through_model, register_fuel fuel through_model None "history" default_config)
          records model ;;;
        finalize (register_fuel fuel) records model ;;;
        modify (set_registered_models (m_db_table model) (m_name model))
      else ret tt
  end.

(** Three levels are all the code can nest: a registration from
    [finalize] stops in [HistoricalRecords.__init__], and one from
    [setup_m2m_history] passes no [m2m_fields]; more fuel gives the same
    function ([register_fuel_enough]). *)
Definition register := register_fuel 3.

(** [contribute_to_class], run by Django for a [HistoricalRecords]
    attribute in a class body; it returns [self] with its new attributes. *)
Definition contribute_to_class (self : HistoricalRecords) (cls : Model) (name : string)
    : Py HistoricalRecords :=
  let self := set_registration name (m_module cls) (m_name cls) self in
  modify (connect class_prepared None self) ;;;
  add_extra_methods self cls ;;;
  setup_m2m_history (λ through_model, register through_model None "history" default_config)
    self cls ;;;
  ret self.

(** Django sending [class_prepared] for a new class. *)
Definition send_class_prepared (sender : Model) : Py unit :=
  w <- get ;;
  for_each (filter (λ r, r_signal r = class_prepared) (receivers w))
    (λ r, finalize register (r_self r) sender).

(** ** Writing historical rows *)

Definition set_tables (k : string) (rows : list Row) (w : World) : World :=
  mkWorld (registered_models w) (class_dict w)
    (simple_history_manager_attribute w) (module_dict w) (receivers w)
    (<[k := rows]> (tables w)) (db w) (clock w) (thread_request_user w).

Definition set_db (k : string) (rows : list (string → value)) (w : World) : World :=
  mkWorld (registered_models w) (class_dict w)
    (simple_history_manager_attribute w) (module_dict w) (receivers w)
    (tables w) (<[k := rows]> (db w)) (clock w) (thread_request_user w).

Definition history_rows (w : World) (table : string) : list Row :=
  default [] (tables w !! table).

Definition row_id (r : Row) : option Z :=
  match r !! "history_id" with
  | Some (VInt z) => Some z
  | _ => None
  end.

Definition row_ids (rows : list Row) : list Z := omap row_id rows.

(** The value an auto-incrementing key takes: one more than every key in
    the table. *)
Definition next_id (rows : list Row) : Z := 1 + foldr Z.max 0 (row_ids rows).

(** Django attaching a field to a class under the key it has in the class
    dictionary ([set_attributes_from_name]): a field without a name takes
    the key. *)
Definition set_attributes_from_name (key : string) (f : Field) : Field :=
  if decide (f_name f = "") then set_name key f else f.

(** The keywords the constructor of a historical model accepts: the name
    and the [attname] of each of its fields. *)
Definition column_keywords (history_model : HistoricalModel) : gset string :=
  list_to_set
    (flat_map (λ kf : string * Field,
                 let field := set_attributes_from_name kf.1 kf.2 in
                 [f_name field; f_attname field])
              (map_to_list (declared_fields (hm_attrs history_model)))).

(** Django's [Manager.create] with keyword arguments, on a historical model: the
    constructor rejects keywords that name no field, the key is taken from
    the sequence unless given, and the row is inserted ([force_insert]). *)
Definition Manager_create (history_model : HistoricalModel) (kwargs : Row) : Py unit :=
  if bool_decide (dom kwargs ⊆ column_keywords history_model) then
    w <- get ;;
    let rows := history_rows w (hm_name history_model) in
    match kwargs !! "history_id" with
    | None | Some VNone =>
        modify (set_tables (hm_name history_model)
                  (rows ++ [<["history_id" := VInt (next_id rows)]> kwargs]))
    | Some (VInt z) =>
        if bool_decide (z ∈ row_ids rows) then raise IntegrityError
        else modify (set_tables (hm_name history_model) (rows ++ [kwargs]))
    | Some _ => raise (TypeError "history_id")
    end
  else raise (TypeError "invalid keyword argument for this function").

(** [f(k1=v1, ..., **attrs)]: a keyword given twice is a [TypeError]. *)
Definition keyword_arguments (explicit : list (string * value)) (attrs : Row) : Py Row :=
  match find (λ kv : string * value, bool_decide (is_Some (attrs !! kv.1))) explicit with
  | Some kv => raise (TypeError ("got multiple values for keyword argument " +:+ kv.1))
  | None => ret (list_to_map explicit ∪ attrs)
  end.

Definition get_history_user (self : HistoricalRecords) (instance : Obj) : Py (option User) :=
  match o__history_user instance with
  | Some user => ret user
  | None =>
      w <- get ;;
      match thread_request_user w with
      | Some user => if is_authenticated user then ret (Some user) else ret None
      | None => ret None
      end
  end.

Definition user_value (u : option User) : value :=
  match u with
  | Some u => VInt (user_pk u)
  | None => VNone
  end.

(** The [attrs] dict of [create_historical_record]. *)
Definition instance_attrs (model : Model) (instance : Obj) : Row :=
  foldl (λ attrs field, <[f_attname field := o_vals instance (f_attname field)]> attrs)
        ∅ (m_fields model).

Definition create_historical_record (self : HistoricalRecords) (instance : Obj)
    (history_type : string) : Py unit :=
  w <- get ;;
  let model := class_of django (o_class instance) in
  let history_date := default (clock w) (o__history_date instance) in
  history_user <- get_history_user self instance ;;
  match lookup_mro (class_dict w) (manager_name self) (m_mro model) with
  | Some (CA_HistoryDescriptor history_model) =>
      let attrs := instance_attrs model instance in
      kwargs <- keyword_arguments
                  [("history_date", VInt history_date);
                   ("history_type", VStr history_type);
                   ("history_user", user_value history_user)] attrs ;;
      Manager_create history_model kwargs
  | _ => raise (AttributeError (manager_name self))
  end.

(** ** The signal handlers *)

Definition post_save (self : HistoricalRecords) (instance : Obj) (created raw : bool)
    : Py unit :=
  if negb created && o_skip_history_when_saving instance then ret tt
  else if negb raw then
    create_historical_record self instance (if created then "+" else "~")
  else ret tt.

Definition post_delete (self : HistoricalRecords) (instance : Obj) : Py unit :=
  create_historical_record self instance "-".

(** An object built from a row that a query returns. *)
Definition loaded (cls : string) (vals : string → value) : Obj :=
  mkObj cls vals false None None None.

(** [model.objects.filter(...)], evaluated. *)
Definition objects_filter (w : World) (model : Model) (p : (string → value) → bool)
    : list Obj :=
  loaded (m_name model) <$> filter (λ r, p r = true) (default [] (db w !! m_db_table model)).

Definition pk (instance : Obj) : value :=
  o_vals instance (m_pk (class_of django (o_class instance))).

(** [m2m_field.value_from_object(instance)]: the related objects, one for
    each row of the through table that links the instance. *)
Definition value_from_object (w : World) (m2m_field : ManyToManyField) (instance : Obj)
    : list Obj :=
  let to := class_of django (m2m_to m2m_field) in
  flat_map
    (λ item, objects_filter w to
               (λ r, bool_decide (r (m_pk to) = o_vals item (m2m_reverse_name m2m_field))))
    (objects_filter w (class_of django (m2m_through m2m_field))
       (λ r, bool_decide (r (m2m_column_name m2m_field) = pk instance))).

Definition pre_delete (self : HistoricalRecords) (instance : Obj) : Py unit :=
  for_each (m_many_to_many (class_of django (o_class instance))) (λ m2m_field,
    let through_model := class_of django (m2m_through m2m_field) in
    w <- get ;;
    if bool_decide (is_Some (simple_history_manager_attribute w !! m_name through_model)) then
      let items := objects_filter w through_model
                     (λ r, bool_decide (r (m2m_column_name m2m_field) = pk instance)) in
      for_each items (λ item, create_historical_record self item "-") ;;;
      w <- get ;;
      for_each (value_from_object w m2m_field instance)
        (λ related, create_historical_record self related "~")
    else ret tt).

Definition has_m2m_field (instance : Obj) (through : string) : bool :=
  existsb (λ m2m_field, bool_decide (through = m2m_through m2m_field))
          (m_many_to_many (class_of django (o_class instance))).

Definition isinstance (instance : Obj) (c : string) : bool :=
  bool_decide (c ∈ m_mro (class_of django (o_class instance))).

(** The first loop of [m2m_changed]: the foreign keys of the through model
    (its [ManyToOneDescriptor] attributes), the one to [kwargs['model']]
    as target and the one to the class of the instance as source. *)
Definition relation_fields (sender : Model) (instance : Obj) (model : string)
    : option Field * option Field :=
  foldl (λ names field,
           if is_ForeignKey (f_class field) then
             if decide (f_to field = Some model) then (names.1, Some field)
             else if isinstance instance (default "" (f_to field)) then (Some field, names.2)
             else names
           else names)
        (None, None) (m_fields sender).

(** [getattr(item, target_field_name)]: the related object, fetched by
    its key, [None] when the reference is null. *)
Definition related_object (target : option Field) (item : Obj) : Py (option Obj) :=
  match target with
  | None => raise (TypeError "getattr(): attribute name must be string")
  | Some field =>
      match o_vals item (f_attname field) with
      | VNone => ret None
      | v =>
          w <- get ;;
          let to := class_of django (default "" (f_to field)) in
          match objects_filter w to (λ r, bool_decide (r (m_pk to) = v)) with
          | related :: _ => ret (Some related)
          | [] => raise DoesNotExist
          end
      end
  end.

(** [Model.__eq__]: same class and same key, the key not [None]. *)
Definition Model_eq (a b : Obj) : bool :=
  bool_decide (o_class a = o_class b) && bool_decide (pk a = pk b) &&
  negb (bool_decide (pk a = VNone)).

(** [[i for i in items if target == getattr(i, target_field_name)]]. *)
Fixpoint items_of_target (target_field : option Field) (target : Obj) (items : list Obj)
    : Py (list Obj) :=
  match items with
  | [] => ret []
  | i :: items =>
      other <- related_object target_field i ;;
      rest <- items_of_target target_field target items ;;
      match other with
      | Some o => if Model_eq target o then ret (i :: rest) else ret rest
      | None => ret rest
      end
  end.

(** The body of the two reconciliation loops: a change record for the
    target of [item] unless [others] has an item with the same target. *)
Definition record_change (self : HistoricalRecords) (sender : Model)
    (target_field : option Field) (others : list Obj) (item : Obj) : Py unit :=
  target <- related_object target_field item ;;
  match target with
  | None => raise (AttributeError "_meta")
  | Some target =>
      if has_m2m_field target (m_name sender) then
        same <- items_of_target target_field target others ;;
        match same with
        | [] => create_historical_record self target "~"
        | _ :: _ => ret tt
        end
      else ret tt
  end.

(** [value in pk_set] for a key read from a row. *)
Definition value_in (v : value) (pk_set : list Z) : bool :=
  match v with
  | VInt z => bool_decide (z ∈ pk_set)
  | _ => false
  end.

Record M2MKwargs := mkKwargs {
  kw_model : string;
  kw_pk_set : option (list Z)
}.

Definition m2m_changed (self : HistoricalRecords) (action : string) (instance : Obj)
    (sender : Model) (kwargs : M2MKwargs) : Py Obj :=
  let '(source_field, target_field) := relation_fields sender instance (kw_model kwargs) in
  w <- get ;;
  items <-
    match source_field with
    | None => raise (TypeError "filter() keywords must be strings")
    | Some source =>
        ret (objects_filter w sender (λ r, bool_decide (r (f_attname source) = pk instance)))
    end ;;
  items <-
    match kw_pk_set kwargs with
    | None | Some [] => ret items
    | Some pk_set =>
        match target_field with
        | None => raise (TypeError "unsupported operand type(s) for +: 'NoneType' and 'str'")
        | Some target =>
            ret (filter (λ item, value_in (o_vals item (f_attname target)) pk_set = true)
                        items)
        end
    end ;;
  for_each items (λ item,
    if decide (action = "post_add") then
      if o_skip_history_when_saving item then ret tt
      else create_historical_record self item "+"
    else if decide (action = "pre_remove") then create_historical_record self item "-"
    else if decide (action = "pre_clear") then create_historical_record self item "-"
    else ret tt) ;;;
  if decide (action = "pre_clear") then
    ret (set___pre_clear_items (Some items) instance)
  else
    match decide (action = "post_add"), o___pre_clear_items instance with
    | left _, Some other_items =>
        for_each other_items (record_change self sender target_field items) ;;;
        for_each items (record_change self sender target_field other_items) ;;;
        ret (set___pre_clear_items None instance)
    | _, _ => ret instance
    end.

(** ** Saving *)

Definition send_post_save (instance : Obj) (created raw : bool) : Py unit :=
  w <- get ;;
  for_each (filter (λ r, r_signal r = sig_post_save ∧ r_sender r = Some (o_class instance))
                   (receivers w))
    (λ r, post_save (r_self r) instance created raw).

(** Django's [Model.save_base]: the row is inserted when no row has the
    key and updated otherwise, then [post_save] is sent.  [failure] is an
    error of validation or of the database, raised before anything is
    written. *)
Definition Model_save_base (failure : option Exception) (raw : bool) (instance : Obj)
    : Py unit :=
  match failure with
  | Some e => raise e
  | None =>
      w <- get ;;
      let table := m_db_table (class_of django (o_class instance)) in
      let key := m_pk (class_of django (o_class instance)) in
      let rows := default [] (db w !! table) in
      let created := negb (existsb (λ r, bool_decide (r key = pk instance)) rows) in
      modify (set_db table
                (if created then rows ++ [o_vals instance]
                 else (λ r, if decide (r key = pk instance) then o_vals instance else r) <$> rows)) ;;;
      send_post_save instance created raw
  end.

Definition Model_save (failure : option Exception) (instance : Obj) : Py unit :=
  Model_save_base failure false instance.

(** The method that [add_extra_methods] puts on the class.  The state is
    the instance and the process; [save] is [self.save]. *)
Definition save_without_historical_record (save : Obj → Py unit) (self : Obj)
    : World → Outcome unit * Obj * World :=
  λ w,
    let self := set_skip_history_when_saving true self in
    let '(ret, w) := save self w in
    (ret, set_skip_history_when_saving false self, w).

(** ** Reading a snapshot back *)

(** The model called with keyword arguments: the attributes given,
    [None] for the others. *)
Definition Model_init_kwargs (model : string) (kwargs : Row) : Obj :=
  loaded model (λ a, default VNone (kwargs !! a)).

(** The model called with positional arguments: the values go to the
    fields in their order. *)
Definition Model_init_args (model : Model) (values : list value) : Obj :=
  let attrs : Row :=
    foldl (λ attrs av, <[av.1 := av.2]> attrs) ∅ (zip (f_attname <$> m_fields model) values) in
  loaded (m_name model) (λ a, default VNone (attrs !! a)).

(** [getattr(self, attname)] on a historical instance loaded from a row. *)
Definition row_getattr (row : Row) (attname : string) : value :=
  default VNone (row !! attname).

(** The [instance] property of a historical model. *)
Definition get_instance (model : string) (fields : gmap string Field) (self : Row) : Obj :=
  Model_init_kwargs model
    (map_fold (λ _ field kwargs,
                 <[f_attname field := row_getattr self (f_attname field)]> kwargs)
              ∅ fields).

Definition HistoricalObjectDescriptor__get__ (model : Model) (instance : Row) : Obj :=
  let values := (λ f, row_getattr instance (f_attname f)) <$> m_fields model in
  Model_init_args model values.

End Process.

(** ** The host's ordering of rows *)

Definition value_rank (v : value) : Z :=
  match v with
  | VNone => 0
  | VBool _ => 1
  | VInt _ => 2
  | VStr _ => 3
  end.

Definition value_compare (a b : value) : comparison :=
  match a, b with
  | VInt x, VInt y => (x ?= y)%Z
  | VStr x, VStr y => String.compare x y
  | VBool x, VBool y => (Z.b2z x ?= Z.b2z y)%Z
  | _, _ => (value_rank a ?= value_rank b)%Z
  end.

Definition column (r : Row) (k : string) : value := default VNone (r !! k).

(** One key of [Meta.ordering]: a leading [-] sorts descending. *)
Definition key_compare (key : string) (r1 r2 : Row) : comparison :=
  match key with
  | String "-"%char k => value_compare (column r2 k) (column r1 k)
  | k => value_compare (column r1 k) (column r2 k)
  end.

Fixpoint ordering_compare (ordering : list string) (r1 r2 : Row) : comparison :=
  match ordering with
  | [] => Eq
  | key :: ordering =>
      match key_compare key r1 r2 with
      | Eq => ordering_compare ordering r1 r2
      | c => c
      end
  end.

Definition comes_before (ordering : list string) (r1 r2 : Row) : Prop :=
  ordering_compare ordering r1 r2 ≠ Gt.

#[global] Instance comes_before_dec ordering r1 r2 : Decision (comes_before ordering r1 r2).
Proof. unfold comes_before. apply _. Defined.

(** The rows of a historical table as a query without [order_by]
    returns them. *)
Definition default_order (meta : MetaOptions) (rows : list Row) : list Row :=
  merge_sort (comes_before (ordering meta)) rows.

Definition row_date (r : Row) : option Z :=
  match r !! "history_date" with
  | Some (VInt z) => Some z
  | _ => None
  end.

Definition stamped (r : Row) : Prop := is_Some (row_date r) ∧ is_Some (row_id r).

#[global] Instance stamped_dec r : Decision (stamped r).
Proof. unfold stamped. apply _. Defined.

Definition history_date_of (r : Row) : Z := default 0 (row_date r).
Definition history_id_of (r : Row) : Z := default 0 (row_id r).

(** [r1] is at least as new as [r2]: a later timestamp, or the same
    timestamp and an identifier at least as large. *)
Definition newest_first (r1 r2 : Row) : Prop :=
  history_date_of r2 < history_date_of r1 ∨
  (history_date_of r1 = history_date_of r2 ∧ history_id_of r2 ≤ history_id_of r1).

(** ** Tracked instances and snapshots *)

(** The historical model behind [getattr(instance, self.manager_name)]. *)
Definition history_model_of (django : Django) (w : World) (self : HistoricalRecords)
    (instance : Obj) : option HistoricalModel :=
  match lookup_mro (class_dict w) (manager_name self)
                   (m_mro (class_of django (o_class instance))) with
  | Some (CA_HistoryDescriptor history_model) => Some history_model
  | _ => None
  end.

Definition bookkeeping : list string :=
  ["history_id"; "history_date"; "history_user"; "history_type"].


(** The row of a snapshot of [instance]. *)
Definition snapshot (model : Model) (instance : Obj) (history_id history_date : Z)
    (history_user : option User) (history_type : string) : Row :=
  <["history_id" := VInt history_id]>
    (list_to_map [("history_date", VInt history_date);
                  ("history_type", VStr history_type);
                  ("history_user", user_value history_user)]
     ∪ instance_attrs model instance).

(** The user that [get_history_user] finds. *)
Definition history_user_of (w : World) (instance : Obj) : option User :=
  match o__history_user instance with
  | Some user => user
  | None =>
      match thread_request_user w with
      | Some user => if is_authenticated user then Some user else None
      | None => None
      end
  end.

(** The snapshot that recording [instance] in [w] appends to [table]. *)
Definition recorded (django : Django) (w : World) (table : string) (instance : Obj)
    (history_type : string) : World :=
  set_tables table
    (history_rows w table ++
     [snapshot (class_of django (o_class instance)) instance
        (next_id (history_rows w table))
        (default (clock w) (o__history_date instance))
        (history_user_of w instance) history_type])
    w.

(** Every table of [w'] starts with the rows it has in [w]. *)
Definition extends (w w' : World) : Prop :=
  ∀ table, history_rows w table `prefix_of` history_rows w' table.

(** In every table the identifiers grow with the position. *)
Definition increasing_ids (w : World) : Prop :=
  ∀ table rows, tables w !! table = Some rows →
    Forall (λ r, is_Some (row_id r)) rows ∧ StronglySorted Z.lt (row_ids rows).


Definition is_domain_error (e : Exception) : bool :=
  match e with
  | MultipleRegistrationsError _ => true
  | _ => false
  end.

(** ** A small project *)

(** The models of a polls application, an article with categories, and a
    ticket that has a field called [history_id]. *)

Definition plain_field (name : string) (c : FieldClass) (model : string) : Field :=
  mkField name c model None None false false false false false true None true
          [] None false false false None [].

Definition auto_id (model : string) : Field :=
  mkField "id" AutoField model None None false true true false false false None
          true [] None false false false None [].

Definition foreign_key (name to model : string) : Field :=
  mkField name ForeignKey model (Some to) None false false false false true true
          (Some CASCADE) true [None] None false false false None [].

Definition models_Model : Model :=
  mkModel "Model" "django.db.models" [] ["Model"] "" "" "" "" false true false "" [] [].

Definition Poll : Model :=
  mkModel "Poll" "polls.models" ["Model"] ["Poll"; "Model"] "polls" "poll"
    "polls_poll" "poll" false false false "id"
    [auto_id "Poll"; plain_field "question" CharField "Poll";
     plain_field "pub_date" DateTimeField "Poll"] [].

Definition Choice : Model :=
  mkModel "Choice" "polls.models" ["Model"] ["Choice"; "Model"] "polls" "choice"
    "polls_choice" "choice" false false false "id"
    [auto_id "Choice"; foreign_key "poll" "Poll" "Choice";
     plain_field "votes" IntegerField "Choice"] [].

Definition Category : Model :=
  mkModel "Category" "polls.models" ["Model"] ["Category"; "Model"] "polls" "category"
    "polls_category" "category" false false false "id"
    [auto_id "Category"; plain_field "name" CharField "Category"] [].

Definition Article : Model :=
  mkModel "Article" "polls.models" ["Model"] ["Article"; "Model"] "polls" "article"
    "polls_article" "article" false false false "id"
    [auto_id "Article"; plain_field "title" CharField "Article"]
    [mkM2M "categories" "Article_categories" "Category" "article_id" "category_id"].

Definition Article_categories : Model :=
  mkModel "Article_categories" "polls.models" ["Model"] ["Article_categories"; "Model"]
    "polls" "article_categories" "polls_article_categories"
    "article-category relationship" false false true "id"
    [auto_id "Article_categories";
     foreign_key "article" "Article" "Article_categories";
     foreign_key "category" "Category" "Article_categories"] [].

Definition Ticket : Model :=
  mkModel "Ticket" "polls.models" ["Model"] ["Ticket"; "Model"] "polls" "ticket"
    "polls_ticket" "ticket" false false false "id"
    [auto_id "Ticket"; plain_field "history_id" IntegerField "Ticket"] [].

Definition polls_class (with_ticket : bool) (name : string) : Model :=
  if decide (name = "Poll") then Poll
  else if decide (name = "Choice") then Choice
  else if decide (name = "Category") then Category
  else if decide (name = "Article") then Article
  else if decide (name = "Article_categories") then Article_categories
  else if with_ticket && bool_decide (name = "Ticket") then Ticket
  else models_Model.

Definition polls : Django :=
  mkDjango (λ _, "django.db.backends.sqlite3") "auth.User" (λ label, Some label)
           (polls_class false).

Definition polls_with_ticket : Django :=
  mkDjango (λ _, "django.db.backends.sqlite3") "auth.User" (λ label, Some label)
           (polls_class true).

(** An instance with the given attributes. *)
Definition live_row (attrs : list (string * value)) : string → value :=
  λ a, default VNone ((list_to_map attrs : Row) !! a).

Definition instance_of (cls : string) (attrs : list (string * value)) : Obj :=
  loaded cls (live_row attrs).

Definition history : HistoricalRecords :=
  mkHistoricalRecords None "+" None false M2M_None ["Model"] "history" "polls.models" None.

(** The process after [register(Poll)] and [register(Choice)]. *)
Definition polls_world : World :=
  (register polls Choice None "history" default_config
     (register polls Poll None "history" default_config empty_world).2).2.

Definition poll_1 : Obj :=
  instance_of "Poll" [("id", VInt 1); ("question", VStr "What's up?"); ("pub_date", VInt 20)].

Definition choice_1 : Obj :=
  instance_of "Choice" [("id", VInt 1); ("poll_id", VInt 1); ("votes", VInt 0)].

(** The process after [register(Ticket)] and the first save of two
    tickets, the first with [history_id] 42 and the second with 7. *)
Definition ticket_world : World :=
  (register polls_with_ticket Ticket None "history" default_config empty_world).2.

Definition ticket_1 : Obj := instance_of "Ticket" [("id", VInt 1); ("history_id", VInt 42)].
Definition ticket_2 : Obj := instance_of "Ticket" [("id", VInt 2); ("history_id", VInt 7)].

Definition two_tickets_world : World :=
  (Model_save polls_with_ticket None ticket_2
     (Model_save polls_with_ticket None ticket_1 ticket_world).2).2.

(** The historical models that registration made for [Poll] and
    [Choice]. *)
Definition HistoricalPoll : HistoricalModel :=
  default (mkHistoricalModel "" [] ∅) (history_model_of polls polls_world history poll_1).

Definition HistoricalChoice : HistoricalModel :=
  default (mkHistoricalModel "" [] ∅) (history_model_of polls polls_world history choice_1).



(** A ticket without a [history_id], the process after its first save,
    and the snapshot that the save wrote. *)
Definition ticket_3 : Obj := instance_of "Ticket" [("id", VInt 3); ("history_id", VNone)].

Definition ticket_3_world : World :=
  (Model_save polls_with_ticket None ticket_3 ticket_world).2.

Definition ticket_3_snapshot : Row :=
  default ∅ (last (history_rows ticket_3_world "HistoricalTicket")).

(** The names under which [create_history_model] puts something else
    than a copied field into the class dictionary. *)
Definition extra_names : list string :=
  ["history_id"; "history_date"; "history_user"; "history_type"; "history_object";
   "instance"; "instance_type"; "revert_url"; "__str__"; "Meta"].

(** The fields of the model have distinct names, none of them an extra
    name, and none has the attribute [history_id]. *)
Definition plain_names (model : Model) : Prop :=
  NoDup (f_name <$> m_fields model) ∧
  Forall (λ f, f_name f ∉ extra_names) (m_fields model) ∧
  "history_id" ∉ f_attname <$> m_fields model.

(** The historical model of [Ticket]. *)
Definition HistoricalTicket : HistoricalModel :=
  default (mkHistoricalModel "" [] ∅)
          (history_model_of polls_with_ticket ticket_world history ticket_1).

(** The [HistoricalRecords] objects that [register] made for [Poll] and
    for [Ticket]. *)
Definition poll_history : HistoricalRecords :=
  mkHistoricalRecords None "+" None false M2M_None ["Model"] "history" "polls.models"
                      (Some "Poll").

Definition ticket_history : HistoricalRecords :=
  mkHistoricalRecords None "+" None false M2M_None ["Model"] "history" "polls.models"
                      (Some "Ticket").

(** The snapshot of the first ticket. *)
Definition ticket_1_snapshot : Row :=
  default ∅ (head (history_rows two_tickets_world "HistoricalTicket")).

(** The process after [register(Poll)] alone, and after the [finalize]
    of a [HistoricalRecords] attribute of [Poll]. *)
Definition poll_world : World :=
  (register polls Poll None "history" default_config empty_world).2.

Definition finalized_poll_world : World :=
  (finalize polls (register polls) poll_history Poll empty_world).2.

(** ** The reconciliation of a relationship, as the specification has it *)

(** The related object that [item] refers to by [field], when the
    reference is not null and its row exists. *)
Definition target_of (django : Django) (w : World) (field : Field) (item : Obj)
    : option Obj :=
  match o_vals item (f_attname field) with
  | VNone => None
  | v =>
      let to := class_of django (default "" (f_to field)) in
      head (objects_filter w to (λ r, bool_decide (r (m_pk to) = v)))
  end.

(** The rows of the through model that link the instance, those of
    [pk_set] when it is given and not empty. *)
Definition relationship_items (django : Django) (w : World) (sender : Model)
    (source target : Field) (instance : Obj) (pk_set : option (list Z)) : list Obj :=
  let items :=
    objects_filter w sender (λ r, bool_decide (r (f_attname source) = pk django instance)) in
  match pk_set with
  | None | Some [] => items
  | Some pk_set => filter (λ item, value_in (o_vals item (f_attname target)) pk_set = true) items
  end.

(** [target] declares the relationship and is not among [others]. *)
Definition only_here (django : Django) (through : string) (others : list Obj)
    (target : Obj) : bool :=
  has_m2m_field django target through && negb (existsb (Model_eq django target) others).

(** The symmetric difference of the old and the new members, among the
    objects that declare the relationship: the old ones that are not new,
    then the new ones that were not old. *)
Definition changed_targets (django : Django) (through : string) (old new : list Obj)
    : list Obj :=
  filter (λ t, only_here django through new t = true) old ++
  filter (λ t, only_here django through old t = true) new.

(** What the handler of [post_add] does after a [pre_clear], in terms of
    the members before and after. *)
Definition reconciliation (django : Django) (self : HistoricalRecords) (sender : Model)
    (target : Field) (instance : Obj) (other_items items : list Obj) : Py Obj :=
  w <- get ;;
  let old := omap (target_of django w target) other_items in
  let new := omap (target_of django w target) items in
  for_each items (λ item, create_historical_record django self item "+") ;;;
  for_each (changed_targets django (m_name sender) old new)
    (λ related, create_historical_record django self related "~") ;;;
  ret (set___pre_clear_items None instance).

(** The article with categories: [Article] registered with all its
    many-to-many fields, three articles and two categories. *)
Definition all_m2m_config : RecordsConfig :=
  mkConfig None (BasesSeq ["Model"]) "+" None false ALL_M2M_FIELDS [].

Definition through_history : HistoricalRecords :=
  mkHistoricalRecords None "+" None false M2M_None ["Model"] "history" "polls.models"
                      (Some "Article_categories").

Definition with_rows (table : string) (rows : list (list (string * value))) (w : World)
    : World :=
  set_db table (live_row <$> rows) w.

Definition articles_world : World :=
  with_rows "polls_category"
    [[("id", VInt 1); ("name", VStr "news")]; [("id", VInt 2); ("name", VStr "sport")]]
    (with_rows "polls_article"
       [[("id", VInt 1); ("title", VStr "one")]; [("id", VInt 2); ("title", VStr "two")];
        [("id", VInt 3); ("title", VStr "three")]]
       (register polls Article None "history" all_m2m_config empty_world).2).

Definition through_row (id article category : Z) : list (string * value) :=
  [("id", VInt id); ("article_id", VInt article); ("category_id", VInt category)].

Definition article_1 : Obj := instance_of "Article" [("id", VInt 1); ("title", VStr "one")].
Definition category_1 : Obj := instance_of "Category" [("id", VInt 1); ("name", VStr "news")].

(** [category_1.article_set] goes from the articles 1 and 2 to the
    articles 2 and 3: the state before [pre_clear], the handler's result,
    the state before [post_add], the handler's result. *)
Definition reverse_before : World :=
  with_rows "polls_article_categories" [through_row 1 1 1; through_row 2 2 1] articles_world.

Definition reverse_cleared : Outcome Obj * World :=
  m2m_changed polls through_history "pre_clear" category_1 Article_categories
    (mkKwargs "Article" None) reverse_before.

Definition reverse_cleared_instance : Obj :=
  match reverse_cleared.1 with
  | Return instance => instance
  | Raise _ => category_1
  end.

Definition reverse_after : World :=
  with_rows "polls_article_categories" [through_row 3 2 1; through_row 4 3 1]
    reverse_cleared.2.

Definition reverse_added : Outcome Obj * World :=
  m2m_changed polls through_history "post_add" reverse_cleared_instance Article_categories
    (mkKwargs "Article" (Some [2; 3])) reverse_after.

(** [article_1.categories] goes from the category 1 to the category 2. *)
Definition forward_before : World :=
  with_rows "polls_article_categories" [through_row 1 1 1] articles_world.

Definition forward_cleared : Outcome Obj * World :=
  m2m_changed polls through_history "pre_clear" article_1 Article_categories
    (mkKwargs "Category" None) forward_before.

Definition forward_cleared_instance : Obj :=
  match forward_cleared.1 with
  | Return instance => instance
  | Raise _ => article_1
  end.

Definition forward_after : World :=
  with_rows "polls_article_categories" [through_row 2 1 2] forward_cleared.2.

Definition forward_added : Outcome Obj * World :=
  m2m_changed polls through_history "post_add" forward_cleared_instance Article_categories
    (mkKwargs "Category" (Some [2])) forward_after.

(** The tags of the rows of every historical table, and the keys of the
    instances that the rows of a table are snapshots of. *)
Definition history_tags (w : World) : list (string * list (option value)) :=
  (λ kv : string * list Row, (kv.1, (λ r, r !! "history_type") <$> kv.2))
    <$> map_to_list (tables w).

Definition history_keys (w : World) (table : string) : list (option value) :=
  (λ r : Row, r !! "id") <$> history_rows w table.

Definition returned {A} (r : Outcome A) : bool :=
  match r with
  | Return _ => true
  | Raise _ => false
  end.

(** ** Vocabulary of the properties *)

(** The keyword arguments of the call to [create], when no keyword is
    given twice. *)
Definition explicit_kwargs (w : World) (instance : Obj) (history_type : string)
    : list (string * value) :=
  [("history_date", VInt (default (clock w) (o__history_date instance)));
   ("history_type", VStr history_type);
   ("history_user", user_value (history_user_of w instance))].

Definition create_kwargs (django : Django) (w : World) (instance : Obj)
    (history_type : string) : Row :=
  list_to_map (explicit_kwargs w instance history_type)
  ∪ instance_attrs (class_of django (o_class instance)) instance.

(** A computation respects a relation between states when every run,
    also one that raises, ends in a state related to the one it started in. *)
Definition respects (R : relation World) {A} (m : Py A) : Prop := ∀ w, R w (m w).2.

(** The states with the same historical tables. *)
Definition same_tables (w w' : World) : Prop := tables w' = tables w.

(** No model of the project has a field whose attribute is called
    [history_id]. *)
Definition plain_identifiers (django : Django) : Prop :=
  ∀ c, "history_id" ∉ f_attname <$> m_fields (class_of django c).

Definition keeps_increasing (w w' : World) : Prop :=
  increasing_ids w → increasing_ids w'.

(** Every exception that [m] raises satisfies [E]. *)
Definition raises_only (E : Exception → Prop) {A} (m : Py A) : Prop :=
  ∀ w e w', m w = (Raise e, w') → E e.

Definition builtin_error (e : Exception) : Prop := is_domain_error e = false.

(** The states with the same live tables. *)
Definition same_db (w w' : World) : Prop := db w' = db w.

(** The items whose target is [t]. *)
Definition with_target (django : Django) (w : World) (target : Field) (t : Obj)
    (items : list Obj) : list Obj :=
  filter (λ i, from_option (Model_eq django t) false (target_of django w target i) = true)
         items.

(** The states that differ in the historical tables only. *)
Definition only_tables_differ (w w' : World) : Prop :=
  registered_models w' = registered_models w ∧
  class_dict w' = class_dict w ∧
  simple_history_manager_attribute w' = simple_history_manager_attribute w ∧
  module_dict w' = module_dict w ∧
  receivers w' = receivers w ∧
  db w' = db w ∧
  clock w' = clock w ∧
  thread_request_user w' = thread_request_user w.

(** Every historical row has an integer timestamp and an integer
    identifier. *)
Definition all_stamped (w : World) : Prop :=
  ∀ table, Forall stamped (history_rows w table).

Definition keeps_stamped (w w' : World) : Prop := all_stamped w → all_stamped w'.

(** The rows of [w'] are those of [w] followed, in every table, by rows
    whose tag is one of [tags]. *)
Definition tagged (tags : list string) (r : Row) : Prop :=
  ∃ t, t ∈ tags ∧ r !! "history_type" = Some (VStr t).

Definition appends_tagged (tags : list string) (w w' : World) : Prop :=
  ∀ table, ∃ new,
    history_rows w' table = history_rows w table ++ new ∧ Forall (tagged tags) new.

(** The tags that [m2m_changed] writes for an action: [+] for an
    addition, with [~] when a clear went before; [-] for a removal or a
    clear; none for the other actions. *)
Definition m2m_tags (action : string) (instance : Obj) : list string :=
  if decide (action = "post_add") then
    match o___pre_clear_items instance with
    | Some _ => ["+"; "~"]
    | None => ["+"]
    end
  else if decide (action = "pre_remove") then ["-"]
  else if decide (action = "pre_clear") then ["-"]
  else [].

(** The through model of a relation of [Poll] to itself. *)
Definition Poll_related : Model :=
  mkModel "Poll_related" "polls.models" ["Model"] ["Poll_related"; "Model"]
    "polls" "poll_related" "polls_poll_related" "poll-poll relationship" false false true
    "id"
    [auto_id "Poll_related";
     foreign_key "from_poll" "Poll" "Poll_related";
     foreign_key "to_poll" "Poll" "Poll_related"] [].

(** The test by which [finalize] decides whether [sender] is the class
    that [self] stands for: there is no hint, the hint is [sender], or
    [self] is inherited and [sender] derives from the hint. *)
Definition applies_to (self : HistoricalRecords) (sender : Model) : bool :=
  match cls self with
  | None => true
  | Some hint_class =>
      bool_decide (hint_class = m_name sender) ||
      (inherit self && bool_decide (hint_class ∈ m_mro sender))
  end.

(** The four receivers that [finalize] connects, in their order. *)
Definition handlers_of (self : HistoricalRecords) (sender : string) : list Receiver :=
  [mkReceiver sig_post_save (Some sender) self;
   mkReceiver sig_pre_delete (Some sender) self;
   mkReceiver sig_post_delete (Some sender) self;
   mkReceiver sig_m2m_changed (Some sender) self].

(** The verbose name of a historical model. *)
Definition historical_verbose_name (self : HistoricalRecords) (model : Model) : string :=
  match user_set_verbose_name self with
  | Some n => if decide (n = "") then "historical " +:+ m_verbose_name model else n
  | None => "historical " +:+ m_verbose_name model
  end.

(** The process after the class body of [Poll] with the attribute
    [history = HistoricalRecords()] has run. *)
Definition declared_poll_world : World :=
  (contribute_to_class polls history Poll "history" empty_world).2.

(** A proxy of [Poll], and the project with it. *)
Definition PollProxy : Model :=
  mkModel "PollProxy" "polls.models" ["Poll"] ["PollProxy"; "Poll"; "Model"] "polls"
    "pollproxy" "polls_poll" "poll proxy" true false false "id"
    [auto_id "Poll"; plain_field "question" CharField "Poll";
     plain_field "pub_date" DateTimeField "Poll"] [].

Definition polls_with_proxy : Django :=
  mkDjango (λ _, "django.db.backends.sqlite3") "auth.User" (λ label, Some label)
           (λ name, if decide (name = "PollProxy") then PollProxy else polls_class false name).

Definition proxy_history : HistoricalRecords :=
  mkHistoricalRecords None "+" None false M2M_None ["Model"] "history" "polls.models"
                      (Some "PollProxy").

(** The process with the proxy after [register(Poll)]. *)
Definition original_tracked_world : World :=
  (register polls_with_proxy Poll None "history" default_config empty_world).2.

(** The module that [register] gives to the [HistoricalRecords] object. *)
Definition registration_module (model : Model) (app : option string) : string :=
  match app with
  | Some a => if decide (a = "") then m_module model else a +:+ ".models"
  | None => m_module model
  end.

(** Registration only adds: no table leaves the registry, no class stops
    being tracked, the receivers stay connected in their order, and the
    tables, the clock and the user of the request are as before. *)
Definition grows (w w' : World) : Prop :=
  dom (registered_models w) ⊆ dom (registered_models w') ∧
  dom (simple_history_manager_attribute w) ⊆ dom (simple_history_manager_attribute w') ∧
  receivers w `prefix_of` receivers w' ∧
  tables w' = tables w ∧ db w' = db w ∧ clock w' = clock w ∧
  thread_request_user w' = thread_request_user w.

(** What [not_registered] looks up for a model. *)
Definition registry_key (model : Model) : string :=
  if m_proxy model then m_db_table model +:+ m_name model else m_db_table model.

(** [setup_m2m_history] leaves the through model of [field] alone: it
    carries a [HistoricalRecords] attribute, or it was declared by the
    user, or it is registered. *)
Definition left_alone (django : Django) (w : World) (field : ManyToManyField) : Prop :=
  has_HistoricalRecords w (m2m_through field) = true ∨
  m_auto_created (class_of django (m2m_through field)) = false ∨
  is_Some (registered_models w !! registry_key (class_of django (m2m_through field))).

(** ** Rows in the order of recording *)

(** Django's clock at a later time. *)
Definition set_clock (t : Z) (w : World) : World :=
  mkWorld (registered_models w) (class_dict w)
    (simple_history_manager_attribute w) (module_dict w) (receivers w)
    (tables w) (db w) t (thread_request_user w).

(** [r1] was recorded before [r2] and is not dated after it. *)
Definition older (r1 r2 : Row) : Prop :=
  history_date_of r1 ≤ history_date_of r2 ∧ history_id_of r1 < history_id_of r2.

(** Every historical table holds its rows in the order of recording, with
    timestamps that do not decrease and identifiers that grow, and no row
    is dated after the clock. *)
Definition in_recording_order (w : World) : Prop :=
  ∀ table,
    Forall stamped (history_rows w table) ∧
    StronglySorted older (history_rows w table) ∧
    Forall (λ r, history_date_of r ≤ clock w) (history_rows w table).

Definition keeps_recording_order (w w' : World) : Prop :=
  in_recording_order w → in_recording_order w'.

(** A poll that carries a [_history_date]. *)
Definition dated_poll (id date : Z) : Obj :=
  mkObj "Poll" (live_row [("id", VInt id); ("question", VStr "When?"); ("pub_date", VInt 0)])
        false (Some date) None None.

(** The process after the first save of a poll dated 100 and then of a
    poll dated 50. *)
Definition backdated_world : World :=
  (post_save polls poll_history (dated_poll 2 50) true false
     (post_save polls poll_history (dated_poll 1 100) true false polls_world).2).2.

(** The process after the first save of [poll_1] and the passing of time,
    and after a second save of it. *)
Definition poll_saved_world : World :=
  set_clock 5 (post_save polls poll_history poll_1 true false polls_world).2.

Definition poll_saved_twice_world : World :=
  (post_save polls poll_history poll_1 false false poll_saved_world).2.

(** * Properties *)

(** ** Copies of the fields *)

Lemma copy_fields_lookup write_engine model n c :
  copy_fields write_engine model !! n = Some c →
  ∃ field, field ∈ m_fields model ∧ c = copy_field write_engine field ∧ n = f_name c.
Proof.
  unfold copy_fields.
  assert (∀ l (acc : gmap string Field),
    foldl (λ fields field,
             let field := copy_field write_engine field in <[f_name field := field]> fields)
          acc l !! n = Some c →
    acc !! n = Some c ∨
    ∃ field, field ∈ l ∧ c = copy_field write_engine field ∧ n = f_name c) as Hgen.
  { induction l as [|x l IH]; intros acc H; simpl in H; [by left|].
    apply IH in H as [H | (f & Hin & -> & ->)].
    - destruct (decide (f_name (copy_field write_engine x) = n)) as [<-|Hne].
      + rewrite lookup_insert_eq in H. injection H as <-.
        right. exists x. split; [apply list_elem_of_here | done].
      + rewrite lookup_insert_ne in H by done. by left.
    - right. exists f. split; [by apply list_elem_of_further | done]. }
  intros H. apply Hgen in H as [H | H]; [by rewrite lookup_empty in H | done].
Qed.

Lemma transform_field_not_foreign_key write_engine field :
  is_ForeignKey (f_class field) = false →
  is_ForeignKey (f_class (transform_field write_engine field)) = false.
Proof.
  intros Hfk. unfold transform_field, convert_auto_field.
  destruct field as [n c]; simpl in *.
  destruct c; simpl in *; try discriminate;
    repeat (case_decide || case_match); simpl; done.
Qed.

Lemma copy_field_foreign_key write_engine field :
  is_ForeignKey (f_class (copy_field write_engine field)) = true →
  is_ForeignKey (f_class field) = true ∧
  copy_field write_engine field =
    new_foreign_key
      (if f_one_to_one field || is_OneToOneField (f_class field)
       then ForeignKey else f_class field)
      field (field_arguments field).
Proof.
  unfold copy_field.
  destruct (is_OrderWrt (f_class field)) eqn:Ho.
  - simpl. intros H.
    rewrite transform_field_not_foreign_key in H; done.
  - destruct (is_ForeignKey (f_class field)) eqn:Hfk; [done|].
    intros H. rewrite transform_field_not_foreign_key in H; done.
Qed.

(** C7.  Every foreign key among the copied fields has no database
    constraint, does nothing on deletion of the referenced row, is
    nullable, not unique, not a primary key and indexed; the host therefore
    keeps a row that holds it when the referenced row is deleted.  It is
    the copy of a foreign key of the tracked model to the same target. *)
Theorem copied_foreign_key_loosely_constrained write_engine model n c :
  copy_fields write_engine model !! n = Some c →
  is_ForeignKey (f_class c) = true →
  loosely_constrained c ∧
  referenced_delete_effect c = RowKept ∧
  ∃ old, old ∈ m_fields model ∧ is_ForeignKey (f_class old) = true ∧
         f_name old = n ∧ f_to c = f_to old.
Proof.
  intros Hc Hfk.
  apply copy_fields_lookup in Hc as (old & Hin & -> & ->).
  apply copy_field_foreign_key in Hfk as [Hold Heq].
  rewrite Heq. split; [by repeat split|].
  split; [done|].
  exists old. by repeat split.
Qed.

(** ** Recording a snapshot *)

(** Membership in a list that is written out. *)
Ltac in_list :=
  unfold bookkeeping;
  repeat first [apply list_elem_of_here | apply list_elem_of_further].

Lemma instance_attrs_lookup model instance a :
  instance_attrs model instance !! a =
    if bool_decide (a ∈ f_attname <$> m_fields model)
    then Some (o_vals instance a) else None.
Proof.
  unfold instance_attrs.
  assert (∀ l (acc : Row),
    foldl (λ attrs field, <[f_attname field := o_vals instance (f_attname field)]> attrs)
          acc l !! a =
    if bool_decide (a ∈ f_attname <$> l) then Some (o_vals instance a) else acc !! a) as Hgen.
  { induction l as [|x l IH]; intros acc; simpl; [done|].
    rewrite IH. destruct (decide (a = f_attname x)) as [->|Hne].
    - rewrite lookup_insert_eq.
      rewrite (bool_decide_eq_true_2 (f_attname x ∈ f_attname x :: _)) by apply list_elem_of_here.
      by case_bool_decide.
    - rewrite lookup_insert_ne by done.
      case_bool_decide as H1; case_bool_decide as H2; try done.
      + exfalso. apply H2. by apply list_elem_of_further.
      + exfalso. apply elem_of_cons in H2 as [?|?]; done. }
  rewrite Hgen. by rewrite lookup_empty.
Qed.

Lemma get_history_user_eq self instance w :
  get_history_user self instance w = (Return (history_user_of w instance), w).
Proof.
  unfold get_history_user, history_user_of.
  destruct (o__history_user instance); [done|].
  unfold bind, get, ret. simpl.
  destruct (thread_request_user w) as [u|]; [|done].
  by destruct (is_authenticated u).
Qed.


Lemma explicit_kwargs_lookup w instance history_type a :
  a ∉ bookkeeping →
  (list_to_map (explicit_kwargs w instance history_type) : Row) !! a = None.
Proof.
  unfold bookkeeping. rewrite !not_elem_of_cons. intros (?&?&?&?&_).
  simpl. by rewrite !lookup_insert_ne.
Qed.

(** What a call of [create_historical_record] can do: raise and leave
    the state as it is, or return after appending one row, which holds the
    keyword arguments and the identifier, given or new. *)
Lemma create_historical_record_inv django self instance history_type w r w' :
  create_historical_record django self instance history_type w = (r, w') →
  (w' = w ∧ ∃ e, r = Raise e) ∨
  ∃ history_model row,
    history_model_of django w self instance = Some history_model ∧
    r = Return tt ∧
    w' = set_tables (hm_name history_model)
           (history_rows w (hm_name history_model) ++ [row]) w ∧
    let kwargs := create_kwargs django w instance history_type in
    let rows := history_rows w (hm_name history_model) in
    (∀ a, a ∈ f_attname <$> m_fields (class_of django (o_class instance)) →
          kwargs !! a = Some (o_vals instance a) ∧
          a ∉ ["history_date"; "history_type"; "history_user"]) ∧
    ((row = <["history_id" := VInt (next_id rows)]> kwargs ∧
      (kwargs !! "history_id" = None ∨ kwargs !! "history_id" = Some VNone)) ∨
     (row = kwargs ∧ ∃ z, kwargs !! "history_id" = Some (VInt z) ∧ z ∉ row_ids rows)).
Proof.
  unfold create_historical_record, history_model_of.
  unfold bind at 1. unfold get at 1. simpl.
  unfold bind at 1. rewrite get_history_user_eq.
  destruct (lookup_mro _ _ _) as [[ | hm | ]|] eqn:Hm;
    try (unfold raise; intros [= <- <-]; left; by eauto).
  unfold bind at 1. unfold keyword_arguments.
  destruct (find _ _) as [kv|] eqn:Hfind; [unfold raise; intros [= <- <-]; left; by eauto|].
  unfold ret. fold (explicit_kwargs w instance history_type).
  fold (create_kwargs django w instance history_type).
  assert (∀ a, a ∈ f_attname <$> m_fields (class_of django (o_class instance)) →
            create_kwargs django w instance history_type !! a = Some (o_vals instance a) ∧
            a ∉ ["history_date"; "history_type"; "history_user"])
    as Hattrs.
  { intros a Ha. unfold create_kwargs.
    assert (instance_attrs (class_of django (o_class instance)) instance !! a
            = Some (o_vals instance a)) as Hattr
      by (rewrite instance_attrs_lookup; by rewrite bool_decide_eq_true_2).
    assert (a ∉ ["history_date"; "history_type"; "history_user"]) as Hb.
    { intros Hb. simpl in Hfind. repeat case_bool_decide; try done.
      rewrite !elem_of_cons in Hb.
      destruct Hb as [->|[->|[->|[]%elem_of_nil]]]; rewrite Hattr in *; eauto. }
    split; [|done].
    rewrite lookup_union_r; [done|].
    rewrite !not_elem_of_cons in Hb. destruct Hb as (?&?&?&_).
    simpl. by rewrite !lookup_insert_ne. }
  unfold Manager_create.
  case_bool_decide as Hdom; [|unfold raise; intros [= <- <-]; left; by eauto].
  unfold bind, get, modify, raise.
  destruct (create_kwargs _ _ _ _ !! "history_id") as [[ | z | | ]|] eqn:Hid.
  - intros [= <- <-]. right.
    exists hm, (<["history_id" := VInt (next_id (history_rows w (hm_name hm)))]>
                  (create_kwargs django w instance history_type)).
    do 3 (split; [done|]). split; [exact Hattrs|].
    left. split; [done | by right].
  - case_bool_decide as Hz; intros [= <- <-]; [left; by eauto|].
    right. exists hm, (create_kwargs django w instance history_type).
    do 3 (split; [done|]). split; [exact Hattrs|].
    right. split; [done|]. by exists z.
  - intros [= <- <-]. left; by eauto.
  - intros [= <- <-]. left; by eauto.
  - intros [= <- <-]. right.
    exists hm, (<["history_id" := VInt (next_id (history_rows w (hm_name hm)))]>
                  (create_kwargs django w instance history_type)).
    do 3 (split; [done|]). split; [exact Hattrs|].
    left. split; [done | by left].
Qed.


Lemma create_kwargs_lookup django w instance history_type a :
  a ∉ f_attname <$> m_fields (class_of django (o_class instance)) →
  create_kwargs django w instance history_type !! a =
    (list_to_map (explicit_kwargs w instance history_type) : Row) !! a.
Proof.
  intros Ha. unfold create_kwargs.
  apply lookup_union_l. rewrite instance_attrs_lookup.
  by rewrite bool_decide_eq_false_2.
Qed.

Lemma create_kwargs_attr django w instance history_type a :
  a ∈ f_attname <$> m_fields (class_of django (o_class instance)) →
  a ∉ bookkeeping →
  create_kwargs django w instance history_type !! a = Some (o_vals instance a).
Proof.
  intros Ha Hb. unfold create_kwargs.
  rewrite lookup_union_r by by apply explicit_kwargs_lookup.
  rewrite instance_attrs_lookup. by rewrite bool_decide_eq_true_2.
Qed.


(** ** Computations that keep a relation between the states *)

Section Respects.
Context (R : relation World) `{!PreOrder R}.

Lemma respects_ret {A} (a : A) : respects R (ret a).
Proof. intros w. simpl. reflexivity. Qed.

Lemma respects_raise {A} e : respects R (@raise A e).
Proof. intros w. simpl. reflexivity. Qed.

Lemma respects_get : respects R get.
Proof. intros w. simpl. reflexivity. Qed.

Lemma respects_modify f : (∀ w, R w (f w)) → respects R (modify f).
Proof. intros H w. apply H. Qed.

Lemma respects_bind {A B} (m : Py A) (k : A → Py B) :
  respects R m → (∀ a, respects R (k a)) → respects R (bind m k).
Proof.
  intros Hm Hk w. unfold bind. specialize (Hm w).
  destruct (m w) as [[a|e] w1]; simpl in *; [|done].
  etrans; [exact Hm | apply Hk].
Qed.

Lemma respects_for_each {A} (xs : list A) body :
  (∀ x, respects R (body x)) → respects R (for_each xs body).
Proof.
  intros H. induction xs as [|x xs IH]; simpl.
  - apply respects_ret.
  - apply respects_bind; [apply H | by intros _].
Qed.
End Respects.

(** One step of a proof that a handler respects a relation: the shape of
    the code decides the lemma. *)
Ltac respects_step :=
  match goal with
  | |- respects _ (bind _ _) => apply respects_bind; [done| |intros ?]
  | |- respects _ (ret _) => by apply respects_ret
  | |- respects _ (raise _) => by apply respects_raise
  | |- respects _ get => by apply respects_get
  | |- respects _ (for_each _ _) => apply respects_for_each; [done|intros ?]
  | |- respects _ (if ?b then _ else _) => destruct b
  | |- respects _ (match ?x with _ => _ end) => destruct x
  | H : ∀ a b c, respects _ (create_historical_record _ a b c)
    |- respects _ (create_historical_record _ _ _ _) => apply H
  end.

Section Handlers.
Context (django : Django) (R : relation World) `{!PreOrder R}.
Hypothesis record_respects :
  ∀ self instance history_type,
    respects R (create_historical_record django self instance history_type).

Lemma post_save_respects self instance created raw :
  respects R (post_save django self instance created raw).
Proof. unfold post_save. repeat respects_step. Qed.

Lemma post_delete_respects self instance :
  respects R (post_delete django self instance).
Proof. unfold post_delete. repeat respects_step. Qed.

Lemma pre_delete_respects self instance :
  respects R (pre_delete django self instance).
Proof. unfold pre_delete. repeat respects_step. Qed.

Lemma related_object_respects target item :
  respects R (related_object django target item).
Proof. unfold related_object. repeat respects_step. Qed.

Lemma items_of_target_respects target_field target items :
  respects R (items_of_target django target_field target items).
Proof.
  induction items as [|i items IH]; simpl; [by apply respects_ret|].
  apply respects_bind; [done|apply related_object_respects|intros ?].
  apply respects_bind; [done|done|intros ?].
  repeat respects_step.
Qed.

Lemma record_change_respects self sender target_field others item :
  respects R (record_change django self sender target_field others item).
Proof.
  unfold record_change.
  apply respects_bind; [done|apply related_object_respects|intros [target|]].
  - destruct (has_m2m_field _ _ _); [|by apply respects_ret].
    apply respects_bind; [done|apply items_of_target_respects|intros ?].
    repeat respects_step.
  - by apply respects_raise.
Qed.

Lemma m2m_changed_respects self action instance sender kwargs :
  respects R (m2m_changed django self action instance sender kwargs).
Proof.
  unfold m2m_changed.
  destruct (relation_fields _ _ _ _) as [source_field target_field].
  apply respects_bind; [done|by apply respects_get|intros w0].
  apply respects_bind; [done|repeat respects_step|intros items0].
  apply respects_bind; [done|repeat respects_step|intros items].
  apply respects_bind; [done| |intros _].
  { apply respects_for_each; [done|intros item]. repeat respects_step. }
  destruct (decide (action = "pre_clear")); [by apply respects_ret|].
  destruct (decide (action = "post_add")); [|by apply respects_ret].
  destruct (o___pre_clear_items instance) as [other_items|]; [|by apply respects_ret].
  apply respects_bind; [done| |intros _].
  { apply respects_for_each; [done|intros item]. apply record_change_respects. }
  apply respects_bind; [done| |intros _].
  { apply respects_for_each; [done|intros item]. apply record_change_respects. }
  by apply respects_ret.
Qed.

Lemma send_post_save_respects instance created raw :
  respects R (send_post_save django instance created raw).
Proof.
  unfold send_post_save.
  apply respects_bind; [done|by apply respects_get|intros w0].
  apply respects_for_each; [done|intros r]. apply post_save_respects.
Qed.
End Handlers.

(** ** The historical tables only grow *)

#[global] Instance extends_preorder : PreOrder extends.
Proof.
  split.
  - intros w table. done.
  - intros w1 w2 w3 H12 H23 table. etrans; [apply H12 | apply H23].
Qed.

Lemma history_rows_set_tables w k rows table :
  history_rows (set_tables k rows w) table =
    if decide (k = table) then rows else history_rows w table.
Proof.
  unfold history_rows, set_tables. simpl.
  case_decide as Hk; [subst; by rewrite lookup_insert_eq|by rewrite lookup_insert_ne].
Qed.

Lemma extends_append w k row :
  extends w (set_tables k (history_rows w k ++ [row]) w).
Proof.
  intros table. rewrite history_rows_set_tables.
  case_decide as Hk; [subst; by apply prefix_app_r|done].
Qed.

Lemma create_historical_record_extends django self instance history_type :
  respects extends (create_historical_record django self instance history_type).
Proof.
  intros w.
  destruct (create_historical_record django self instance history_type w) as [r w'] eqn:H.
  apply create_historical_record_inv in H as [[-> _]|(hm & row & _ & _ & -> & _)]; simpl.
  - done.
  - apply extends_append.
Qed.

#[global] Instance same_tables_preorder : PreOrder same_tables.
Proof.
  split; [done|]. intros w1 w2 w3 H12 H23. unfold same_tables in *. congruence.
Qed.

Lemma same_tables_extends w w' : same_tables w w' → extends w w'.
Proof. intros H table. unfold history_rows. by rewrite H. Qed.

Ltac same_tables_step :=
  match goal with
  | |- respects ?R (modify _) => by apply (respects_modify R)
  | |- respects ?R (bind _ _) => apply (respects_bind R); [|intros ?]
  | |- respects ?R (ret _) => by apply (respects_ret R)
  | |- respects ?R (raise _) => by apply (respects_raise R)
  | |- respects ?R get => by apply (respects_get R)
  | |- respects ?R (for_each _ _) => apply (respects_for_each R); intros ?
  | |- respects _ (if ?b then _ else _) => destruct b
  | |- respects _ (match ?x with _ => _ end) => destruct x
  end.

Section Registration.
Context (django : Django).

Lemma HistoricalRecords__init___same_tables c :
  respects same_tables (HistoricalRecords__init__ c).
Proof. unfold HistoricalRecords__init__. repeat same_tables_step. Qed.

Lemma create_history_model_same_tables self model :
  respects same_tables (create_history_model django self model).
Proof. unfold create_history_model. repeat same_tables_step. Qed.

Lemma not_registered_same_tables model :
  respects same_tables (not_registered model).
Proof. unfold not_registered. repeat same_tables_step. Qed.

Lemma setup_through_same_tables register_through field :
  (∀ m, respects same_tables (register_through m)) →
  respects same_tables (setup_through django register_through field).
Proof.
  intros H. unfold setup_through.
  same_tables_step; [same_tables_step|].
  destruct (negb _); [|same_tables_step].
  apply (respects_bind same_tables); [apply not_registered_same_tables|intros ?].
  destruct (_ && _); [|same_tables_step].
  apply (respects_bind same_tables); [apply HistoricalRecords__init___same_tables|intros ?].
  apply (respects_bind same_tables); [same_tables_step|intros ?]. apply H.
Qed.

Lemma setup_m2m_history_same_tables register_through self cls :
  (∀ m, respects same_tables (register_through m)) →
  respects same_tables (setup_m2m_history django register_through self cls).
Proof.
  intros H. unfold setup_m2m_history.
  destruct (m2m_fields self) as [| |[|name names]|[|]];
    try (by apply (respects_ret same_tables));
    try (by apply (respects_raise same_tables)).
  - apply (respects_for_each same_tables); intros field.
    by apply setup_through_same_tables.
  - apply (respects_for_each same_tables); intros field_name.
    apply (respects_bind same_tables); [|intros ?].
    + unfold many_to_many_field. repeat same_tables_step.
    + by apply setup_through_same_tables.
Qed.

Lemma finalize_same_tables register_ self sender :
  (∀ m app name c, respects same_tables (register_ m app name c)) →
  respects same_tables (finalize django register_ self sender).
Proof.
  intros H. unfold finalize.
  assert (respects same_tables
    (w <- get ;;
     if bool_decide (is_Some (simple_history_manager_attribute w !! m_name sender)) then
       raise (MultipleRegistrationsError
                (m_app_label sender +:+ "." +:+ m_name sender +:+
                 " registered multiple times for history tracking."))
     else
       history_model <-
         (if m_proxy sender then
            match filter (λ b, m_abstract (class_of django b) = false) (m_bases sender) with
            | [] => raise IndexError
            | original :: _ =>
                let original_class := class_of django original in
                unregistered <- not_registered original_class ;;
                (if unregistered : bool then
                   register_ original_class None (manager_name self)
                     (mkConfig (user_set_verbose_name self) (BasesSeq (bases self))
                        (user_related_name self) None false (m2m_fields self)
                        ["records_class"])
                 else ret tt) ;;;
                w <- get ;;
                match lookup_mro (class_dict w) (manager_name self) (m_mro sender) with
                | Some (CA_HistoryDescriptor history_model) => ret history_model
                | _ => raise (AttributeError (manager_name self))
                end
            end
          else
            history_model <- create_history_model django self sender ;;
            modify (set_module_attr (module self) (hm_name history_model) history_model) ;;;
            ret history_model) ;;
       modify (connect_handlers self (m_name sender)) ;;;
       modify (set_class_attr (m_name sender) (manager_name self)
                 (CA_HistoryDescriptor history_model)) ;;;
       modify (set_manager_attribute (m_name sender) (manager_name self)))) as Hreg.
  { same_tables_step; [same_tables_step|].
    destruct (bool_decide _); [same_tables_step|].
    apply (respects_bind same_tables); [ |intros ?]; [|repeat same_tables_step].
    destruct (m_proxy sender).
    - destruct (filter _ _) as [|original ?]; [same_tables_step|].
      apply (respects_bind same_tables); [apply not_registered_same_tables|intros [|]].
      + apply (respects_bind same_tables); [apply H|intros ?]. repeat same_tables_step.
      + repeat same_tables_step.
    - apply (respects_bind same_tables); [apply create_history_model_same_tables|intros ?].
      repeat same_tables_step. }
  destruct (cls self); [|done].
  repeat case_match; try done; same_tables_step.
Qed.

Lemma register_fuel_same_tables fuel model app manager_name records_config :
  respects same_tables (register_fuel django fuel model app manager_name records_config).
Proof.
  revert model app manager_name records_config.
  induction fuel as [|fuel IH]; intros; simpl; [same_tables_step|].
  same_tables_step; [same_tables_step|].
  destruct (bool_decide _); [|same_tables_step].
  apply (respects_bind same_tables); [apply HistoricalRecords__init___same_tables|intros ?].
  apply (respects_bind same_tables); [unfold add_extra_methods; same_tables_step|intros ?].
  apply (respects_bind same_tables); [ |intros ?].
  { apply setup_m2m_history_same_tables. intros m. apply IH. }
  apply (respects_bind same_tables); [ |intros ?].
  { apply finalize_same_tables. intros. apply IH. }
  same_tables_step.
Qed.
End Registration.

Lemma Model_save_base_extends django failure raw instance :
  respects extends (Model_save_base django failure raw instance).
Proof.
  unfold Model_save_base. destruct failure; [by apply (respects_raise extends)|].
  apply (respects_bind extends); [by apply (respects_get extends)|intros w0].
  apply (respects_bind extends); [|intros _].
  - apply (respects_modify extends). intros w. by apply same_tables_extends.
  - apply (send_post_save_respects django extends).
    apply create_historical_record_extends.
Qed.

(** C5.  The handlers of the four signals, registration and
    [save_without_historical_record] leave every historical table with the
    rows it had, in their places, and at most add rows after them; this
    holds also when the operation raises. *)
Theorem historical_tables_append_only django self instance created raw action sender
    kwargs model app name config failure w :
  extends w (post_save django self instance created raw w).2 ∧
  extends w (pre_delete django self instance w).2 ∧
  extends w (post_delete django self instance w).2 ∧
  extends w (m2m_changed django self action instance sender kwargs w).2 ∧
  extends w (register django model app name config w).2 ∧
  extends w (finalize django (register django) self sender w).2 ∧
  extends w (save_without_historical_record (Model_save django failure) instance w).2.
Proof.
  pose proof (create_historical_record_extends django) as Hrec.
  repeat split.
  - apply (post_save_respects django extends Hrec).
  - apply (pre_delete_respects django extends Hrec).
  - apply (post_delete_respects django extends Hrec).
  - apply (m2m_changed_respects django extends Hrec).
  - apply same_tables_extends, register_fuel_same_tables.
  - apply same_tables_extends, finalize_same_tables.
    intros. apply register_fuel_same_tables.
  - unfold save_without_historical_record.
    pose proof (Model_save_base_extends django failure false
                  (set_skip_history_when_saving true instance) w) as H.
    unfold Model_save.
    by destruct (Model_save_base _ _ _ _ _) as [r w'].
Qed.

(** ** Identifiers *)

#[global] Instance keeps_increasing_preorder : PreOrder keeps_increasing.
Proof. split; unfold keeps_increasing; [by intros w|]. intros w1 w2 w3. tauto. Qed.

Lemma next_id_gt rows z : z ∈ row_ids rows → z < next_id rows.
Proof.
  unfold next_id. generalize (row_ids rows) as l. intros l.
  induction l as [|x l IH]; simpl; [by intros ?%elem_of_nil|].
  intros [->|Hin]%elem_of_cons; [lia|]. apply IH in Hin. lia.
Qed.

Lemma row_ids_snoc rows row z :
  row_id row = Some z → row_ids (rows ++ [row]) = row_ids rows ++ [z].
Proof. intros H. unfold row_ids. rewrite omap_app. simpl. by rewrite H. Qed.

Lemma increasing_ids_append w k row :
  row_id row = Some (next_id (history_rows w k)) →
  increasing_ids w →
  increasing_ids (set_tables k (history_rows w k ++ [row]) w).
Proof.
  intros Hid Hw table rows Hrows. unfold set_tables in Hrows. simpl in Hrows.
  destruct (decide (k = table)) as [->|Hne].
  - rewrite lookup_insert_eq in Hrows. injection Hrows as <-.
    assert (Forall (λ r, is_Some (row_id r)) (history_rows w table) ∧
            StronglySorted Z.lt (row_ids (history_rows w table))) as [Hall Hsorted].
    { unfold history_rows. destruct (tables w !! table) as [rows|] eqn:Ht; simpl.
      - by apply Hw in Ht.
      - split; constructor. }
    split.
    + apply Forall_app. split; [done|]. constructor; [by rewrite Hid|constructor].
    + rewrite (row_ids_snoc _ _ _ Hid).
      apply StronglySorted_app_2; [|done|repeat constructor].
      intros x1 x2 Hx1 ->%list_elem_of_singleton. by apply next_id_gt.
  - rewrite lookup_insert_ne in Hrows by done. by apply (Hw table).
Qed.

Lemma create_historical_record_increasing django self instance history_type :
  plain_identifiers django →
  respects keeps_increasing (create_historical_record django self instance history_type).
Proof.
  intros Hplain w.
  destruct (create_historical_record django self instance history_type w) as [r w'] eqn:H.
  apply create_historical_record_inv in H
    as [[-> _]|(hm & row & _ & _ & -> & _ & [[-> _]|[_ (z & Hz & _)]])]; simpl.
  - done.
  - intros Hw. apply increasing_ids_append; [|done].
    unfold row_id. by rewrite lookup_insert_eq.
  - rewrite create_kwargs_lookup in Hz by apply Hplain.
    unfold explicit_kwargs in Hz. simpl in Hz.
    by rewrite !lookup_insert_ne in Hz.
Qed.

Lemma same_tables_keeps_increasing w w' : same_tables w w' → keeps_increasing w w'.
Proof. intros H Hw table rows. rewrite H. apply Hw. Qed.

Lemma increasing_ids_empty : increasing_ids empty_world.
Proof. intros table rows H. simpl in H. by rewrite lookup_empty in H. Qed.

(** In a world with increasing identifiers, a row written later has the
    larger identifier. *)
Lemma increasing_ids_later w table rows i j r1 r2 :
  increasing_ids w → tables w !! table = Some rows →
  rows !! i = Some r1 → rows !! j = Some r2 → (i < j)%nat →
  ∃ a b, row_id r1 = Some a ∧ row_id r2 = Some b ∧ a < b.
Proof.
  intros Hw Ht H1 H2 Hij. destruct (Hw table rows Ht) as [Hall Hsorted].
  clear Hw Ht. revert i j H1 H2 Hij.
  induction rows as [|r rows IH]; intros i j H1 H2 Hij; [done|].
  apply Forall_cons in Hall as [[a Ha] Hall].
  unfold row_ids in Hsorted. simpl in Hsorted. rewrite Ha in Hsorted. simpl in Hsorted.
  apply StronglySorted_cons in Hsorted as [Hlt Hsorted].
  destruct j as [|j]; [lia|]. simpl in H2.
  destruct i as [|i]; simpl in H1.
  - injection H1 as <-.
    destruct (Forall_lookup_1 _ _ _ _ Hall H2) as [b Hb].
    exists a, b. repeat split; try done.
    rewrite Forall_forall in Hlt. apply Hlt.
    apply list_elem_of_omap. exists r2. split; [|done].
    by eapply list_elem_of_lookup_2.
  - apply (IH Hall Hsorted i j); [done|done|lia].
Qed.

(** C8, as amended.  When no model has a field whose attribute is called
    [history_id], the handlers keep the identifiers of every historical
    table increasing in the order of writing, also when they raise: each new
    row gets an identifier larger than all the identifiers in its table. *)
Theorem identifiers_increase django self instance created raw action sender kwargs
    failure w :
  plain_identifiers django →
  increasing_ids w →
  increasing_ids (post_save django self instance created raw w).2 ∧
  increasing_ids (pre_delete django self instance w).2 ∧
  increasing_ids (post_delete django self instance w).2 ∧
  increasing_ids (m2m_changed django self action instance sender kwargs w).2 ∧
  increasing_ids (Model_save django failure instance w).2.
Proof.
  intros Hplain Hw.
  assert (∀ self instance history_type,
    respects keeps_increasing (create_historical_record django self instance history_type))
    as Hrec by (intros; by apply create_historical_record_increasing).
  refine (conj _ (conj _ (conj _ (conj _ _)))).
  - by apply (post_save_respects django keeps_increasing Hrec).
  - by apply (pre_delete_respects django keeps_increasing Hrec).
  - by apply (post_delete_respects django keeps_increasing Hrec).
  - by apply (m2m_changed_respects django keeps_increasing Hrec).
  - revert Hw. unfold Model_save, Model_save_base. destruct failure; [done|].
    apply (respects_bind keeps_increasing); [by apply (respects_get keeps_increasing)|intros w0].
    apply (respects_bind keeps_increasing); [|intros _].
    + apply (respects_modify keeps_increasing). intros w1.
      by apply same_tables_keeps_increasing.
    + by apply (send_post_save_respects django keeps_increasing).
Qed.

(** A closed decidable proposition, by evaluation. *)
Ltac by_evaluation := apply (bool_decide_unpack _); vm_compute; exact I.

Lemma polls_plain_identifiers : plain_identifiers polls.
Proof.
  intros c. simpl. unfold polls_class.
  repeat case_decide; simpl; by_evaluation.
Qed.

Lemma polls_world_tables : tables polls_world = ∅.
Proof. vm_compute. reflexivity. Qed.

Lemma identifiers_increase_witness :
  plain_identifiers polls ∧
  increasing_ids polls_world ∧
  increasing_ids (post_save polls history poll_1 true false polls_world).2 ∧
  increasing_ids (pre_delete polls history poll_1 polls_world).2 ∧
  increasing_ids (post_delete polls history poll_1 polls_world).2 ∧
  increasing_ids
    (m2m_changed polls history "post_add" poll_1 Article_categories
       (mkKwargs "Article" None) polls_world).2 ∧
  increasing_ids (Model_save polls None poll_1 polls_world).2.
Proof.
  assert (increasing_ids polls_world) as Hw.
  { intros table rows H. rewrite polls_world_tables in H. by rewrite lookup_empty in H. }
  split; [exact polls_plain_identifiers|]. split; [exact Hw|].
  exact (identifiers_increase polls history poll_1 true false "post_add"
           Article_categories (mkKwargs "Article" None) None polls_world
           polls_plain_identifiers Hw).
Defined.

(** The claim C8 fails for a model with a field called [history_id]: the
    snapshot takes the value of the field as its identifier.  After the
    first save of a ticket with 42 and of a ticket with 7 the historical
    table holds the identifiers 42 and 7 in this order. *)
Lemma ticket_identifiers_not_increasing :
  row_ids (history_rows two_tickets_world "HistoricalTicket") = [42; 7] ∧
  ¬ increasing_ids two_tickets_world.
Proof.
  assert (row_ids (history_rows two_tickets_world "HistoricalTicket") = [42; 7]) as Hids
    by (vm_compute; reflexivity).
  split; [exact Hids|]. intros H.
  destruct (H "HistoricalTicket" (history_rows two_tickets_world "HistoricalTicket"))
    as [_ Hs]; [vm_compute; reflexivity|].
  rewrite Hids in Hs. apply StronglySorted_cons in Hs as [Hlt _].
  apply Forall_cons in Hlt as [Hlt _]. lia.
Qed.

(** ** Saves and deletions *)







(** ** Saving without a historical record *)



(** ** Reading a snapshot back *)

Lemma transform_field_name write_engine field :
  f_name (transform_field write_engine field) = f_attname field.
Proof.
  unfold transform_field. simpl.
  destruct (is_AutoField (f_class field)), (is_FileField (f_class field)); simpl;
    by destruct (_ || _).
Qed.

Lemma transform_field_attname write_engine field :
  is_ForeignKey (f_class field) = false →
  f_attname (transform_field write_engine field) = f_attname field.
Proof.
  intros Hfk. unfold f_attname at 1.
  rewrite transform_field_not_foreign_key by done.
  apply transform_field_name.
Qed.

Lemma copy_field_attname write_engine field :
  f_attname (copy_field write_engine field) = f_attname field.
Proof.
  unfold copy_field.
  destruct (is_OrderWrt (f_class field)) eqn:Ho.
  - simpl. rewrite transform_field_attname by done.
    unfold f_attname. simpl. by destruct (f_class field).
  - destruct (is_ForeignKey (f_class field)) eqn:Hfk.
    + unfold f_attname. simpl. rewrite Hfk.
      by destruct (f_one_to_one field || is_OneToOneField (f_class field)); simpl; rewrite ?Hfk.
    + by apply transform_field_attname.
Qed.

Lemma get_instance_vals model (fields : gmap string Field) row k c :
  fields !! k = Some c →
  o_vals (get_instance model fields row) (f_attname c) = row_getattr row (f_attname c).
Proof.
  unfold get_instance, Model_init_kwargs. simpl.
  intros Hc.
  assert (map_fold (λ _ field (kwargs : Row),
                      <[f_attname field := row_getattr row (f_attname field)]> kwargs)
                   ∅ fields !! f_attname c = Some (row_getattr row (f_attname c))) as ->; [|done].
  revert k c Hc.
  apply (map_fold_weak_ind (λ (r : Row) (m : gmap string Field),
           ∀ k c, m !! k = Some c → r !! f_attname c = Some (row_getattr row (f_attname c)))).
  - intros k c H. by rewrite lookup_empty in H.
  - intros i x m r Hi IH k c Hc.
    destruct (decide (f_attname x = f_attname c)) as [Heq|Hne].
    + rewrite Heq. by rewrite lookup_insert_eq.
    + rewrite lookup_insert_ne by done.
      destruct (decide (i = k)) as [->|Hik].
      * rewrite lookup_insert_eq in Hc. by injection Hc as ->.
      * rewrite lookup_insert_ne in Hc by done. by eapply IH.
Qed.

Lemma HistoricalObjectDescriptor_vals model row f :
  f ∈ m_fields model →
  o_vals (HistoricalObjectDescriptor__get__ model row) (f_attname f)
    = row_getattr row (f_attname f).
Proof.
  unfold HistoricalObjectDescriptor__get__, Model_init_args. simpl.
  intros Hf.
  assert (∀ l (acc : Row) a,
    foldl (λ (attrs : Row) (av : string * value), <[av.1 := av.2]> attrs) acc
          (zip (f_attname <$> l) ((λ f, row_getattr row (f_attname f)) <$> l)) !! a =
    if bool_decide (a ∈ f_attname <$> l) then Some (row_getattr row a) else acc !! a) as Hgen.
  { induction l as [|x l IH]; intros acc a; simpl; [done|].
    rewrite IH. destruct (decide (a = f_attname x)) as [->|Hne].
    - rewrite lookup_insert_eq.
      rewrite (bool_decide_eq_true_2 (f_attname x ∈ f_attname x :: _)) by apply list_elem_of_here.
      by case_bool_decide.
    - rewrite lookup_insert_ne by done.
      case_bool_decide as H1; case_bool_decide as H2; try done.
      + exfalso. apply H2. by apply list_elem_of_further.
      + exfalso. apply elem_of_cons in H2 as [?|?]; done. }
  rewrite Hgen. rewrite bool_decide_eq_true_2; [done|].
  by apply list_elem_of_fmap_2.
Qed.

Lemma create_history_model_attrs django self model w history_model w' :
  create_history_model django self model w = (Return history_model, w') →
  ∃ module_attr meta,
    hm_name history_model = "Historical" +:+ m_name model ∧
    hm_attrs history_model =
      <["Meta" := AttrMeta meta]>
        (get_extra_fields django self model (copy_fields (write_engine django) model) ∪
         ((AttrField <$> copy_fields (write_engine django) model) ∪
          {[ "__module__" := AttrModule module_attr ]})) ∧
    ordering meta = ordering (get_meta_options self model).
Proof.
  unfold create_history_model.
  assert (∀ (attrs0 : gmap string Attr) w0 r w1,
    (modify (set_registered_models (m_db_table model) (m_name model)) ;;;
     ret (mkHistoricalModel ("Historical" +:+ m_name model) (bases self)
            match table_name self with
            | Some t => alter (set_Meta_db_table t) "Meta"
                          (<["Meta" := AttrMeta (get_meta_options self model)]> attrs0)
            | None => <["Meta" := AttrMeta (get_meta_options self model)]> attrs0
            end)) w0 = (Return r, w1) →
    ∃ meta, hm_name r = "Historical" +:+ m_name model ∧
            hm_attrs r = <["Meta" := AttrMeta meta]> attrs0 ∧
            ordering meta = ordering (get_meta_options self model)) as Htail.
  { intros attrs0 w0 r w1. unfold bind, modify, ret. intros [= <- <-]. simpl.
    destruct (table_name self) as [t|].
    - exists (mkMeta (ordering (get_meta_options self model))
                     (get_latest_by (get_meta_options self model))
                     (verbose_name (get_meta_options self model)) (Some t)).
      split; [done|]. split; [|done]. by rewrite alter_insert_eq.
    - exists (get_meta_options self model). by repeat split. }
  unfold bind at 1.
  destruct (decide (m_module model ≠ module self)).
  - unfold ret at 1. intros H. apply Htail in H as (meta & Hn & Ha & Ho).
    exists (module self), meta. rewrite insert_singleton_eq in Ha. done.
  - destruct (decide (m_app_label model +:+ ".models" ≠ module self)).
    + destruct (app_name django (m_app_label model)) as [models_module|]; [|done].
      unfold ret at 1. intros H. apply Htail in H as (meta & Hn & Ha & Ho).
      exists models_module, meta. rewrite insert_singleton_eq in Ha. done.
    + unfold ret at 1. intros H. apply Htail in H as (meta & Hn & Ha & Ho).
      by exists (module self), meta.
Qed.

Lemma create_history_model_instance_attrs django self model w history_model w' :
  create_history_model django self model w = (Return history_model, w') →
  hm_attrs history_model !! "instance" =
    Some (AttrInstanceProperty (m_name model) (copy_fields (write_engine django) model)) ∧
  hm_attrs history_model !! "history_object" =
    Some (AttrHistoricalObjectDescriptor (m_name model)).
Proof.
  intros (module_attr & meta & _ & -> & _)%create_history_model_attrs.
  split; (rewrite lookup_insert_ne by done; apply lookup_union_Some_l;
          unfold get_extra_fields; simpl;
          rewrite !lookup_insert_ne by done; by rewrite lookup_insert_eq).
Qed.

(** C10, as amended.  When the model of the instance has no field whose
    attribute is called [history_id], the row that
    [create_historical_record] appends reads back as the instance: the
    object that the [instance] property builds from the row has the value
    of the instance for every copied field, and so has the object that the
    [history_object] descriptor builds, for every field of the model.  The
    two are the attributes [instance] and [history_object] of the
    historical model. *)
Theorem snapshot_reads_back django self instance history_type w w' :
  let model := class_of django (o_class instance) in
  let fields := copy_fields (write_engine django) model in
  "history_id" ∉ f_attname <$> m_fields model →
  create_historical_record django self instance history_type w = (Return tt, w') →
  (∃ history_model row,
     history_model_of django w self instance = Some history_model ∧
     history_rows w' (hm_name history_model) =
       history_rows w (hm_name history_model) ++ [row] ∧
     (∀ n c, fields !! n = Some c →
        o_vals (get_instance (m_name model) fields row) (f_attname c)
          = o_vals instance (f_attname c)) ∧
     (∀ f, f ∈ m_fields model →
        o_vals (HistoricalObjectDescriptor__get__ model row) (f_attname f)
          = o_vals instance (f_attname f))) ∧
  (∀ self0 w0 history_model w1,
     create_history_model django self0 model w0 = (Return history_model, w1) →
     hm_attrs history_model !! "instance" = Some (AttrInstanceProperty (m_name model) fields) ∧
     hm_attrs history_model !! "history_object" =
       Some (AttrHistoricalObjectDescriptor (m_name model))).
Proof.
  intros model fields Hplain Hrun. split.
  2:{ intros self0 w0 hm w1 Hm. by eapply create_history_model_instance_attrs. }
  apply create_historical_record_inv in Hrun
    as [[_ [e [=]]]|(hm & row & Hm & _ & -> & Hattrs & Hrow)].
  exists hm, row. split; [done|].
  split; [by rewrite history_rows_set_tables, decide_True|].
  assert (∀ a, a ∈ f_attname <$> m_fields model →
            row_getattr row a = o_vals instance a) as Hget.
  { intros a Ha. unfold row_getattr.
    assert (row !! a = Some (o_vals instance a)) as ->; [|done].
    destruct Hrow as [[-> _]|[-> _]]; [|by apply Hattrs].
    rewrite lookup_insert_ne; [by apply Hattrs|].
    intros <-. done. }
  split.
  - intros n c Hc. erewrite get_instance_vals by done.
    apply Hget. apply copy_fields_lookup in Hc as (f & Hf & -> & _).
    rewrite copy_field_attname. by apply list_elem_of_fmap_2.
  - intros f Hf. rewrite HistoricalObjectDescriptor_vals by done.
    apply Hget. by apply list_elem_of_fmap_2.
Qed.

Lemma snapshot_reads_back_witness :
  ("history_id" ∉ f_attname <$> m_fields (class_of polls (o_class choice_1))) ∧
  create_historical_record polls history choice_1 "+" polls_world =
    (Return tt, recorded polls polls_world "HistoricalChoice" choice_1 "+") ∧
  ∃ history_model row,
    history_model_of polls polls_world history choice_1 = Some history_model ∧
    history_rows (recorded polls polls_world "HistoricalChoice" choice_1 "+")
                 (hm_name history_model) =
      history_rows polls_world (hm_name history_model) ++ [row] ∧
    (∀ n c, copy_fields (write_engine polls) Choice !! n = Some c →
       o_vals (get_instance "Choice" (copy_fields (write_engine polls) Choice) row)
              (f_attname c)
         = o_vals choice_1 (f_attname c)) ∧
    (∀ f, f ∈ m_fields Choice →
       o_vals (HistoricalObjectDescriptor__get__ Choice row) (f_attname f)
         = o_vals choice_1 (f_attname f)).
Proof.
  assert ("history_id" ∉ f_attname <$> m_fields (class_of polls (o_class choice_1))) as H1
    by by_evaluation.
  assert (create_historical_record polls history choice_1 "+" polls_world =
            (Return tt, recorded polls polls_world "HistoricalChoice" choice_1 "+")) as H2
    by (vm_compute; reflexivity).
  split; [exact H1|]. split; [exact H2|].
  exact (proj1 (snapshot_reads_back polls history choice_1 "+" polls_world _ H1 H2)).
Defined.

(** The claim C10 fails for a model with a field called [history_id]
    when the instance has no value there: the snapshot gets a new
    identifier in this column, and the objects built from the snapshot
    carry the identifier where the instance had [None]. *)
Lemma ticket_without_history_id_not_restored :
  (Model_save polls_with_ticket None ticket_3 ticket_world).1 = Return tt ∧
  history_rows ticket_3_world "HistoricalTicket" = [ticket_3_snapshot] ∧
  o_vals ticket_3 "history_id" = VNone ∧
  o_vals (get_instance "Ticket" (copy_fields (write_engine polls_with_ticket) Ticket)
            ticket_3_snapshot) "history_id" = VInt 1 ∧
  o_vals (HistoricalObjectDescriptor__get__ Ticket ticket_3_snapshot) "history_id" = VInt 1.
Proof. repeat split; vm_compute; reflexivity. Qed.

(** ** The fields of a snapshot *)

Lemma copy_field_name write_engine field :
  f_name (copy_field write_engine field) = f_name field.
Proof.
  unfold copy_field.
  destruct (is_OrderWrt (f_class field)) eqn:Ho.
  - simpl. rewrite transform_field_name. unfold f_attname. simpl. done.
  - destruct (is_ForeignKey (f_class field)) eqn:Hfk; [done|].
    rewrite transform_field_name. unfold f_attname. by rewrite Hfk.
Qed.

Lemma copy_fields_lookup_name write_engine model f :
  NoDup (f_name <$> m_fields model) →
  f ∈ m_fields model →
  copy_fields write_engine model !! f_name f = Some (copy_field write_engine f).
Proof.
  unfold copy_fields. generalize (∅ : gmap string Field) as acc.
  induction (m_fields model) as [|x l IH]; intros acc Hnd Hin; simpl.
  { by apply elem_of_nil in Hin. }
  simpl in Hnd. apply NoDup_cons in Hnd as [Hx Hnd].
  apply elem_of_cons in Hin as [->|Hin]; [|by apply IH].
  clear IH Hnd. revert acc.
  induction l as [|y l IH]; intros acc; simpl.
  - rewrite copy_field_name. by rewrite lookup_insert_eq.
  - simpl in Hx. apply not_elem_of_cons in Hx as [Hxy Hx].
    rewrite insert_insert_ne by (by rewrite !copy_field_name).
    by apply IH.
Qed.

Lemma get_extra_fields_declared django self model fields k :
  declared_fields (get_extra_fields django self model fields) !! k =
    if decide (k = "history_id") then Some models_AutoField_primary_key
    else if decide (k = "history_date") then Some models_DateTimeField
    else if decide (k = "history_user") then
      Some (models_ForeignKey_null (AUTH_USER_MODEL django) (user_related_name self) SET_NULL)
    else if decide (k = "history_type") then
      Some (models_CharField 1 [("+", "Created"); ("~", "Changed"); ("-", "Deleted")])
    else None.
Proof.
  unfold declared_fields, get_extra_fields. rewrite lookup_omap. simpl.
  repeat (case_decide; [subst; by rewrite ?lookup_insert_ne, ?lookup_insert_eq by done|]).
  destruct (decide (k ∈ extra_names)) as [Hk|Hk].
  - unfold extra_names in Hk. rewrite !elem_of_cons in Hk.
    destruct Hk as [->|[->|[->|[->|[->|[->|[->|[->|[->|[->|[]%elem_of_nil]]]]]]]]]];
      try done; by rewrite ?lookup_insert_ne, ?lookup_insert_eq by done.
  - unfold extra_names in Hk. rewrite !not_elem_of_cons in Hk.
    destruct Hk as (?&?&?&?&?&?&?&?&?&?&_).
    by rewrite !lookup_insert_ne, lookup_empty by done.
Qed.

Lemma get_extra_fields_names django self model fields k :
  k ∉ extra_names → get_extra_fields django self model fields !! k = None.
Proof.
  unfold extra_names. rewrite !not_elem_of_cons. intros (?&?&?&?&?&?&?&?&?&?&_).
  unfold get_extra_fields. simpl. by rewrite !lookup_insert_ne, lookup_empty by done.
Qed.

(** The fields that the historical class declares: the four bookkeeping
    fields, and under every other name the copy that [copy_fields] has
    there. *)
Lemma get_extra_fields_extra_name django self model fields k :
  k ∈ extra_names → k ≠ "Meta" → is_Some (get_extra_fields django self model fields !! k).
Proof.
  unfold extra_names. rewrite !elem_of_cons. unfold get_extra_fields. simpl.
  intros [->|[->|[->|[->|[->|[->|[->|[->|[->|[->|[]%elem_of_nil]]]]]]]]]] Hmeta;
    try done; by rewrite ?lookup_insert_ne, ?lookup_insert_eq by done.
Qed.

Lemma create_history_model_declared django self model w history_model w' k :
  create_history_model django self model w = (Return history_model, w') →
  declared_fields (hm_attrs history_model) !! k =
    match declared_fields (get_extra_fields django self model
                             (copy_fields (write_engine django) model)) !! k with
    | Some f => Some f
    | None => if decide (k ∈ extra_names) then None
              else copy_fields (write_engine django) model !! k
    end.
Proof.
  intros (module_attr & meta & _ & -> & _)%create_history_model_attrs.
  destruct (decide (k ∈ extra_names)) as [Hk|Hk].
  - destruct (decide (k = "Meta")) as [->|Hmeta].
    + rewrite get_extra_fields_declared. simpl.
      unfold declared_fields. rewrite lookup_omap. by rewrite lookup_insert_eq.
    + destruct (get_extra_fields_extra_name django self model
                  (copy_fields (write_engine django) model) k Hk Hmeta) as [a Ha].
      unfold declared_fields. rewrite !lookup_omap.
      rewrite lookup_insert_ne by done.
      rewrite (lookup_union_Some_l _ _ _ _ Ha). rewrite Ha. simpl. by destruct a.
  - assert (get_extra_fields django self model (copy_fields (write_engine django) model)
              !! k = None) as Hextra by by apply get_extra_fields_names.
    assert (k ≠ "Meta") as Hmeta by (intros ->; apply Hk; unfold extra_names; in_list).
    unfold declared_fields. rewrite !lookup_omap.
    rewrite lookup_insert_ne by done.
    rewrite lookup_union_r by done. rewrite Hextra. simpl.
    rewrite lookup_union, lookup_fmap.
    destruct (copy_fields (write_engine django) model !! k) as [c|] eqn:Hc; simpl.
    + by rewrite union_Some_l.
    + rewrite (left_id None _).
      destruct (decide (k = "__module__")) as [->|Hmod].
      * by rewrite lookup_singleton_eq.
      * by rewrite lookup_singleton_ne.
Qed.

(** C2, as amended.  For a model whose fields have distinct names, none
    of them a name that [create_history_model] uses itself: the historical
    class declares the copy of every field of the model, the four
    bookkeeping fields (an [AutoField] key, a [DateTimeField], a nullable
    foreign key to the user model, a [CharField] of length one with the
    three tags), and no other field; and a row that
    [create_historical_record] writes for an instance holds the value of
    every field of the instance, the four bookkeeping values, and nothing
    else. *)
Theorem snapshot_carries_fields django self model w history_model w1 self' instance
    history_type wA wB :
  plain_names model →
  create_history_model django self model w = (Return history_model, w1) →
  class_of django (o_class instance) = model →
  create_historical_record django self' instance history_type wA = (Return tt, wB) →
  let fields := declared_fields (hm_attrs history_model) in
  (∀ f, f ∈ m_fields model →
        fields !! f_name f = Some (copy_field (write_engine django) f)) ∧
  (∃ f, fields !! "history_id" = Some f ∧ f_class f = AutoField ∧ f_primary_key f = true) ∧
  (∃ f, fields !! "history_date" = Some f ∧ f_class f = DateTimeField) ∧
  (∃ f, fields !! "history_user" = Some f ∧ f_class f = ForeignKey ∧ f_null f = true ∧
        f_to f = Some (AUTH_USER_MODEL django)) ∧
  (∃ f, fields !! "history_type" = Some f ∧ f_class f = CharField ∧
        f_max_length f = Some 1%nat ∧
        f_choices f = [("+", "Created"); ("~", "Changed"); ("-", "Deleted")]) ∧
  (∀ k c, fields !! k = Some c →
          k ∈ bookkeeping ∨
          ∃ f, f ∈ m_fields model ∧ k = f_name f ∧ c = copy_field (write_engine django) f) ∧
  ∃ history_model' row,
    history_model_of django wA self' instance = Some history_model' ∧
    history_rows wB (hm_name history_model') =
      history_rows wA (hm_name history_model') ++ [row] ∧
    (∀ f, f ∈ m_fields model → row !! f_attname f = Some (o_vals instance (f_attname f))) ∧
    row_id row = Some (next_id (history_rows wA (hm_name history_model'))) ∧
    row !! "history_date" = Some (VInt (default (clock wA) (o__history_date instance))) ∧
    row !! "history_user" = Some (user_value (history_user_of wA instance)) ∧
    row !! "history_type" = Some (VStr history_type) ∧
    (∀ k, is_Some (row !! k) → k ∈ bookkeeping ∨ k ∈ f_attname <$> m_fields model).
Proof.
  intros (Hnd & Hnames & Hid) Hm Hclass Hrun fields.
  assert (∀ k, fields !! k =
            match declared_fields (get_extra_fields django self model
                                     (copy_fields (write_engine django) model)) !! k with
            | Some f => Some f
            | None => if decide (k ∈ extra_names) then None
                      else copy_fields (write_engine django) model !! k
            end) as Hfields
    by (intros k; by eapply create_history_model_declared).
  split; [|split; [|split; [|split; [|split; [|split]]]]].
  - intros f Hf. rewrite Hfields.
    rewrite Forall_forall in Hnames. specialize (Hnames f Hf).
    unfold declared_fields. rewrite lookup_omap.
    rewrite get_extra_fields_names by done. simpl.
    rewrite decide_False by done. by apply copy_fields_lookup_name.
  - eexists. rewrite Hfields, get_extra_fields_declared. simpl. by repeat split.
  - eexists. rewrite Hfields, get_extra_fields_declared. simpl. by repeat split.
  - eexists. rewrite Hfields, get_extra_fields_declared. simpl. by repeat split.
  - eexists. rewrite Hfields, get_extra_fields_declared. simpl. by repeat split.
  - intros k c. rewrite Hfields.
    destruct (decide (k ∈ bookkeeping)) as [Hk|Hk]; [by left|].
    rewrite get_extra_fields_declared.
    unfold bookkeeping in Hk. rewrite !not_elem_of_cons in Hk. destruct Hk as (?&?&?&?&_).
    rewrite !decide_False by done. case_decide; [done|].
    intros (f & Hf & -> & ->)%copy_fields_lookup. right. exists f.
    by rewrite copy_field_name.
  - apply create_historical_record_inv in Hrun
      as [[_ [e [=]]]|(hm & row & Hhm & _ & -> & Hattrs & Hrow)].
    rewrite Hclass in Hattrs. simpl in Hattrs, Hrow.
    set (kwargs := create_kwargs django wA instance history_type) in *.
    assert (∀ k, k ∉ f_attname <$> m_fields model →
              kwargs !! k =
                (list_to_map (explicit_kwargs wA instance history_type) : Row) !! k) as Hother.
    { intros k Hk. apply create_kwargs_lookup. by rewrite Hclass. }
    assert (row = <["history_id" := VInt (next_id (history_rows wA (hm_name hm)))]> kwargs)
      as ->.
    { destruct Hrow as [[-> _]|[_ (z & Hz & _)]]; [done|].
      rewrite Hother in Hz by done.
      unfold explicit_kwargs in Hz. simpl in Hz. by rewrite !lookup_insert_ne in Hz. }
    assert (∀ k, k ∈ ["history_date"; "history_type"; "history_user"] →
              k ∉ f_attname <$> m_fields model) as Hexpl.
    { intros k Hk Hin. by destruct (Hattrs k Hin). }
    exists hm, (<["history_id" := VInt (next_id (history_rows wA (hm_name hm)))]> kwargs).
    split; [done|].
    split; [by rewrite history_rows_set_tables, decide_True|].
    split; [|split; [|split; [|split; [|split]]]].
    + intros f Hf. rewrite lookup_insert_ne; [by apply Hattrs, list_elem_of_fmap_2|].
      intros Heq. apply Hid. rewrite Heq. by apply list_elem_of_fmap_2.
    + unfold row_id. by rewrite lookup_insert_eq.
    + rewrite lookup_insert_ne by done. rewrite Hother by (apply Hexpl; in_list).
      simpl. by rewrite lookup_insert_eq.
    + rewrite lookup_insert_ne by done. rewrite Hother by (apply Hexpl; in_list).
      simpl. by rewrite !lookup_insert_ne, lookup_insert_eq by done.
    + rewrite lookup_insert_ne by done. rewrite Hother by (apply Hexpl; in_list).
      simpl. by rewrite lookup_insert_ne, lookup_insert_eq by done.
    + intros k Hk.
      destruct (decide (k ∈ bookkeeping)) as [|Hb]; [by left|]. right.
      destruct (decide (k ∈ f_attname <$> m_fields model)) as [|Hn]; [done|].
      exfalso. unfold bookkeeping in Hb. rewrite !not_elem_of_cons in Hb.
      destruct Hb as (?&?&?&?&_).
      rewrite lookup_insert_ne in Hk by done. rewrite Hother in Hk by done.
      unfold explicit_kwargs in Hk. simpl in Hk.
      rewrite !lookup_insert_ne, lookup_empty in Hk by done. by destruct Hk.
Qed.

Lemma poll_plain_names : plain_names Poll.
Proof. repeat split; by_evaluation. Qed.

Lemma snapshot_carries_fields_witness :
  plain_names Poll ∧
  create_history_model polls poll_history Poll empty_world =
    (Return HistoricalPoll, (create_history_model polls poll_history Poll empty_world).2) ∧
  class_of polls (o_class poll_1) = Poll ∧
  create_historical_record polls history poll_1 "+" polls_world =
    (Return tt, recorded polls polls_world "HistoricalPoll" poll_1 "+") ∧
  (∀ f, f ∈ m_fields Poll →
        declared_fields (hm_attrs HistoricalPoll) !! f_name f =
          Some (copy_field (write_engine polls) f)) ∧
  ∃ history_model' row,
    history_model_of polls polls_world history poll_1 = Some history_model' ∧
    history_rows (recorded polls polls_world "HistoricalPoll" poll_1 "+")
                 (hm_name history_model') =
      history_rows polls_world (hm_name history_model') ++ [row] ∧
    (∀ f, f ∈ m_fields Poll → row !! f_attname f = Some (o_vals poll_1 (f_attname f))) ∧
    row_id row = Some (next_id (history_rows polls_world (hm_name history_model'))) ∧
    row !! "history_date" = Some (VInt (default (clock polls_world) (o__history_date poll_1))) ∧
    row !! "history_user" = Some (user_value (history_user_of polls_world poll_1)) ∧
    row !! "history_type" = Some (VStr "+") ∧
    (∀ k, is_Some (row !! k) → k ∈ bookkeeping ∨ k ∈ f_attname <$> m_fields Poll).
Proof.
  assert (create_history_model polls poll_history Poll empty_world =
            (Return HistoricalPoll,
             (create_history_model polls poll_history Poll empty_world).2)) as H2
    by (vm_compute; reflexivity).
  assert (class_of polls (o_class poll_1) = Poll) as H3 by reflexivity.
  assert (create_historical_record polls history poll_1 "+" polls_world =
            (Return tt, recorded polls polls_world "HistoricalPoll" poll_1 "+")) as H4
    by (vm_compute; reflexivity).
  split; [exact poll_plain_names|]. split; [exact H2|]. split; [exact H3|].
  split; [exact H4|].
  destruct (snapshot_carries_fields polls poll_history Poll empty_world HistoricalPoll _
              history poll_1 "+" polls_world _ poll_plain_names H2 H3 H4)
    as (Hcopies & _ & _ & _ & _ & _ & Hrow).
  split; [exact Hcopies | exact Hrow].
Defined.

(** The claim C2 fails for a model with a field called [history_id]: the
    historical class has the bookkeeping key under this name and no copy of
    the field of the model, five fields for the two of the model; and the
    snapshot of a ticket has five values, the identifier being the value of
    the ticket's field. *)
Lemma ticket_field_not_copied :
  create_history_model polls_with_ticket ticket_history Ticket empty_world =
    (Return HistoricalTicket,
     (create_history_model polls_with_ticket ticket_history Ticket empty_world).2) ∧
  declared_fields (hm_attrs HistoricalTicket) !! "history_id"
    = Some models_AutoField_primary_key ∧
  (∀ k, declared_fields (hm_attrs HistoricalTicket) !! k ≠
        Some (copy_field (write_engine polls_with_ticket)
                (plain_field "history_id" IntegerField "Ticket"))) ∧
  size (declared_fields (hm_attrs HistoricalTicket)) = 5%nat ∧
  length (m_fields Ticket) = 2%nat ∧
  size ticket_1_snapshot = 5%nat ∧
  row_id ticket_1_snapshot = Some 42.
Proof.
  split; [vm_compute; reflexivity|]. split; [vm_compute; reflexivity|].
  split; [|repeat split; vm_compute; reflexivity].
  assert (map_Forall (λ _ c, c ≠ copy_field (write_engine polls_with_ticket)
                                    (plain_field "history_id" IntegerField "Ticket"))
                     (declared_fields (hm_attrs HistoricalTicket))) as Hall
    by by_evaluation.
  intros k H. by apply (Hall k _ H).
Qed.

Lemma copied_foreign_key_loosely_constrained_witness :
  copy_fields (write_engine polls) Choice !! "poll" =
    Some (copy_field (write_engine polls) (foreign_key "poll" "Poll" "Choice")) ∧
  is_ForeignKey (f_class (copy_field (write_engine polls) (foreign_key "poll" "Poll" "Choice")))
    = true ∧
  loosely_constrained (copy_field (write_engine polls) (foreign_key "poll" "Poll" "Choice")) ∧
  referenced_delete_effect (copy_field (write_engine polls) (foreign_key "poll" "Poll" "Choice"))
    = RowKept.
Proof.
  assert (copy_fields (write_engine polls) Choice !! "poll" =
            Some (copy_field (write_engine polls) (foreign_key "poll" "Poll" "Choice"))) as H1
    by (vm_compute; reflexivity).
  assert (is_ForeignKey
            (f_class (copy_field (write_engine polls) (foreign_key "poll" "Poll" "Choice")))
          = true) as H2 by reflexivity.
  split; [exact H1|]. split; [exact H2|].
  destruct (copied_foreign_key_loosely_constrained (write_engine polls) Choice "poll" _ H1 H2)
    as (Hloose & Hkept & _).
  split; [exact Hloose | exact Hkept].
Defined.



(** ** The default ordering *)

Lemma value_compare_antisym a b : value_compare a b = CompOpp (value_compare b a).
Proof.
  destruct a, b; simpl; try done; try apply Z.compare_antisym.
  apply String.compare_antisym.
Qed.

Lemma key_compare_antisym key r1 r2 :
  key_compare key r1 r2 = CompOpp (key_compare key r2 r1).
Proof.
  unfold key_compare. destruct key as [|a key]; [apply value_compare_antisym|].
  destruct (Ascii.eqb a "-") eqn:Ha.
  - apply Ascii.eqb_eq in Ha as ->. apply value_compare_antisym.
  - assert (∀ (x y : comparison),
      match a with "-"%char => x | _ => y end = y) as Hmatch.
    { intros x y. destruct a as [[] [] [] [] [] [] [] []]; try done. }
    by rewrite !Hmatch, value_compare_antisym.
Qed.

Lemma ordering_compare_antisym ordering r1 r2 :
  ordering_compare ordering r1 r2 = CompOpp (ordering_compare ordering r2 r1).
Proof.
  induction ordering as [|key ordering IH]; simpl; [done|].
  rewrite (key_compare_antisym key r1 r2).
  by destruct (key_compare key r2 r1).
Qed.

#[global] Instance comes_before_total ordering : Total (comes_before ordering).
Proof.
  intros r1 r2. unfold comes_before.
  rewrite (ordering_compare_antisym ordering r2 r1).
  destruct (ordering_compare ordering r1 r2); simpl; auto.
Qed.

#[global] Instance newest_first_transitive : Transitive newest_first.
Proof. intros r1 r2 r3. unfold newest_first. lia. Qed.

Lemma comes_before_newest_first r1 r2 :
  stamped r1 → stamped r2 →
  comes_before ["-history_date"; "-history_id"] r1 r2 → newest_first r1 r2.
Proof.
  intros [[d1 Hd1] [i1 Hi1]] [[d2 Hd2] [i2 Hi2]].
  unfold comes_before, newest_first, history_date_of, history_id_of.
  rewrite Hd1, Hd2, Hi1, Hi2. simpl.
  unfold column. unfold row_date, row_id in *.
  destruct (r1 !! "history_date") as [[]|]; try done.
  destruct (r2 !! "history_date") as [[]|]; try done.
  destruct (r1 !! "history_id") as [[]|]; try done.
  destruct (r2 !! "history_id") as [[]|]; try done.
  simplify_eq. simpl.
  destruct (d2 ?= d1) eqn:Hd.
  - apply Z.compare_eq in Hd as ->.
    destruct (i2 ?= i1) eqn:Hi; intros H; try done.
    + apply Z.compare_eq in Hi. lia.
    + rewrite Z.compare_lt_iff in Hi. lia.
  - rewrite Z.compare_lt_iff in Hd. lia.
  - done.
Qed.

Lemma Sorted_newest_first rows :
  Forall stamped rows →
  Sorted (comes_before ["-history_date"; "-history_id"]) rows →
  Sorted newest_first rows.
Proof.
  induction rows as [|r rows IH]; intros Hst Hs; [constructor|].
  apply Forall_cons in Hst as [Hr Hst].
  apply Sorted_inv in Hs as [Hs Hhd].
  constructor; [by apply IH|].
  destruct Hhd as [|r' rows' Hrr']; constructor.
  apply Forall_cons in Hst as [Hr' _]. by apply comes_before_newest_first.
Qed.

#[global] Instance keeps_recording_order_preorder : PreOrder keeps_recording_order.
Proof. split; unfold keeps_recording_order; [by intros w|]. intros w1 w2 w3. tauto. Qed.

Lemma respects_bind_returned (R : relation World) `{!PreOrder R} {A B}
    (P : A → Prop) (m : Py A) (k : A → Py B) :
  (∀ w a w', m w = (Return a, w') → P a) →
  respects R m → (∀ a, P a → respects R (k a)) → respects R (bind m k).
Proof.
  intros HP Hm Hk w. unfold bind. specialize (Hm w). specialize (HP w).
  destruct (m w) as [[a|e] w1]; simpl in *; [|done].
  etrans; [exact Hm|]. by apply Hk, (HP a w1).
Qed.

Lemma respects_for_each_Forall (R : relation World) `{!PreOrder R} {A}
    (xs : list A) (body : A → Py unit) :
  Forall (λ x, respects R (body x)) xs → respects R (for_each xs body).
Proof.
  induction 1 as [|x xs Hx _ IH]; simpl; [by apply (respects_ret R)|].
  apply (respects_bind R); [done|by intros _].
Qed.

Lemma history_id_of_row_ids rows :
  Forall stamped rows → row_ids rows = history_id_of <$> rows.
Proof.
  induction 1 as [|r rows [_ [z Hz]] _ IH]; [done|].
  unfold row_ids in *. rewrite fmap_cons, <- IH. simpl.
  unfold history_id_of. by rewrite Hz.
Qed.

Lemma create_historical_record_recording_order django self instance history_type :
  plain_identifiers django →
  o__history_date instance = None →
  respects keeps_recording_order
    (create_historical_record django self instance history_type).
Proof.
  intros Hplain Hdate w.
  destruct (create_historical_record django self instance history_type w) as [r w'] eqn:H.
  apply create_historical_record_inv in H
    as [[-> _]|(hm & row & _ & _ & -> & Hattrs & Hrow)]; simpl; [reflexivity|].
  assert (create_kwargs django w instance history_type !! "history_date" =
            Some (VInt (clock w))) as Hd.
  { rewrite create_kwargs_lookup.
    - unfold explicit_kwargs. simpl. by rewrite Hdate.
    - intros Hin. destruct (Hattrs _ Hin) as [_ Hn]. apply Hn. in_list. }
  assert (row = <["history_id" := VInt (next_id (history_rows w (hm_name hm)))]>
                  (create_kwargs django w instance history_type)) as ->.
  { destruct Hrow as [[-> _]|[_ (z & Hz & _)]]; [done|].
    rewrite create_kwargs_lookup in Hz by apply Hplain.
    unfold explicit_kwargs in Hz. simpl in Hz. by rewrite !lookup_insert_ne in Hz. }
  set (row := <["history_id" := _]> _).
  assert (row_date row = Some (clock w)) as Hrd.
  { unfold row_date, row. rewrite lookup_insert_ne by done. by rewrite Hd. }
  assert (row_id row = Some (next_id (history_rows w (hm_name hm)))) as Hri.
  { unfold row_id, row. by rewrite lookup_insert_eq. }
  intros Hw table. rewrite history_rows_set_tables.
  case_decide as Ht; [|apply Hw]. subst table.
  destruct (Hw (hm_name hm)) as (Hst & Hsorted & Hclock).
  split; [|split].
  - apply Forall_app. split; [done|]. apply Forall_singleton. split; by eexists.
  - apply StronglySorted_app_2; [|done|repeat constructor].
    intros r1 r2 Hr1 ->%list_elem_of_singleton. split.
    + unfold history_date_of at 2. rewrite Hrd. simpl.
      by apply (proj1 (Forall_forall _ _) Hclock).
    + unfold history_id_of at 2. rewrite Hri. simpl. apply next_id_gt.
      rewrite history_id_of_row_ids by done. by apply list_elem_of_fmap_2.
  - apply Forall_app. split; [done|]. apply Forall_singleton.
    unfold history_date_of. by rewrite Hrd.
Qed.

Lemma objects_filter_loaded w model p :
  Forall (λ o, o__history_date o = None) (objects_filter w model p).
Proof. unfold objects_filter. apply Forall_fmap, Forall_true. by intros r. Qed.

Lemma related_object_loaded django target item w t w' :
  related_object django target item w = (Return (Some t), w') → o__history_date t = None.
Proof.
  unfold related_object. destruct target as [field|]; [|done].
  assert (∀ (l : list Obj),
            Forall (λ o, o__history_date o = None) l →
            match l with
            | related :: _ => ret (Some related)
            | [] => raise DoesNotExist
            end w = (Return (Some t), w') → o__history_date t = None) as Hl.
  { intros [|o l] Hall; [done|]. intros [= <- _]. by apply Forall_cons in Hall as [? _]. }
  destruct (o_vals item (f_attname field)); try done;
    unfold bind, get; apply Hl, objects_filter_loaded.
Qed.

Section RecordingOrder.
Context (django : Django).
Hypothesis no_history_id : plain_identifiers django.

Lemma for_each_loaded_recording_order self (items : list Obj) history_type :
  Forall (λ o, o__history_date o = None) items →
  respects keeps_recording_order
    (for_each items (λ item, create_historical_record django self item history_type)).
Proof.
  intros H. apply (respects_for_each_Forall keeps_recording_order).
  eapply Forall_impl; [exact H|]. intros item Hitem.
  by apply create_historical_record_recording_order.
Qed.

Lemma post_save_recording_order self instance created raw :
  o__history_date instance = None →
  respects keeps_recording_order (post_save django self instance created raw).
Proof.
  intros Hdate. unfold post_save.
  destruct (negb created && _); [by apply (respects_ret keeps_recording_order)|].
  destruct (negb raw); [|by apply (respects_ret keeps_recording_order)].
  by apply create_historical_record_recording_order.
Qed.

Lemma post_delete_recording_order self instance :
  o__history_date instance = None →
  respects keeps_recording_order (post_delete django self instance).
Proof. intros Hdate. by apply create_historical_record_recording_order. Qed.

Lemma pre_delete_recording_order self instance :
  respects keeps_recording_order (pre_delete django self instance).
Proof.
  unfold pre_delete.
  apply (respects_for_each keeps_recording_order); intros m2m_field.
  apply (respects_bind keeps_recording_order);
    [by apply (respects_get keeps_recording_order)|intros w0].
  destruct (bool_decide _); [|by apply (respects_ret keeps_recording_order)].
  apply (respects_bind keeps_recording_order); [|intros _].
  { apply for_each_loaded_recording_order, objects_filter_loaded. }
  apply (respects_bind keeps_recording_order);
    [by apply (respects_get keeps_recording_order)|intros w1].
  apply for_each_loaded_recording_order.
  unfold value_from_object.
  generalize (objects_filter w1 (class_of django (m2m_through m2m_field))
                (λ r, bool_decide (r (m2m_column_name m2m_field) = pk django instance))).
  intros l. induction l as [|item l IH]; simpl; [constructor|].
  apply Forall_app. split; [apply objects_filter_loaded|exact IH].
Qed.

Lemma record_change_recording_order self sender target_field others item :
  respects keeps_recording_order
    (record_change django self sender target_field others item).
Proof.
  unfold record_change.
  apply (respects_bind_returned keeps_recording_order
           (λ target, ∀ t, target = Some t → o__history_date t = None)).
  - intros w [t|] w' H t' [= <-]. by apply related_object_loaded in H.
  - apply (related_object_respects django keeps_recording_order).
  - intros [target|] Htarget; [|by apply (respects_raise keeps_recording_order)].
    destruct (has_m2m_field _ _ _); [|by apply (respects_ret keeps_recording_order)].
    apply (respects_bind keeps_recording_order);
      [apply (items_of_target_respects django keeps_recording_order)|intros [|??]];
      [|by apply (respects_ret keeps_recording_order)].
    apply create_historical_record_recording_order; [done|by apply Htarget].
Qed.

Lemma m2m_changed_recording_order self action instance sender kwargs :
  respects keeps_recording_order (m2m_changed django self action instance sender kwargs).
Proof.
  unfold m2m_changed.
  destruct (relation_fields _ _ _ _) as [source_field target_field].
  apply (respects_bind keeps_recording_order);
    [by apply (respects_get keeps_recording_order)|intros w0].
  apply (respects_bind_returned keeps_recording_order
           (Forall (λ o, o__history_date o = None))).
  { destruct source_field; [|done]. intros w items w' [= <- _].
    apply objects_filter_loaded. }
  { destruct source_field;
      first [by apply (respects_ret keeps_recording_order)
            |by apply (respects_raise keeps_recording_order)]. }
  intros items0 Hitems0.
  apply (respects_bind_returned keeps_recording_order
           (Forall (λ o, o__history_date o = None))).
  { destruct (kw_pk_set kwargs) as [[|??]|]; try (by intros w items w' [= <- _]).
    destruct target_field; [|done]. intros w items w' [= <- _].
    apply Forall_forall. intros x [_ Hx]%list_elem_of_filter.
    by apply (proj1 (Forall_forall _ _) Hitems0). }
  { destruct (kw_pk_set kwargs) as [[|??]|];
      try (by apply (respects_ret keeps_recording_order)).
    destruct target_field;
      first [by apply (respects_ret keeps_recording_order)
            |by apply (respects_raise keeps_recording_order)]. }
  intros items Hitems.
  apply (respects_bind keeps_recording_order); [|intros _].
  { apply (respects_for_each_Forall keeps_recording_order).
    eapply Forall_impl; [exact Hitems|]. intros item Hitem.
    destruct (decide (action = "post_add")).
    - destruct (o_skip_history_when_saving item);
        [by apply (respects_ret keeps_recording_order)|].
      by apply create_historical_record_recording_order.
    - destruct (decide (action = "pre_remove"));
        [by apply create_historical_record_recording_order|].
      destruct (decide (action = "pre_clear"));
        [by apply create_historical_record_recording_order|].
      by apply (respects_ret keeps_recording_order). }
  destruct (decide (action = "pre_clear")); [by apply (respects_ret keeps_recording_order)|].
  destruct (decide (action = "post_add")); [|by apply (respects_ret keeps_recording_order)].
  destruct (o___pre_clear_items instance) as [other_items|];
    [|by apply (respects_ret keeps_recording_order)].
  apply (respects_bind keeps_recording_order); [|intros _].
  { apply (respects_for_each keeps_recording_order); intros item.
    apply record_change_recording_order. }
  apply (respects_bind keeps_recording_order); [|intros _].
  { apply (respects_for_each keeps_recording_order); intros item.
    apply record_change_recording_order. }
  by apply (respects_ret keeps_recording_order).
Qed.
End RecordingOrder.

Lemma older_same_identifier rows x y :
  StronglySorted older rows → x ∈ rows → y ∈ rows →
  history_id_of x = history_id_of y → x = y.
Proof.
  induction 1 as [|r rows _ IH Hall]; intros Hx Hy Heq; [by apply elem_of_nil in Hx|].
  rewrite Forall_forall in Hall.
  apply elem_of_cons in Hx as [->|Hx], Hy as [->|Hy]; [done| | |by apply IH].
  - destruct (Hall y Hy) as [_ Hlt]. lia.
  - destruct (Hall x Hx) as [_ Hlt]. lia.
Qed.

Lemma older_reverse rows :
  StronglySorted older rows → StronglySorted newest_first (reverse rows).
Proof.
  induction 1 as [|r rows _ IH Hall]; [constructor|].
  rewrite reverse_cons. apply StronglySorted_app_2; [|done|repeat constructor].
  intros x y Hx ->%list_elem_of_singleton.
  rewrite elem_of_reverse in Hx. rewrite Forall_forall in Hall.
  destruct (Hall x Hx) as [Hd Hi]. unfold newest_first. lia.
Qed.

(** The default order of rows that are in the order of recording is the
    reverse of this order. *)
Lemma recording_order_reversed self model rows :
  Forall stamped rows →
  StronglySorted older rows →
  default_order (get_meta_options self model) rows = reverse rows.
Proof.
  intros Hst Hold.
  assert (default_order (get_meta_options self model) rows ≡ₚ rows) as Hperm
    by apply merge_sort_Permutation.
  apply (StronglySorted_unique_strong newest_first).
  - intros x y Hx Hy Hxy Hyx. rewrite Hperm in Hx. rewrite elem_of_reverse in Hy.
    apply (older_same_identifier rows); [done..|].
    unfold newest_first in *. lia.
  - apply Sorted_StronglySorted; [apply _|].
    apply Sorted_newest_first; [by rewrite Hperm|].
    apply (Sorted_merge_sort (comes_before ["-history_date"; "-history_id"])).
  - by apply older_reverse.
  - by rewrite Hperm, reverse_Permutation.
Qed.

Lemma in_recording_order_later w t :
  clock w ≤ t → in_recording_order w → in_recording_order (set_clock t w).
Proof.
  intros Ht Hw table. destruct (Hw table) as (Hst & Hsorted & Hclock).
  split; [done|]. split; [done|].
  eapply Forall_impl; [exact Hclock|]. simpl. intros r Hr. lia.
Qed.

(** C6, as amended.  The ordering of a historical model is descending
    timestamp, then descending identifier, and a query returns the rows of
    a table sorted by it: each row has a later timestamp than the rows
    after it, or the same timestamp and an identifier at least as large.
    This is the reverse of the order of recording, with the snapshot
    recorded last in the first place, as long as the recorded instances
    carry no [_history_date], the clock does not go back and no field has
    the attribute [history_id]: the four handlers and the passing of time
    keep every table in the order of recording, with timestamps that do
    not decrease and identifiers that grow. *)
Theorem snapshots_ordered_newest_first django self instance created raw action sender
    kwargs records model w :
  plain_identifiers django →
  o__history_date instance = None →
  in_recording_order w →
  let meta := get_meta_options records model in
  ordering meta = ["-history_date"; "-history_id"] ∧
  (∀ rows, Forall stamped rows →
     default_order meta rows ≡ₚ rows ∧
     StronglySorted newest_first (default_order meta rows)) ∧
  ∀ w',
    w' = (post_save django self instance created raw w).2 ∨
    w' = (pre_delete django self instance w).2 ∨
    w' = (post_delete django self instance w).2 ∨
    w' = (m2m_changed django self action instance sender kwargs w).2 ∨
    (∃ t, clock w ≤ t ∧ w' = set_clock t w) →
    in_recording_order w' ∧
    ∀ table,
      default_order meta (history_rows w' table) = reverse (history_rows w' table) ∧
      head (default_order meta (history_rows w' table)) = last (history_rows w' table).
Proof.
  intros Hplain Hdate Hw meta. split; [done|]. split.
  - intros rows Hst.
    assert (default_order meta rows ≡ₚ rows) as Hperm by apply merge_sort_Permutation.
    split; [done|].
    apply Sorted_StronglySorted; [apply _|].
    apply Sorted_newest_first; [by rewrite Hperm|].
    apply (Sorted_merge_sort (comes_before ["-history_date"; "-history_id"])).
  - intros w' Hw'.
    assert (in_recording_order w') as Hordered.
    { destruct Hw' as [->|[->|[->|[->|(t & Ht & ->)]]]].
      - by apply (post_save_recording_order django Hplain).
      - by apply (pre_delete_recording_order django Hplain).
      - by apply (post_delete_recording_order django Hplain).
      - by apply (m2m_changed_recording_order django Hplain).
      - by apply in_recording_order_later. }
    split; [done|]. intros table.
    destruct (Hordered table) as (Hst & Hsorted & _).
    assert (default_order meta (history_rows w' table) = reverse (history_rows w' table))
      as Hrev by by apply recording_order_reversed.
    split; [done|]. rewrite Hrev. apply head_reverse.
Qed.

Lemma snapshots_ordered_newest_first_witness :
  plain_identifiers polls ∧
  o__history_date poll_1 = None ∧
  in_recording_order poll_saved_world ∧
  row_ids (history_rows poll_saved_twice_world "HistoricalPoll") = [1; 2] ∧
  row_ids (default_order (get_meta_options poll_history Poll)
             (history_rows poll_saved_twice_world "HistoricalPoll")) = [2; 1] ∧
  default_order (get_meta_options poll_history Poll)
    (history_rows poll_saved_twice_world "HistoricalPoll") =
    reverse (history_rows poll_saved_twice_world "HistoricalPoll").
Proof.
  assert (in_recording_order polls_world) as H0.
  { intros table. unfold history_rows. rewrite polls_world_tables, lookup_empty.
    repeat constructor. }
  assert (o__history_date poll_1 = None) as Hdate by reflexivity.
  pose proof (proj2 (proj2 (snapshots_ordered_newest_first polls poll_history poll_1
                              true false "post_add" Article_categories
                              (mkKwargs "Article" None) poll_history Poll polls_world
                              polls_plain_identifiers Hdate H0))) as Hstep0.
  destruct (Hstep0 (post_save polls poll_history poll_1 true false polls_world).2
              (or_introl eq_refl)) as [H1 _].
  pose proof (proj2 (proj2 (snapshots_ordered_newest_first polls poll_history poll_1
                              true false "post_add" Article_categories
                              (mkKwargs "Article" None) poll_history Poll _
                              polls_plain_identifiers Hdate H1))) as Hstep1.
  assert (in_recording_order poll_saved_world) as H2.
  { apply Hstep1. do 4 right. exists 5. split; [|reflexivity]. vm_compute. discriminate. }
  pose proof (proj2 (proj2 (snapshots_ordered_newest_first polls poll_history poll_1
                              false false "post_add" Article_categories
                              (mkKwargs "Article" None) poll_history Poll poll_saved_world
                              polls_plain_identifiers Hdate H2))) as Hstep2.
  destruct (Hstep2 poll_saved_twice_world (or_introl eq_refl)) as [_ Hreversed].
  split; [exact polls_plain_identifiers|]. split; [exact Hdate|]. split; [exact H2|].
  split; [vm_compute; reflexivity|]. split; [vm_compute; reflexivity|].
  exact (proj1 (Hreversed "HistoricalPoll")).
Defined.

(** The claim C6 fails for instances that carry a [_history_date]: a
    poll dated 100 is saved, then a poll dated 50.  The table holds the two
    snapshots in the order of recording, and the default order is the same:
    the snapshot recorded last comes last. *)
Lemma backdated_snapshot_sorts_last :
  row_ids (history_rows backdated_world "HistoricalPoll") = [1; 2] ∧
  history_date_of <$> history_rows backdated_world "HistoricalPoll" = [100; 50] ∧
  row_ids (default_order (get_meta_options poll_history Poll)
             (history_rows backdated_world "HistoricalPoll")) = [1; 2] ∧
  head (default_order (get_meta_options poll_history Poll)
          (history_rows backdated_world "HistoricalPoll")) ≠
    last (history_rows backdated_world "HistoricalPoll").
Proof.
  split; [vm_compute; reflexivity|]. split; [vm_compute; reflexivity|].
  split; [vm_compute; reflexivity|].
  intros H. apply (f_equal (λ r, r ≫= row_id)) in H. vm_compute in H. discriminate.
Qed.

(** ** Registering twice *)

Lemma bind_Return {A B} (m : Py A) (k : A → Py B) w b w' :
  bind m k w = (Return b, w') →
  ∃ a w1, m w = (Return a, w1) ∧ k a w1 = (Return b, w').
Proof.
  unfold bind. destruct (m w) as [[a|e] w1]; [|done].
  intros H. by exists a, w1.
Qed.

Lemma register_fuel_registers django fuel model app name config w w1 :
  register_fuel django fuel model app name config w = (Return tt, w1) →
  is_Some (registered_models w1 !! m_db_table model).
Proof.
  destruct fuel as [|fuel]; [done|]. simpl.
  intros (w0 & ? & [= <- <-] & H)%bind_Return.
  case_bool_decide as Hreg.
  - apply bind_Return in H as (records & w2 & _ & H).
    apply bind_Return in H as ([] & w3 & _ & H).
    apply bind_Return in H as ([] & w4 & _ & H).
    apply bind_Return in H as ([] & w5 & _ & H).
    injection H as <-. simpl. rewrite lookup_insert_eq. by eexists.
  - injection H as <-. by apply not_eq_None_Some.
Qed.

Lemma register_fuel_registered django fuel model app name config w :
  is_Some (registered_models w !! m_db_table model) →
  register_fuel django (S fuel) model app name config w = (Return tt, w).
Proof.
  intros [v Hv]. simpl. unfold bind, get. simpl.
  rewrite bool_decide_eq_false_2; [done|]. by rewrite Hv.
Qed.

Lemma finalize_tracked django register_ self sender w :
  cls self = Some (m_name sender) →
  is_Some (simple_history_manager_attribute w !! m_name sender) →
  finalize django register_ self sender w =
    (Raise (MultipleRegistrationsError
              (m_app_label sender +:+ "." +:+ m_name sender +:+
               " registered multiple times for history tracking.")), w).
Proof.
  intros Hcls Hattr. unfold finalize. rewrite Hcls.
  rewrite decide_False by (by intros []).
  unfold bind, get. simpl. by rewrite bool_decide_eq_true_2.
Qed.

Lemma finalize_tracks django register_ self sender w w1 :
  cls self = Some (m_name sender) →
  finalize django register_ self sender w = (Return tt, w1) →
  simple_history_manager_attribute w1 !! m_name sender = Some (manager_name self).
Proof.
  intros Hcls. unfold finalize. rewrite Hcls.
  rewrite decide_False by (by intros []).
  intros (w0 & ? & [= <- <-] & H)%bind_Return.
  case_bool_decide; [done|].
  apply bind_Return in H as (hm & w2 & _ & H).
  apply bind_Return in H as ([] & w3 & _ & H).
  apply bind_Return in H as ([] & w4 & _ & H).
  injection H as <-. simpl. by rewrite lookup_insert_eq.
Qed.

(** ** The errors that the handlers raise *)

Section RaisesOnly.
Context (E : Exception → Prop).

Lemma raises_only_ret {A} (a : A) : raises_only E (ret a).
Proof. by intros w e w'. Qed.

Lemma raises_only_raise {A} e : E e → raises_only E (@raise A e).
Proof. intros He w e' w' [= <- _]. done. Qed.

Lemma raises_only_get : raises_only E get.
Proof. by intros w e w'. Qed.

Lemma raises_only_modify f : raises_only E (modify f).
Proof. by intros w e w'. Qed.

Lemma raises_only_bind {A B} (m : Py A) (k : A → Py B) :
  raises_only E m → (∀ a, raises_only E (k a)) → raises_only E (bind m k).
Proof.
  intros Hm Hk w e w'. unfold bind.
  destruct (m w) as [[a|e1] w1] eqn:Hmw.
  - apply Hk.
  - intros [= <- <-]. by eapply Hm.
Qed.

Lemma raises_only_for_each {A} (xs : list A) body :
  (∀ x, raises_only E (body x)) → raises_only E (for_each xs body).
Proof.
  intros H. induction xs as [|x xs IH]; simpl.
  - apply raises_only_ret.
  - apply raises_only_bind; [apply H | by intros _].
Qed.
End RaisesOnly.

Ltac builtin_step :=
  match goal with
  | |- raises_only _ (bind _ _) => apply raises_only_bind; [|intros ?]
  | |- raises_only _ (ret _) => apply raises_only_ret
  | |- raises_only _ (raise _) => by apply raises_only_raise
  | |- raises_only _ get => apply raises_only_get
  | |- raises_only _ (modify _) => apply raises_only_modify
  | |- raises_only _ (for_each _ _) => apply raises_only_for_each; intros ?
  | |- raises_only _ (if ?b then _ else _) => destruct b
  | |- raises_only _ (match ?x with _ => _ end) => destruct x
  end.

Section BuiltinErrors.
Context (django : Django).

Lemma create_historical_record_builtin self instance history_type :
  raises_only builtin_error (create_historical_record django self instance history_type).
Proof.
  unfold create_historical_record, get_history_user, keyword_arguments, Manager_create.
  repeat builtin_step.
Qed.

Lemma post_save_builtin self instance created raw :
  raises_only builtin_error (post_save django self instance created raw).
Proof.
  unfold post_save. repeat builtin_step; apply create_historical_record_builtin.
Qed.

Lemma post_delete_builtin self instance :
  raises_only builtin_error (post_delete django self instance).
Proof. apply create_historical_record_builtin. Qed.

Lemma pre_delete_builtin self instance :
  raises_only builtin_error (pre_delete django self instance).
Proof.
  unfold pre_delete.
  repeat first [apply create_historical_record_builtin | builtin_step].
Qed.

Lemma related_object_builtin target item :
  raises_only builtin_error (related_object django target item).
Proof. unfold related_object. repeat builtin_step. Qed.

Lemma items_of_target_builtin target_field target items :
  raises_only builtin_error (items_of_target django target_field target items).
Proof.
  induction items as [|i items IH]; simpl; [apply raises_only_ret|].
  apply raises_only_bind; [apply related_object_builtin|intros ?].
  apply raises_only_bind; [done|intros ?].
  repeat builtin_step.
Qed.

Lemma record_change_builtin self sender target_field others item :
  raises_only builtin_error (record_change django self sender target_field others item).
Proof.
  unfold record_change.
  apply raises_only_bind; [apply related_object_builtin|intros [target|]].
  - destruct (has_m2m_field _ _ _); [|apply raises_only_ret].
    apply raises_only_bind; [apply items_of_target_builtin|intros ?].
    repeat first [apply create_historical_record_builtin | builtin_step].
  - by apply raises_only_raise.
Qed.

Lemma m2m_changed_builtin self action instance sender kwargs :
  raises_only builtin_error (m2m_changed django self action instance sender kwargs).
Proof.
  unfold m2m_changed.
  destruct (relation_fields _ _ _ _) as [source_field target_field].
  apply raises_only_bind; [apply raises_only_get|intros w0].
  apply raises_only_bind; [repeat builtin_step|intros items0].
  apply raises_only_bind; [repeat builtin_step|intros items].
  apply raises_only_bind; [|intros _].
  { apply raises_only_for_each. intros item.
    repeat first [apply create_historical_record_builtin | builtin_step]. }
  destruct (decide (action = "pre_clear")); [apply raises_only_ret|].
  destruct (decide (action = "post_add")); [|apply raises_only_ret].
  destruct (o___pre_clear_items instance) as [other_items|]; [|apply raises_only_ret].
  apply raises_only_bind; [|intros _].
  { apply raises_only_for_each. intros item. apply record_change_builtin. }
  apply raises_only_bind; [|intros _].
  { apply raises_only_for_each. intros item. apply record_change_builtin. }
  apply raises_only_ret.
Qed.
End BuiltinErrors.

(** C3, as amended.  After a successful [register] of a model, another
    [register] of it returns and changes nothing.  The domain error
    [MultipleRegistrationsError] comes from [finalize]: it is raised for a
    sender that is tracked already, as every sender is after a successful
    [finalize].  The handlers of the signals raise no domain error. *)
Theorem second_registration django model app name config w w1 self sender w2 w3 :
  register django model app name config w = (Return tt, w1) →
  cls self = Some (m_name sender) →
  finalize django (register django) self sender w2 = (Return tt, w3) →
  (∀ app' name' config',
     register django model app' name' config' w1 = (Return tt, w1)) ∧
  (∀ self', cls self' = Some (m_name sender) →
     finalize django (register django) self' sender w3 =
       (Raise (MultipleRegistrationsError
                 (m_app_label sender +:+ "." +:+ m_name sender +:+
                  " registered multiple times for history tracking.")), w3)) ∧
  (∀ self' instance created raw action through kwargs,
     raises_only builtin_error (post_save django self' instance created raw) ∧
     raises_only builtin_error (pre_delete django self' instance) ∧
     raises_only builtin_error (post_delete django self' instance) ∧
     raises_only builtin_error (m2m_changed django self' action instance through kwargs)).
Proof.
  intros Hreg Hcls Hfin. split; [|split].
  - intros app' name' config'.
    apply (register_fuel_registered django 2).
    exact (register_fuel_registers django 3 model app name config w w1 Hreg).
  - intros self' Hcls'. apply finalize_tracked; [done|].
    rewrite (finalize_tracks django (register django) self sender w2 w3 Hcls Hfin).
    by eexists.
  - intros. split; [apply post_save_builtin|].
    split; [apply pre_delete_builtin|].
    split; [apply post_delete_builtin|apply m2m_changed_builtin].
Qed.

Lemma second_registration_witness :
  register polls Poll None "history" default_config empty_world = (Return tt, poll_world) ∧
  cls poll_history = Some (m_name Poll) ∧
  finalize polls (register polls) poll_history Poll empty_world =
    (Return tt, finalized_poll_world) ∧
  register polls Poll (Some "polls") "log" default_config poll_world =
    (Return tt, poll_world) ∧
  finalize polls (register polls) poll_history Poll finalized_poll_world =
    (Raise (MultipleRegistrationsError
              "polls.Poll registered multiple times for history tracking."),
     finalized_poll_world).
Proof.
  assert (register polls Poll None "history" default_config empty_world =
            (Return tt, poll_world)) as H1 by (vm_compute; reflexivity).
  assert (cls poll_history = Some (m_name Poll)) as H2 by reflexivity.
  assert (finalize polls (register polls) poll_history Poll empty_world =
            (Return tt, finalized_poll_world)) as H3 by (vm_compute; reflexivity).
  split; [exact H1|]. split; [exact H2|]. split; [exact H3|].
  destruct (second_registration polls Poll None "history" default_config empty_world
              poll_world poll_history Poll empty_world finalized_poll_world H1 H2 H3)
    as (Hregister & Hfinalize & _).
  split; [apply Hregister | exact (Hfinalize poll_history H2)].
Defined.

(** The claim C3 fails for [register]: the second registration of [Poll]
    returns without an error and leaves the process as it was. *)
Lemma second_register_silent :
  register polls Poll None "history" default_config empty_world = (Return tt, poll_world) ∧
  register polls Poll None "history" default_config poll_world = (Return tt, poll_world).
Proof. split; vm_compute; reflexivity. Qed.

(** ** The reconciliation of a relationship *)

#[global] Instance same_db_preorder : PreOrder same_db.
Proof. split; [done|]. intros w1 w2 w3 H12 H23. unfold same_db in *. congruence. Qed.

Lemma create_historical_record_same_db django self instance history_type :
  respects same_db (create_historical_record django self instance history_type).
Proof.
  intros w.
  destruct (create_historical_record django self instance history_type w) as [r w'] eqn:H.
  apply create_historical_record_inv in H as [[-> _]|(hm & row & _ & _ & -> & _)];
    by unfold same_db.
Qed.

Lemma for_each_same_db {A} django self (xs : list A) (f : A → Obj) history_type w :
  db (for_each xs (λ x, create_historical_record django self (f x) history_type) w).2 = db w.
Proof.
  apply (respects_for_each same_db). intros x. apply create_historical_record_same_db.
Qed.

Lemma for_each_app {A} (xs ys : list A) body w :
  for_each (xs ++ ys) body w = (for_each xs body ;;; for_each ys body) w.
Proof.
  revert w. induction xs as [|x xs IH]; intros w; simpl; [done|].
  unfold bind. unfold bind in IH. destruct (body x w) as [[[]|e] w1]; [|done].
  by rewrite IH.
Qed.

Lemma for_each_ext {A} (xs : list A) body1 body2 w :
  Forall (λ x, ∀ w, body1 x w = body2 x w) xs →
  for_each xs body1 w = for_each xs body2 w.
Proof.
  intros H. revert w. induction H as [|x xs Hx _ IH]; intros w; simpl; [done|].
  unfold bind. rewrite Hx. destruct (body2 x w) as [[[]|e] w1]; [apply IH|done].
Qed.

Lemma target_of_same_db django w w' field item :
  db w' = db w → target_of django w' field item = target_of django w field item.
Proof. intros H. unfold target_of, objects_filter. by rewrite H. Qed.

Lemma related_object_target django w0 w target item t :
  db w = db w0 →
  target_of django w0 target item = Some t →
  related_object django (Some target) item w = (Return (Some t), w).
Proof.
  intros Hdb Ht. rewrite <- (target_of_same_db django w0 w) in Ht by done.
  unfold related_object, target_of in *.
  destruct (o_vals item (f_attname target)); [done| | |];
    unfold bind, get; simpl;
    (destruct (objects_filter _ _ _) as [|x l]; simpl in Ht; [done|by injection Ht as ->]).
Qed.

Lemma items_of_target_eq django w0 w target t items :
  db w = db w0 →
  Forall (λ i, is_Some (target_of django w0 target i)) items →
  items_of_target django (Some target) t items w =
    (Return (with_target django w0 target t items), w).
Proof.
  intros Hdb H. induction H as [|i items [o Ho] _ IH]; cbn [items_of_target]; [done|].
  unfold bind at 1. rewrite (related_object_target django w0 w target i o) by done.
  unfold bind at 1. rewrite IH. unfold with_target.
  rewrite filter_cons. rewrite Ho. simpl.
  destruct (Model_eq django t o); by rewrite ?decide_True, ?decide_False by done.
Qed.

Lemma with_target_nil django w target t items :
  Forall (λ i, is_Some (target_of django w target i)) items →
  with_target django w target t items = [] ↔
  existsb (Model_eq django t) (omap (target_of django w target) items) = false.
Proof.
  intros H. unfold with_target.
  induction H as [|i items [o Ho] _ IH]; simpl; [done|].
  rewrite filter_cons. rewrite Ho. simpl.
  destruct (Model_eq django t o); simpl.
  - rewrite ?decide_True by done. by split.
  - by rewrite ?decide_False by done.
Qed.

Lemma record_change_eq django self sender w0 w target others item t :
  db w = db w0 →
  target_of django w0 target item = Some t →
  Forall (λ i, is_Some (target_of django w0 target i)) others →
  record_change django self sender (Some target) others item w =
    if only_here django (m_name sender) (omap (target_of django w0 target) others) t
    then create_historical_record django self t "~" w
    else (Return tt, w).
Proof.
  intros Hdb Ht Hothers. unfold record_change, only_here.
  unfold bind at 1. rewrite (related_object_target django w0 w target item t) by done.
  destruct (has_m2m_field django t (m_name sender)); simpl; [|done].
  unfold bind at 1. rewrite (items_of_target_eq django w0) by done.
  pose proof (with_target_nil django w0 target t others Hothers) as Hnil.
  destruct (with_target django w0 target t others) as [|x l].
  - by rewrite (proj1 Hnil eq_refl).
  - destruct (existsb _ _); [done|]. by destruct Hnil as [_ ?%(λ H, H eq_refl)].
Qed.

Lemma for_each_record_change django self sender w0 target others items :
  Forall (λ i, is_Some (target_of django w0 target i)) others →
  Forall (λ i, is_Some (target_of django w0 target i)) items →
  ∀ w, db w = db w0 →
    for_each items (record_change django self sender (Some target) others) w =
    for_each
      (filter (λ t, only_here django (m_name sender)
                      (omap (target_of django w0 target) others) t = true)
              (omap (target_of django w0 target) items))
      (λ related, create_historical_record django self related "~") w.
Proof.
  intros Hothers H. induction H as [|i items [t Ht] _ IH]; intros w Hdb; simpl; [done|].
  rewrite Ht. simpl. rewrite filter_cons.
  unfold bind at 1. rewrite (record_change_eq django self sender w0 w target others i t) by done.
  destruct (only_here _ _ _ t) eqn:Hhere.
  - rewrite decide_True by done. simpl. unfold bind.
    pose proof (create_historical_record_same_db django self t "~" w) as Hdb'.
    destruct (create_historical_record django self t "~" w) as [[[]|e] w1]; [|done].
    apply IH. simpl in Hdb'. unfold same_db in Hdb'. congruence.
  - rewrite decide_False by done. by apply IH.
Qed.

Lemma relationship_items_loaded django w sender source target instance pk_set item :
  item ∈ relationship_items django w sender source target instance pk_set →
  o_skip_history_when_saving item = false.
Proof.
  intros H. unfold relationship_items in H.
  assert (item ∈ objects_filter w sender
                   (λ r, bool_decide (r (f_attname source) = pk django instance))) as Hin.
  { destruct pk_set as [[|z p]|]; try done. by apply list_elem_of_filter in H as [_ ?]. }
  unfold objects_filter in Hin. by apply list_elem_of_fmap in Hin as (r & -> & _).
Qed.

Lemma bind_cong_l {A B} (m m' : Py A) (k : A → Py B) w :
  m w = m' w → bind m k w = bind m' k w.
Proof. intros H. unfold bind. by rewrite H. Qed.

Lemma bind_cong_r {A B} (m : Py A) (k k' : A → Py B) w :
  (∀ a w1, m w = (Return a, w1) → k a w1 = k' a w1) → bind m k w = bind m k' w.
Proof. intros H. unfold bind. destruct (m w) as [[a|e] w1]; [by apply H|done]. Qed.

Lemma bind_assoc {A B C} (m : Py A) (f : A → Py B) (k : B → Py C) w :
  bind (bind m f) k w = bind m (λ a, bind (f a) k) w.
Proof. unfold bind. by destruct (m w) as [[a|e] w1]. Qed.

Lemma m2m_changed_post_add django self instance sender kwargs source target other_items w :
  relation_fields django sender instance (kw_model kwargs) = (Some source, Some target) →
  o___pre_clear_items instance = Some other_items →
  let items :=
    relationship_items django w sender source target instance (kw_pk_set kwargs) in
  Forall (λ i, is_Some (target_of django w target i)) (other_items ++ items) →
  m2m_changed django self "post_add" instance sender kwargs w =
    reconciliation django self sender target instance other_items items w.
Proof.
  intros Hrel Hpre items [Hold Hnew]%Forall_app.
  unfold m2m_changed. rewrite Hrel, Hpre.
  destruct (decide ("post_add" = "pre_clear")) as [|_]; [done|].
  destruct (decide ("post_add" = "post_add")) as [_|]; [|done].
  destruct (decide ("post_add" = "pre_remove")) as [|_]; [done|].
  transitivity
    ((for_each items
        (λ item, if o_skip_history_when_saving item then ret tt
                 else create_historical_record django self item "+") ;;;
      for_each other_items (record_change django self sender (Some target) items) ;;;
      for_each items (record_change django self sender (Some target) other_items) ;;;
      ret (set___pre_clear_items None instance)) w).
  { subst items. unfold relationship_items. by destruct (kw_pk_set kwargs) as [[|]|]. }
  rewrite (bind_cong_l _ (for_each items
                            (λ item, create_historical_record django self item "+"))).
  2:{ apply for_each_ext, Forall_forall. intros item Hin w0.
      by rewrite (relationship_items_loaded _ _ _ _ _ _ _ _ Hin). }
  unfold reconciliation. unfold bind at 4. unfold get. cbv beta iota.
  apply bind_cong_r. intros [] wa Hwa.
  assert (db wa = db w) as Hdb.
  { pose proof (for_each_same_db django self items id "+" w) as Hdb.
    simpl in Hdb. by rewrite Hwa in Hdb. }
  unfold changed_targets.
  rewrite (bind_cong_l _ _ _ wa (for_each_app _ _ _ wa)), bind_assoc.
  rewrite (bind_cong_l _ _ _ wa
             (for_each_record_change django self sender w target items other_items
                Hnew Hold wa Hdb)).
  apply bind_cong_r. intros [] wb Hwb.
  assert (db wb = db w) as Hdb'.
  { pose proof (for_each_same_db django self
                  (filter (λ t, only_here django (m_name sender)
                                  (omap (target_of django w target) items) t = true)
                          (omap (target_of django w target) other_items)) id "~" wa) as Hdb'.
    simpl in Hdb'. rewrite Hwb in Hdb'. simpl in Hdb'. congruence. }
  apply bind_cong_l.
  by apply for_each_record_change.
Qed.

Lemma m2m_changed_pre_clear django self instance sender kwargs source target w instance' w' :
  relation_fields django sender instance (kw_model kwargs) = (Some source, Some target) →
  m2m_changed django self "pre_clear" instance sender kwargs w = (Return instance', w') →
  instance' =
    set___pre_clear_items
      (Some (relationship_items django w sender source target instance (kw_pk_set kwargs)))
      instance.
Proof.
  intros Hrel. unfold m2m_changed. rewrite Hrel.
  destruct (decide ("pre_clear" = "pre_clear")) as [_|]; [|done].
  intros H.
  assert ((for_each (relationship_items django w sender source target instance
                       (kw_pk_set kwargs))
             (λ item, if decide ("pre_clear" = "post_add")
                      then if o_skip_history_when_saving item then ret tt
                           else create_historical_record django self item "+"
                      else if decide ("pre_clear" = "pre_remove")
                           then create_historical_record django self item "-"
                           else create_historical_record django self item "-") ;;;
           ret (set___pre_clear_items
                  (Some (relationship_items django w sender source target instance
                           (kw_pk_set kwargs))) instance)) w = (Return instance', w')) as H'.
  { rewrite <- H. unfold relationship_items. by destruct (kw_pk_set kwargs) as [[|]|]. }
  apply bind_Return in H' as ([] & w1 & _ & [= <- _]). done.
Qed.

Lemma changed_targets_spec django through old new t :
  t ∈ changed_targets django through old new ↔
  has_m2m_field django t through = true ∧
  ((t ∈ old ∧ existsb (Model_eq django t) new = false) ∨
   (t ∈ new ∧ existsb (Model_eq django t) old = false)).
Proof.
  unfold changed_targets, only_here.
  rewrite elem_of_app, !list_elem_of_filter, !andb_true_iff, !negb_true_iff. tauto.
Qed.

(** C4, as amended.  After the handler of [pre_clear], the handler of
    [post_add] does what [reconciliation] does: it writes a [+] record for
    each new row of the through model, then a change record [~] for the
    related object of each row in the symmetric difference of the old and
    the new members, of those related objects only whose model declares a
    many-to-many field through the through model; and it forgets the old
    members.  A related object that is both an old and a new member gets no
    change record. *)
Theorem relationship_reconciled django self instance sender kwargs kwargs' source target
    w instance' w' w2 :
  relation_fields django sender instance (kw_model kwargs) = (Some source, Some target) →
  kw_model kwargs' = kw_model kwargs →
  m2m_changed django self "pre_clear" instance sender kwargs w = (Return instance', w') →
  let other_items :=
    relationship_items django w sender source target instance (kw_pk_set kwargs) in
  let items :=
    relationship_items django w2 sender source target instance (kw_pk_set kwargs') in
  let old := omap (target_of django w2 target) other_items in
  let new := omap (target_of django w2 target) items in
  Forall (λ i, is_Some (target_of django w2 target i)) (other_items ++ items) →
  m2m_changed django self "post_add" instance' sender kwargs' w2 =
    reconciliation django self sender target instance' other_items items w2 ∧
  (∀ t, t ∈ changed_targets django (m_name sender) old new ↔
        has_m2m_field django t (m_name sender) = true ∧
        ((t ∈ old ∧ existsb (Model_eq django t) new = false) ∨
         (t ∈ new ∧ existsb (Model_eq django t) old = false))).
Proof.
  intros Hrel Hmodel Hclear other_items items old new Hres.
  split; [|intros t; apply changed_targets_spec].
  apply (m2m_changed_pre_clear django self instance sender kwargs source target) in Hclear
    as ->; [|done].
  rewrite <- Hmodel in Hrel.
  exact (m2m_changed_post_add django self
           (set___pre_clear_items (Some other_items) instance) sender kwargs' source target
           other_items w2 Hrel eq_refl Hres).
Qed.

Lemma relationship_reconciled_witness :
  let source := foreign_key "category" "Category" "Article_categories" in
  let target := foreign_key "article" "Article" "Article_categories" in
  let other_items :=
    relationship_items polls reverse_before Article_categories source target category_1 None in
  let items :=
    relationship_items polls reverse_after Article_categories source target category_1
      (Some [2; 3]) in
  relation_fields polls Article_categories category_1 "Article" = (Some source, Some target) ∧
  m2m_changed polls through_history "pre_clear" category_1 Article_categories
    (mkKwargs "Article" None) reverse_before =
    (Return reverse_cleared_instance, reverse_cleared.2) ∧
  Forall (λ i, is_Some (target_of polls reverse_after target i)) (other_items ++ items) ∧
  m2m_changed polls through_history "post_add" reverse_cleared_instance Article_categories
    (mkKwargs "Article" (Some [2; 3])) reverse_after =
    reconciliation polls through_history Article_categories target reverse_cleared_instance
      other_items items reverse_after ∧
  history_keys reverse_added.2 "HistoricalArticle" = [Some (VInt 1); Some (VInt 3)] ∧
  history_tags reverse_added.2 =
    [("HistoricalArticle_categories",
      [Some (VStr "-"); Some (VStr "-"); Some (VStr "+"); Some (VStr "+")]);
     ("HistoricalArticle", [Some (VStr "~"); Some (VStr "~")])].
Proof.
  intros source target other_items items.
  assert (relation_fields polls Article_categories category_1 "Article" =
            (Some source, Some target)) as H1 by (vm_compute; reflexivity).
  assert (m2m_changed polls through_history "pre_clear" category_1 Article_categories
            (mkKwargs "Article" None) reverse_before =
            (Return reverse_cleared_instance, reverse_cleared.2)) as H3
    by (vm_compute; reflexivity).
  assert (Forall (λ i, is_Some (target_of polls reverse_after target i))
                 (other_items ++ items)) as H4 by by_evaluation.
  split; [exact H1|]. split; [exact H3|]. split; [exact H4|].
  split; [|split; vm_compute; reflexivity].
  exact (proj1 (relationship_reconciled polls through_history category_1 Article_categories
                  (mkKwargs "Article" None) (mkKwargs "Article" (Some [2; 3]))
                  source target reverse_before reverse_cleared_instance reverse_cleared.2
                  reverse_after H1 eq_refl H3 H4)).
Defined.

(** The claim C4 fails when the related objects do not declare the
    relationship.  [article_1.categories] goes from category 1 to category
    2: both handlers return, category 1 is the old member and category 2 the
    new one, and the only records written are those of the rows of the
    through model; there is no change record. *)
Lemma forward_change_not_recorded :
  let source := foreign_key "article" "Article" "Article_categories" in
  let target := foreign_key "category" "Category" "Article_categories" in
  returned forward_cleared.1 = true ∧
  returned forward_added.1 = true ∧
  pk polls <$> omap (target_of polls forward_after target)
                 (relationship_items polls forward_before Article_categories source target
                    article_1 None) = [VInt 1] ∧
  pk polls <$> omap (target_of polls forward_after target)
                 (relationship_items polls forward_after Article_categories source target
                    article_1 (Some [2])) = [VInt 2] ∧
  history_tags forward_added.2 =
    [("HistoricalArticle_categories", [Some (VStr "-"); Some (VStr "+")])].
Proof. repeat split; vm_compute; reflexivity. Qed.

(** ** The nesting of registrations *)

Lemma register_fuel_unexpected django fuel model app name config w :
  c_unexpected config ≠ [] →
  register_fuel django (S fuel) model app name config w =
    register_fuel django 1 model app name config w.
Proof.
  intros Hc. simpl. apply bind_cong_r. intros w0 w1 _.
  destruct (bool_decide _); [|done].
  unfold bind at 1 5. unfold HistoricalRecords__init__.
  by destruct (c_unexpected config).
Qed.

Lemma finalize_ext django register1 register2 self sender w :
  (∀ model app name config w,
     c_unexpected config ≠ [] →
     register1 model app name config w = register2 model app name config w) →
  finalize django register1 self sender w = finalize django register2 self sender w.
Proof.
  intros H. unfold finalize. cbv zeta.
  assert (∀ (skip : bool) (rest1 rest2 : Py unit) w,
            rest1 w = rest2 w →
            (if skip then ret tt else rest1) w = (if skip then ret tt else rest2) w)
    as Hskip by (by intros [|]).
  destruct (cls self) as [hint|]; [destruct (decide (hint ≠ m_name sender))|];
    try apply Hskip.
  all: apply bind_cong_r; intros w1 w2 _.
  all: destruct (bool_decide _); [done|]; apply bind_cong_l.
  all: destruct (m_proxy sender); [|done].
  all: destruct (filter _ _) as [|original ?]; [done|].
  all: apply bind_cong_r; intros [|] w3 _; [|done].
  all: apply bind_cong_l; by apply H.
Qed.

Lemma setup_through_ext django register1 register2 field w :
  (∀ model w, register1 model w = register2 model w) →
  setup_through django register1 field w = setup_through django register2 field w.
Proof.
  intros H. unfold setup_through. apply bind_cong_r. intros w0 w1 _.
  destruct (negb _); [|done]. apply bind_cong_r. intros unregistered w2 _.
  destruct (_ && _); [|done]. apply bind_cong_r. intros records w3 _.
  apply bind_cong_r. intros [] w4 _. apply H.
Qed.

Lemma setup_m2m_history_ext django register1 register2 self cls w :
  (∀ model w, register1 model w = register2 model w) →
  setup_m2m_history django register1 self cls w =
    setup_m2m_history django register2 self cls w.
Proof.
  intros H. unfold setup_m2m_history.
  destruct (m2m_fields self) as [| |[|name names]|[|]]; try done.
  - apply for_each_ext, Forall_forall. intros field _ w0. by apply setup_through_ext.
  - apply for_each_ext, Forall_forall. intros field_name _ w0.
    apply bind_cong_r. intros field w1 _. by apply setup_through_ext.
Qed.

Lemma finalize_fuel django fuel self sender w :
  finalize django (register_fuel django (S fuel)) self sender w =
    finalize django (register_fuel django 1) self sender w.
Proof. apply finalize_ext. intros. by apply register_fuel_unexpected. Qed.

Lemma register_through_fuel django fuel model w :
  register_fuel django (S (S fuel)) model None "history" default_config w =
    register_fuel django 2 model None "history" default_config w.
Proof.
  cbn [register_fuel]. apply bind_cong_r. intros w0 w1 _.
  destruct (bool_decide _); [|done].
  apply bind_cong_r. intros records w2 [= <- _].
  apply bind_cong_r. intros [] w3 _.
  apply bind_cong_r. intros [] w4 _.
  apply bind_cong_l. apply finalize_fuel.
Qed.

(** More than three levels of fuel change nothing: [register] is the
    function of the code. *)
Lemma register_fuel_enough django fuel model app name config w :
  register_fuel django (3 + fuel) model app name config w =
    register django model app name config w.
Proof.
  unfold register. change (3 + fuel)%nat with (S (S (S fuel))).
  cbn [register_fuel]. apply bind_cong_r. intros w0 w1 _.
  destruct (bool_decide _); [|done].
  apply bind_cong_r. intros records w2 _.
  apply bind_cong_r. intros [] w3 _.
  etrans; [apply bind_cong_l|apply bind_cong_r].
  - apply setup_m2m_history_ext. intros m w4.
    apply (register_through_fuel django fuel).
  - intros [] w4 _. apply bind_cong_l.
    rewrite (finalize_fuel django (S fuel)). by rewrite (finalize_fuel django 1).
Qed.

(** ** What the copies of the fields are *)

Lemma transform_field_flags write_engine field :
  let copy := transform_field write_engine field in
  f_primary_key copy = false ∧ f_unique copy = false ∧
  f_auto_now copy = false ∧ f_auto_now_add copy = false ∧
  (f_unique field = true → f_db_index copy = true ∧ f_serialize copy = true) ∧
  (f_unique field = false →
     f_db_index copy = f_db_index field ∧ f_serialize copy = f_serialize field).
Proof.
  unfold transform_field, f_unique. simpl.
  destruct field as [n c m t rn nl bl pk un ix se od dc tf col o2o an ana ml ch]; simpl.
  destruct (is_AutoField c), (is_FileField c), pk, un; simpl; by repeat split.
Qed.

Lemma copy_field_cases write_engine field :
  (is_ForeignKey (f_class field) = true ∧ is_OrderWrt (f_class field) = false ∧
   copy_field write_engine field =
     new_foreign_key
       (if f_one_to_one field || is_OneToOneField (f_class field)
        then ForeignKey else f_class field)
       field (field_arguments field)) ∨
  (is_ForeignKey (f_class field) = false ∧
   copy_field write_engine field =
     transform_field write_engine
       (if is_OrderWrt (f_class field) then set_class IntegerField field else field)).
Proof.
  unfold copy_field.
  destruct (is_OrderWrt (f_class field)) eqn:Ho.
  - right. simpl. split; [by destruct (f_class field)|done].
  - destruct (is_ForeignKey (f_class field)) eqn:Hfk; [by left|by right].
Qed.

(** X1.  The copies can hold many versions of one object: no copy is a primary
    key or unique, and none sets a timestamp by itself.  The copy of a
    field that was unique or the primary key is indexed. *)
Theorem copied_fields_not_unique write_engine model n c :
  copy_fields write_engine model !! n = Some c →
  f_primary_key c = false ∧ f_unique c = false ∧
  f_auto_now c = false ∧ f_auto_now_add c = false ∧
  ∃ field, field ∈ m_fields model ∧ f_name field = n ∧
           (f_unique field = true → f_db_index c = true ∧ f_serialize c = true) ∧
           (f_unique field = false → is_ForeignKey (f_class field) = false →
              f_db_index c = f_db_index field ∧ f_serialize c = f_serialize field).
Proof.
  intros (field & Hin & -> & ->)%copy_fields_lookup.
  destruct (copy_field_cases write_engine field) as [(Hfk & _ & ->)|[Hfk ->]].
  - do 4 (split; [done|]). exists field. split; [done|]. split; [done|].
    split; [done|]. intros _ Hn. by rewrite Hfk in Hn.
  - pose proof (transform_field_flags write_engine
                  (if is_OrderWrt (f_class field) then set_class IntegerField field
                   else field)) as (Hpk & Hun & Hnow & Hadd & Hix & Hsame).
    do 4 (split; [done|]). exists field.
    split; [done|]. split.
    { rewrite transform_field_name. unfold f_attname.
      destruct (is_OrderWrt (f_class field)) eqn:Ho; simpl; [done|by rewrite Hfk]. }
    split.
    + intros Hu. apply Hix. by destruct (is_OrderWrt (f_class field)).
    + intros Hu _.
      assert (f_unique (if is_OrderWrt (f_class field) then set_class IntegerField field
                        else field) = false) as Hu'
        by by destruct (is_OrderWrt (f_class field)).
      destruct (Hsame Hu') as [-> ->]. by destruct (is_OrderWrt (f_class field)).
Qed.

Lemma copied_fields_not_unique_witness :
  copy_fields (write_engine polls) Poll !! "id" = Some (copy_field (write_engine polls)
                                                          (auto_id "Poll")) ∧
  f_primary_key (auto_id "Poll") = true ∧
  f_primary_key (copy_field (write_engine polls) (auto_id "Poll")) = false ∧
  f_unique (copy_field (write_engine polls) (auto_id "Poll")) = false.
Proof.
  assert (copy_fields (write_engine polls) Poll !! "id" =
            Some (copy_field (write_engine polls) (auto_id "Poll"))) as H
    by (vm_compute; reflexivity).
  split; [exact H|]. split; [reflexivity|].
  destruct (copied_fields_not_unique (write_engine polls) Poll "id" _ H) as (Hpk & Hun & _).
  split; [exact Hpk | exact Hun].
Defined.

(** X2.  No copy keeps a class that acts by itself: an [AutoField] becomes an
    [IntegerField], or a [TextField] on the mongodb engine; a [FileField]
    or [ImageField] becomes a [TextField]; an [OrderWrt] becomes an
    [IntegerField]; a one-to-one field becomes a plain [ForeignKey].
    Every other field keeps its class. *)
Theorem copied_field_classes write_engine model n c :
  copy_fields write_engine model !! n = Some c →
  is_AutoField (f_class c) = false ∧ is_FileField (f_class c) = false ∧
  is_OrderWrt (f_class c) = false ∧ is_OneToOneField (f_class c) = false ∧
  ∃ field, field ∈ m_fields model ∧ f_name field = n ∧
    (is_AutoField (f_class field) = true →
       f_class c = if decide (write_engine (f_model field) = "django_mongodb_engine")
                   then TextField else IntegerField) ∧
    (is_FileField (f_class field) = true → f_class c = TextField) ∧
    (is_OrderWrt (f_class field) = true → f_class c = IntegerField) ∧
    (is_ForeignKey (f_class field) = true →
       f_class c = if f_one_to_one field || is_OneToOneField (f_class field)
                   then ForeignKey else f_class field) ∧
    (is_AutoField (f_class field) = false → is_FileField (f_class field) = false →
     is_OrderWrt (f_class field) = false → is_ForeignKey (f_class field) = false →
       f_class c = f_class field).
Proof.
  intros (field & Hin & -> & ->)%copy_fields_lookup.
  rewrite copy_field_name.
  destruct (copy_field_cases write_engine field) as [(Hfk & Ho & ->)|[Hfk ->]].
  - simpl.
    assert (∀ b : bool, is_AutoField (if b then ForeignKey else f_class field) = false ∧
                        is_FileField (if b then ForeignKey else f_class field) = false ∧
                        is_OrderWrt (if b then ForeignKey else f_class field) = false)
      as Hb by (intros [|]; by destruct (f_class field)).
    destruct (Hb (f_one_to_one field || is_OneToOneField (f_class field))) as (?&?&?).
    do 3 (split; [done|]). split.
    { destruct (f_one_to_one field); simpl; [done|]. by destruct (f_class field). }
    exists field. split; [done|]. split; [done|].
    repeat split; try done; intros; by destruct (f_class field).
  - destruct field as [nm cl md t rn nl bl pk un ix se od dc tf col o2o an ana ml ch].
    unfold transform_field, convert_auto_field, f_unique, f_attname. simpl in *.
    destruct cl; simpl in *; try discriminate;
      repeat case_decide; destruct pk, un; simpl;
      (do 4 (split; [done|])); (eexists; split; [exact Hin|]); simpl;
      repeat split; try done; intros; by repeat case_decide.
Qed.

Lemma copied_field_classes_witness :
  copy_fields (write_engine polls) Poll !! "id" =
    Some (copy_field (write_engine polls) (auto_id "Poll")) ∧
  is_AutoField (f_class (copy_field (write_engine polls) (auto_id "Poll"))) = false.
Proof.
  assert (copy_fields (write_engine polls) Poll !! "id" =
            Some (copy_field (write_engine polls) (auto_id "Poll"))) as H
    by (vm_compute; reflexivity).
  split; [exact H|].
  exact (proj1 (copied_field_classes (write_engine polls) Poll "id" _ H)).
Defined.

(** X3.  The copy of a foreign key creates no reverse accessor on the model it
    points to, and refers to the same model by the same target field and
    the same column as the original. *)
Theorem copied_foreign_key_arguments write_engine model n c :
  copy_fields write_engine model !! n = Some c →
  is_ForeignKey (f_class c) = true →
  f_related_name c = Some "+" ∧ f_blank c = true ∧ f_serialize c = true ∧
  ∃ old, old ∈ m_fields model ∧ f_name old = n ∧ f_attname c = f_attname old ∧
         f_to c = f_to old ∧
         f_to_fields c = [default None (head (f_to_fields old))] ∧
         (∀ column, column ≠ "" → f_db_column old = Some column →
                    f_db_column c = Some column) ∧
         (f_db_column old = None ∨ f_db_column old = Some "" → f_db_column c = None).
Proof.
  intros (old & Hin & -> & ->)%copy_fields_lookup Hfk.
  pose proof (copy_field_attname write_engine old) as Hatt.
  apply copy_field_foreign_key in Hfk as [Hold Heq]. rewrite Heq in *.
  do 3 (split; [done|]). exists old. do 4 (split; [done|]). simpl.
  split; [by destruct (f_to_fields old)|].
  split.
  - intros column Hne ->. by rewrite decide_False.
  - intros [->| ->]; [done|]. by rewrite decide_True.
Qed.

Lemma copied_foreign_key_arguments_witness :
  copy_fields (write_engine polls) Choice !! "poll" =
    Some (copy_field (write_engine polls) (foreign_key "poll" "Poll" "Choice")) ∧
  is_ForeignKey (f_class (copy_field (write_engine polls)
                            (foreign_key "poll" "Poll" "Choice"))) = true ∧
  f_related_name (copy_field (write_engine polls) (foreign_key "poll" "Poll" "Choice"))
    = Some "+".
Proof.
  assert (copy_fields (write_engine polls) Choice !! "poll" =
            Some (copy_field (write_engine polls) (foreign_key "poll" "Poll" "Choice")))
    as H by (vm_compute; reflexivity).
  assert (is_ForeignKey (f_class (copy_field (write_engine polls)
                                    (foreign_key "poll" "Poll" "Choice"))) = true)
    as Hfk by reflexivity.
  split; [exact H|]. split; [exact Hfk|].
  exact (proj1 (copied_foreign_key_arguments (write_engine polls) Choice "poll" _ H Hfk)).
Defined.

(** X4.  [copy_fields] has one entry for every field name of the model, under
    this name, and the copy answers to the attribute name of the field it
    copies: the values of an instance fit the columns of the copies. *)
Theorem copied_fields_names write_engine model :
  (∀ field, field ∈ m_fields model →
     ∃ c, copy_fields write_engine model !! f_name field = Some c ∧ f_name c = f_name field) ∧
  (∀ n c, copy_fields write_engine model !! n = Some c →
     ∃ field, field ∈ m_fields model ∧ f_name field = n ∧ c = copy_field write_engine field ∧
              f_attname c = f_attname field) ∧
  (NoDup (f_name <$> m_fields model) →
   ∀ field, field ∈ m_fields model →
     copy_fields write_engine model !! f_name field = Some (copy_field write_engine field)).
Proof.
  split; [|split].
  - intros field Hin.
    assert (∀ l (acc : gmap string Field),
      (field ∈ l ∨ is_Some (acc !! f_name field)) →
      is_Some (foldl (λ fields f, let f := copy_field write_engine f in
                                  <[f_name f := f]> fields) acc l !! f_name field)) as Hgen.
    { induction l as [|x l IH]; intros acc H; simpl.
      - destruct H as [H|H]; [by apply elem_of_nil in H|done].
      - apply IH. destruct H as [[->|H]%elem_of_cons|H].
        + right. rewrite copy_field_name. by rewrite lookup_insert_eq.
        + by left.
        + right. rewrite lookup_insert. case_decide; [done|exact H]. }
    destruct (Hgen (m_fields model) ∅ (or_introl Hin)) as [c Hc].
    exists c. split; [exact Hc|].
    apply copy_fields_lookup in Hc as (f & _ & _ & ->). done.
  - intros n c Hc. pose proof Hc as (field & Hin & -> & ->)%copy_fields_lookup.
    exists field. rewrite copy_field_name. repeat split; try done.
    apply copy_field_attname.
  - intros Hnd field Hin. by apply copy_fields_lookup_name.
Qed.

(** ** What the handlers leave alone *)

#[global] Instance only_tables_differ_preorder : PreOrder only_tables_differ.
Proof.
  split.
  - intros w. by repeat split.
  - intros w1 w2 w3 H12 H23. unfold only_tables_differ in *.
    destruct H12 as (?&?&?&?&?&?&?&?), H23 as (?&?&?&?&?&?&?&?).
    repeat split; congruence.
Qed.

Lemma create_historical_record_only_tables django self instance history_type :
  respects only_tables_differ
    (create_historical_record django self instance history_type).
Proof.
  intros w.
  destruct (create_historical_record django self instance history_type w) as [r w'] eqn:H.
  apply create_historical_record_inv in H as [[-> _]|(hm & row & _ & _ & -> & _)]; simpl.
  - reflexivity.
  - by repeat split.
Qed.

(** X5.  The handlers of the four signals write to the historical tables and
    to nothing else: the live tables, the registry, the attributes of the
    classes, the receivers and the clock are as before, also when a handler
    raises. *)
Theorem handlers_write_history_only django self instance created raw action sender kwargs w :
  only_tables_differ w (post_save django self instance created raw w).2 ∧
  only_tables_differ w (pre_delete django self instance w).2 ∧
  only_tables_differ w (post_delete django self instance w).2 ∧
  only_tables_differ w (m2m_changed django self action instance sender kwargs w).2.
Proof.
  pose proof (create_historical_record_only_tables django) as H.
  split; [apply (post_save_respects django only_tables_differ H)|].
  split; [apply (pre_delete_respects django only_tables_differ H)|].
  split; [apply (post_delete_respects django only_tables_differ H)|].
  apply (m2m_changed_respects django only_tables_differ H).
Qed.

(** ** Timestamps and identifiers of the rows *)

#[global] Instance keeps_stamped_preorder : PreOrder keeps_stamped.
Proof. split; unfold keeps_stamped; [by intros w|]. intros w1 w2 w3. tauto. Qed.

Lemma create_historical_record_stamped django self instance history_type :
  respects keeps_stamped (create_historical_record django self instance history_type).
Proof.
  intros w.
  destruct (create_historical_record django self instance history_type w) as [r w'] eqn:H.
  apply create_historical_record_inv in H
    as [[-> _]|(hm & row & _ & _ & -> & Hattrs & Hrow)]; simpl; [reflexivity|].
  intros Hw table. rewrite history_rows_set_tables.
  case_decide as Ht; [|apply Hw]. subst table.
  apply Forall_app. split; [apply Hw|]. apply Forall_singleton.
  assert (create_kwargs django w instance history_type !! "history_date" =
            Some (VInt (default (clock w) (o__history_date instance)))) as Hdate.
  { rewrite create_kwargs_lookup; [done|].
    intros Hin. destruct (Hattrs _ Hin) as [_ Hn]. apply Hn. in_list. }
  destruct Hrow as [[-> _]|[-> (z & Hz & _)]]; split.
  - unfold row_date. rewrite lookup_insert_ne by done. by rewrite Hdate.
  - unfold row_id. by rewrite lookup_insert_eq.
  - unfold row_date. by rewrite Hdate.
  - unfold row_id. by rewrite Hz.
Qed.

(** X6.  Every row that a handler writes carries an integer timestamp and an
    integer identifier, whatever the fields of the model are called: the
    default ordering of the historical model compares rows that have
    both. *)
Theorem handlers_stamp_rows django self instance created raw action sender kwargs w :
  all_stamped w →
  all_stamped (post_save django self instance created raw w).2 ∧
  all_stamped (pre_delete django self instance w).2 ∧
  all_stamped (post_delete django self instance w).2 ∧
  all_stamped (m2m_changed django self action instance sender kwargs w).2.
Proof.
  intros Hw.
  pose proof (create_historical_record_stamped django) as H.
  split; [by apply (post_save_respects django keeps_stamped H)|].
  split; [by apply (pre_delete_respects django keeps_stamped H)|].
  split; [by apply (post_delete_respects django keeps_stamped H)|].
  by apply (m2m_changed_respects django keeps_stamped H).
Qed.

Lemma handlers_stamp_rows_witness :
  all_stamped polls_world ∧
  all_stamped (post_save polls poll_history poll_1 true false polls_world).2.
Proof.
  assert (all_stamped polls_world) as H.
  { intros table. unfold history_rows. rewrite polls_world_tables.
    rewrite lookup_empty. constructor. }
  split; [exact H|].
  exact (proj1 (handlers_stamp_rows polls poll_history poll_1 true false "post_add"
                  Article_categories (mkKwargs "Article" None) polls_world H)).
Defined.

(** ** The tags of the rows *)

#[global] Instance appends_tagged_preorder tags : PreOrder (appends_tagged tags).
Proof.
  split.
  - intros w table. exists []. by rewrite app_nil_r.
  - intros w1 w2 w3 H12 H23 table.
    destruct (H12 table) as (new1 & E1 & F1), (H23 table) as (new2 & E2 & F2).
    exists (new1 ++ new2). rewrite E2, E1, app_assoc. split; [done|].
    by apply Forall_app.
Qed.

Lemma appends_tagged_weaken tags tags' w w' :
  tags ⊆ tags' → appends_tagged tags w w' → appends_tagged tags' w w'.
Proof.
  intros Hsub H table. destruct (H table) as (new & E & F).
  exists new. split; [done|].
  eapply Forall_impl; [exact F|]. intros r (t & Ht & Hr). exists t. split; [by apply Hsub|done].
Qed.

Lemma create_historical_record_tagged django self instance history_type tags :
  history_type ∈ tags →
  respects (appends_tagged tags)
    (create_historical_record django self instance history_type).
Proof.
  intros Hin w.
  destruct (create_historical_record django self instance history_type w) as [r w'] eqn:H.
  apply create_historical_record_inv in H
    as [[-> _]|(hm & row & _ & _ & -> & Hattrs & Hrow)]; simpl; [reflexivity|].
  intros table. rewrite history_rows_set_tables.
  case_decide as Ht; [|exists []; by rewrite app_nil_r]. subst table.
  exists [row]. split; [done|]. apply Forall_singleton.
  exists history_type. split; [done|].
  assert (create_kwargs django w instance history_type !! "history_type" =
            Some (VStr history_type)) as Htype.
  { rewrite create_kwargs_lookup; [done|].
    intros Hi. destruct (Hattrs _ Hi) as [_ Hn]. apply Hn. in_list. }
  destruct Hrow as [[-> _]|[-> _]]; [|done].
  by rewrite lookup_insert_ne.
Qed.

Ltac leaf_respects R :=
  first [apply (respects_ret R) | apply (respects_raise R) | apply (respects_get R)].

Lemma related_object_tagged django tags target item :
  respects (appends_tagged tags) (related_object django target item).
Proof.
  unfold related_object.
  destruct target; [|leaf_respects (appends_tagged tags)].
  destruct (o_vals _ _); try leaf_respects (appends_tagged tags).
  all: apply (respects_bind (appends_tagged tags));
    [leaf_respects (appends_tagged tags)|intros ?].
  all: destruct (objects_filter _ _ _); leaf_respects (appends_tagged tags).
Qed.

Lemma items_of_target_tagged django tags target_field target items :
  respects (appends_tagged tags) (items_of_target django target_field target items).
Proof.
  induction items as [|i items IH]; simpl; [leaf_respects (appends_tagged tags)|].
  apply (respects_bind (appends_tagged tags)); [apply related_object_tagged|intros o].
  apply (respects_bind (appends_tagged tags)); [apply IH|intros rest].
  destruct o as [o|]; [destruct (Model_eq _ _ _)|]; leaf_respects (appends_tagged tags).
Qed.

Lemma record_change_tagged django self sender target_field others item tags :
  "~" ∈ tags →
  respects (appends_tagged tags)
    (record_change django self sender target_field others item).
Proof.
  intros Hin. unfold record_change.
  apply (respects_bind (appends_tagged tags));
    [apply related_object_tagged|intros [target|]];
    [|leaf_respects (appends_tagged tags)].
  destruct (has_m2m_field _ _ _); [|leaf_respects (appends_tagged tags)].
  apply (respects_bind (appends_tagged tags));
    [apply items_of_target_tagged|intros [|??]];
    [|leaf_respects (appends_tagged tags)].
  by apply create_historical_record_tagged.
Qed.

Lemma m2m_changed_tagged django self action instance sender kwargs :
  respects (appends_tagged (m2m_tags action instance))
    (m2m_changed django self action instance sender kwargs).
Proof.
  set (tags := m2m_tags action instance).
  assert (tags = m2m_tags action instance) as Htags by done. clearbody tags.
  unfold m2m_changed.
  destruct (relation_fields _ _ _ _) as [source_field target_field].
  apply (respects_bind (appends_tagged tags)); [leaf_respects (appends_tagged tags)|intros w0].
  apply (respects_bind (appends_tagged tags)); [ |intros items0].
  { destruct source_field; leaf_respects (appends_tagged tags). }
  apply (respects_bind (appends_tagged tags)); [ |intros items].
  { destruct (kw_pk_set kwargs) as [[|??]|]; try leaf_respects (appends_tagged tags).
    destruct target_field; leaf_respects (appends_tagged tags). }
  apply (respects_bind (appends_tagged tags)); [ |intros _].
  { apply (respects_for_each (appends_tagged tags)); intros item.
    unfold m2m_tags in Htags.
    destruct (decide (action = "post_add")).
    - destruct (o_skip_history_when_saving item); [leaf_respects (appends_tagged tags)|].
      apply create_historical_record_tagged. subst tags.
      destruct (o___pre_clear_items instance); in_list.
    - destruct (decide (action = "pre_remove")).
      + apply create_historical_record_tagged. subst tags. in_list.
      + destruct (decide (action = "pre_clear")); [|leaf_respects (appends_tagged tags)].
        apply create_historical_record_tagged. subst tags. in_list. }
  destruct (decide (action = "pre_clear")); [leaf_respects (appends_tagged tags)|].
  destruct (decide (action = "post_add")) as [Ha|]; [|leaf_respects (appends_tagged tags)].
  destruct (o___pre_clear_items instance) as [other_items|] eqn:Hother;
    [|leaf_respects (appends_tagged tags)].
  assert ("~" ∈ tags) as Hin.
  { subst tags. unfold m2m_tags. rewrite decide_True by done. rewrite Hother. in_list. }
  apply (respects_bind (appends_tagged tags)); [ |intros _].
  { apply (respects_for_each (appends_tagged tags)); intros item.
    by apply record_change_tagged. }
  apply (respects_bind (appends_tagged tags)); [ |intros _].
  { apply (respects_for_each (appends_tagged tags)); intros item.
    by apply record_change_tagged. }
  leaf_respects (appends_tagged tags).
Qed.

(** X7.  Every handler appends rows whose tag is one that the signal stands
    for.  [post_save] writes [+] for a creation and [~] for an update;
    [post_delete] writes [-]; [pre_delete] writes [-] and [~];
    [m2m_changed] writes [+] for [post_add], and [~] too when a clear went
    before, [-] for [pre_remove] and [pre_clear], and nothing for any other
    action.  The rows that were there stay, also when the handler raises. *)
Theorem handlers_write_their_tags django self instance (created raw : bool) action sender
    kwargs w :
  appends_tagged [if created then "+" else "~"] w
    (post_save django self instance created raw w).2 ∧
  appends_tagged ["-"; "~"] w (pre_delete django self instance w).2 ∧
  appends_tagged ["-"] w (post_delete django self instance w).2 ∧
  appends_tagged (m2m_tags action instance) w
    (m2m_changed django self action instance sender kwargs w).2.
Proof.
  split; [|split; [|split]].
  - unfold post_save.
    destruct (negb created && _); [reflexivity|].
    destruct (negb raw); [|reflexivity].
    apply create_historical_record_tagged. in_list.
  - unfold pre_delete.
    apply (respects_for_each (appends_tagged ["-"; "~"])); intros m2m_field.
    apply (respects_bind (appends_tagged ["-"; "~"]));
      [leaf_respects (appends_tagged ["-"; "~"])|intros w0].
    destruct (bool_decide _); [|leaf_respects (appends_tagged ["-"; "~"])].
    apply (respects_bind (appends_tagged ["-"; "~"])); [ |intros _].
    { apply (respects_for_each (appends_tagged ["-"; "~"])); intros item.
      apply create_historical_record_tagged. in_list. }
    apply (respects_bind (appends_tagged ["-"; "~"]));
      [leaf_respects (appends_tagged ["-"; "~"])|intros w1].
    apply (respects_for_each (appends_tagged ["-"; "~"])); intros item.
    apply create_historical_record_tagged. in_list.
  - unfold post_delete. apply create_historical_record_tagged. in_list.
  - apply m2m_changed_tagged.
Qed.

(** ** Deleting an instance without tracked relations *)

(** X8.  [pre_delete] does nothing for an instance whose model has no
    many-to-many field, or none whose through model is tracked. *)
Theorem pre_delete_without_tracked_relations django self instance w :
  Forall (λ m2m_field,
            simple_history_manager_attribute w
              !! m_name (class_of django (m2m_through m2m_field)) = None)
         (m_many_to_many (class_of django (o_class instance))) →
  pre_delete django self instance w = (Return tt, w).
Proof.
  unfold pre_delete.
  induction 1 as [|m2m_field fields Hf _ IH]; simpl; [done|].
  unfold bind at 1. unfold bind at 1. unfold get at 1. simpl.
  rewrite Hf. rewrite bool_decide_eq_false_2 by (by intros [? ?]).
  simpl. apply IH.
Qed.

Lemma pre_delete_without_tracked_relations_witness :
  pre_delete polls poll_history poll_1 polls_world = (Return tt, polls_world).
Proof.
  apply (pre_delete_without_tracked_relations polls poll_history poll_1 polls_world).
  vm_compute. constructor.
Defined.

(** ** A relation without a source *)

Lemma relation_fields_no_source django sender instance model :
  Forall (λ f, is_ForeignKey (f_class f) = true →
               f_to f = Some model ∨
               isinstance django instance (default "" (f_to f)) = false)
         (m_fields sender) →
  (relation_fields django sender instance model).1 = None.
Proof.
  unfold relation_fields.
  assert (∀ l (acc : option Field * option Field),
    acc.1 = None →
    Forall (λ f, is_ForeignKey (f_class f) = true →
                 f_to f = Some model ∨
                 isinstance django instance (default "" (f_to f)) = false) l →
    (foldl (λ names field,
              if is_ForeignKey (f_class field) then
                if decide (f_to field = Some model) then (names.1, Some field)
                else if isinstance django instance (default "" (f_to field))
                     then (Some field, names.2)
                     else names
              else names) acc l).1 = None) as Hgen.
  { induction l as [|f l IH]; intros acc Hacc Hl; simpl; [done|].
    apply Forall_cons in Hl as [Hf Hl]. apply IH; [|done].
    destruct (is_ForeignKey (f_class f)); [|done].
    destruct (decide _); [done|].
    destruct (Hf eq_refl) as [?|Hi]; [done|by rewrite Hi]. }
  intros H. by apply Hgen.
Qed.

(** X9.  [m2m_changed] needs a foreign key of the through model that points to
    a class of the instance and not to [kwargs['model']].  Without one, as
    for a relation of a model to itself, where both foreign keys point to
    [kwargs['model']], the handler raises [TypeError] before it writes
    anything. *)
Theorem m2m_changed_without_source django self action instance sender kwargs w :
  Forall (λ f, is_ForeignKey (f_class f) = true →
               f_to f = Some (kw_model kwargs) ∨
               isinstance django instance (default "" (f_to f)) = false)
         (m_fields sender) →
  m2m_changed django self action instance sender kwargs w =
    (Raise (TypeError "filter() keywords must be strings"), w).
Proof.
  intros H. apply relation_fields_no_source in H.
  unfold m2m_changed.
  destruct (relation_fields _ _ _ _) as [source target]. simpl in H. by subst source.
Qed.

Lemma m2m_changed_without_source_witness :
  m2m_changed polls history "post_add" poll_1 Poll_related (mkKwargs "Poll" (Some [2]))
    polls_world =
    (Raise (TypeError "filter() keywords must be strings"), polls_world).
Proof.
  apply (m2m_changed_without_source polls history "post_add" poll_1 Poll_related
           (mkKwargs "Poll" (Some [2])) polls_world).
  repeat constructor; simpl; intros; by left.
Defined.

(** ** Recording fails as a whole *)

(** X10.  [create_historical_record] either appends one row to one table, or
    raises and changes nothing.  It raises [AttributeError] when the class
    of the instance has no history manager under the name of [self], and
    [TypeError] when a field of the model has the attribute name of one of
    the keywords [history_date], [history_type] and [history_user] that the
    call to [create] passes. *)
Theorem create_historical_record_fails_as_a_whole django self instance history_type w :
  let model := class_of django (o_class instance) in
  let run := create_historical_record django self instance history_type w in
  (run.1 ≠ Return tt → run.2 = w) ∧
  (run.1 = Return tt →
     ∃ history_model row,
       history_model_of django w self instance = Some history_model ∧
       run.2 = set_tables (hm_name history_model)
                 (history_rows w (hm_name history_model) ++ [row]) w) ∧
  (history_model_of django w self instance = None →
     ∃ msg, run = (Raise (AttributeError msg), w)) ∧
  (is_Some (history_model_of django w self instance) →
   (∃ k, k ∈ ["history_date"; "history_type"; "history_user"] ∧
         k ∈ f_attname <$> m_fields model) →
     ∃ msg, run = (Raise (TypeError msg), w)).
Proof.
  intros model run.
  split; [|split; [|split]].
  - intros Hr. destruct run as [r w'] eqn:Hrun. subst run.
    apply create_historical_record_inv in Hrun as [[-> _]|(hm & row & _ & -> & _)]; done.
  - intros Hr. destruct run as [r w'] eqn:Hrun. subst run. simpl in Hr. subst r.
    apply create_historical_record_inv in Hrun
      as [[_ [e [=]]]|(hm & row & Hm & _ & -> & _)].
    by exists hm, row.
  - intros Hm. subst run. unfold create_historical_record, history_model_of in *.
    unfold bind at 1. unfold get at 1. simpl.
    unfold bind at 1. rewrite get_history_user_eq.
    destruct (lookup_mro _ _ _) as [[ | hm | ]|]; try done; by eexists.
  - intros [hm Hm] (k & Hk & Hin). subst run.
    unfold create_historical_record, history_model_of in *.
    unfold bind at 1. unfold get at 1. simpl.
    unfold bind at 1. rewrite get_history_user_eq.
    destruct (lookup_mro _ _ _) as [[ | hm' | ]|]; try done.
    unfold bind at 1. unfold keyword_arguments.
    destruct (find _ _) as [kv|] eqn:Hfind; [by eexists|].
    exfalso.
    assert (instance_attrs model instance !! k = Some (o_vals instance k)) as Hattr
      by (rewrite instance_attrs_lookup; by rewrite bool_decide_eq_true_2).
    simpl in Hfind. repeat case_bool_decide; try done.
    rewrite !elem_of_cons in Hk.
    destruct Hk as [->|[->|[->|[]%elem_of_nil]]]; subst model; rewrite Hattr in *; eauto.
Qed.

(** ** The two objects of a snapshot *)

Lemma get_instance_kwargs_lookup (fields : gmap string Field) row a v :
  map_fold (λ _ field (kwargs : Row),
              <[f_attname field := row_getattr row (f_attname field)]> kwargs)
           ∅ fields !! a = Some v →
  v = row_getattr row a ∧ ∃ k c, fields !! k = Some c ∧ f_attname c = a.
Proof.
  revert a v.
  apply (map_fold_weak_ind (λ (r : Row) (m : gmap string Field),
           ∀ a v, r !! a = Some v →
                  v = row_getattr row a ∧ ∃ k c, m !! k = Some c ∧ f_attname c = a)).
  - intros a v H. by rewrite lookup_empty in H.
  - intros i x m r Hi IH a v Hv.
    destruct (decide (f_attname x = a)) as [<-|Hne].
    + rewrite lookup_insert_eq in Hv. injection Hv as <-. split; [done|].
      exists i, x. by rewrite lookup_insert_eq.
    + rewrite lookup_insert_ne in Hv by done.
      destruct (IH a v Hv) as [-> (k & c & Hc & Ha)]. split; [done|].
      exists k, c. split; [|done]. rewrite lookup_insert_ne; [done|].
      intros ->. by rewrite Hi in Hc.
Qed.

Lemma Model_init_args_lookup model row a :
  o_vals (HistoricalObjectDescriptor__get__ model row) a =
    if bool_decide (a ∈ f_attname <$> m_fields model) then row_getattr row a else VNone.
Proof.
  unfold HistoricalObjectDescriptor__get__, Model_init_args. simpl.
  assert (∀ l (acc : Row),
    foldl (λ (attrs : Row) (av : string * value), <[av.1 := av.2]> attrs) acc
          (zip (f_attname <$> l) ((λ f, row_getattr row (f_attname f)) <$> l)) !! a =
    if bool_decide (a ∈ f_attname <$> l) then Some (row_getattr row a) else acc !! a) as Hgen.
  { induction l as [|x l IH]; intros acc; simpl; [done|].
    rewrite IH. destruct (decide (a = f_attname x)) as [->|Hne].
    - rewrite lookup_insert_eq.
      rewrite (bool_decide_eq_true_2 (f_attname x ∈ f_attname x :: _)) by apply list_elem_of_here.
      by case_bool_decide.
    - rewrite lookup_insert_ne by done.
      case_bool_decide as H1; case_bool_decide as H2; try done.
      + exfalso. apply H2. by apply list_elem_of_further.
      + exfalso. apply elem_of_cons in H2 as [?|?]; done. }
  rewrite Hgen. by case_bool_decide.
Qed.

(** X11.  The [instance] property and the [history_object] descriptor build the
    same object from a snapshot of a model whose fields have distinct
    names: an object of the tracked model that has the value of the
    snapshot for every attribute of a field of the model, and [None] for
    every other attribute, the bookkeeping values among them. *)
Theorem history_object_is_instance write_engine model row :
  NoDup (f_name <$> m_fields model) →
  let by_property := get_instance (m_name model) (copy_fields write_engine model) row in
  let by_descriptor := HistoricalObjectDescriptor__get__ model row in
  o_class by_property = m_name model ∧ o_class by_descriptor = m_name model ∧
  ∀ attname,
    o_vals by_property attname = o_vals by_descriptor attname ∧
    o_vals by_descriptor attname =
      if bool_decide (attname ∈ f_attname <$> m_fields model)
      then row_getattr row attname else VNone.
Proof.
  intros Hnd by_property by_descriptor. do 2 (split; [done|]).
  intros a. split; [|apply Model_init_args_lookup].
  subst by_descriptor. rewrite Model_init_args_lookup.
  case_bool_decide as Hin.
  - apply list_elem_of_fmap in Hin as (f & -> & Hf).
    pose proof (copy_fields_lookup_name write_engine model f Hnd Hf) as Hc.
    subst by_property.
    rewrite <- (copy_field_attname write_engine f).
    apply (get_instance_vals _ _ _ _ _ Hc).
  - subst by_property. unfold get_instance, Model_init_kwargs. simpl.
    destruct (map_fold _ _ _ !! a) as [v|] eqn:Hv; [|done].
    exfalso. apply get_instance_kwargs_lookup in Hv as [_ (k & c & Hc & <-)].
    apply copy_fields_lookup in Hc as (f & Hf & -> & _).
    apply Hin. rewrite copy_field_attname. by apply list_elem_of_fmap_2.
Qed.

Lemma history_object_is_instance_witness :
  NoDup (f_name <$> m_fields Poll) ∧
  o_vals (get_instance "Poll" (copy_fields (write_engine polls) Poll) {[ "id" := VInt 1 ]})
         "id" =
    o_vals (HistoricalObjectDescriptor__get__ Poll {[ "id" := VInt 1 ]}) "id".
Proof.
  assert (NoDup (f_name <$> m_fields Poll)) as H by by_evaluation.
  split; [exact H|].
  destruct (history_object_is_instance (write_engine polls) Poll {[ "id" := VInt 1 ]} H)
    as (_ & _ & Hv).
  exact (proj1 (Hv "id")).
Defined.

(** ** The historical class *)

Lemma create_history_model_inv django self model w r w' :
  create_history_model django self model w = (r, w') →
  (r = Raise (KeyError (m_app_label model)) ∧ w' = w ∧
   m_module model = module self ∧ m_app_label model +:+ ".models" ≠ module self ∧
   app_name django (m_app_label model) = None) ∨
  ∃ module_attr,
    (m_module model ≠ module self ∨ m_app_label model +:+ ".models" = module self →
       module_attr = module self) ∧
    (m_module model = module self → m_app_label model +:+ ".models" ≠ module self →
       app_name django (m_app_label model) = Some module_attr) ∧
    w' = set_registered_models (m_db_table model) (m_name model) w ∧
    r = Return
          (mkHistoricalModel ("Historical" +:+ m_name model) (bases self)
             match table_name self with
             | Some t =>
                 alter (set_Meta_db_table t) "Meta"
                   (<["Meta" := AttrMeta (get_meta_options self model)]>
                      (get_extra_fields django self model
                         (copy_fields (write_engine django) model) ∪
                       ((AttrField <$> copy_fields (write_engine django) model) ∪
                        {[ "__module__" := AttrModule module_attr ]})))
             | None =>
                 <["Meta" := AttrMeta (get_meta_options self model)]>
                   (get_extra_fields django self model
                      (copy_fields (write_engine django) model) ∪
                    ((AttrField <$> copy_fields (write_engine django) model) ∪
                     {[ "__module__" := AttrModule module_attr ]}))
             end).
Proof.
  unfold create_history_model. unfold bind at 1.
  destruct (decide (m_module model ≠ module self)) as [Hm|Hm].
  - unfold ret at 1. unfold bind, modify, ret. intros [= <- <-]. right.
    exists (module self). rewrite insert_singleton_eq. by repeat split.
  - apply dec_stable in Hm.
    destruct (decide (m_app_label model +:+ ".models" ≠ module self)) as [Ha|Ha].
    + destruct (app_name django (m_app_label model)) as [models_module|] eqn:Happ.
      * unfold ret at 1. unfold bind, modify, ret. intros [= <- <-]. right.
        exists models_module. rewrite insert_singleton_eq.
        split; [intros [?|?]; done|]. by repeat split.
      * unfold raise. intros [= <- <-]. by left.
    + apply dec_stable in Ha.
      unfold ret at 1. unfold bind, modify, ret. intros [= <- <-]. right.
      exists (module self). split; [done|]. split; [done|]. by repeat split.
Qed.

Lemma create_history_model_state django self model w history_model w' :
  create_history_model django self model w = (Return history_model, w') →
  w' = set_registered_models (m_db_table model) (m_name model) w ∧
  hm_name history_model = "Historical" +:+ m_name model.
Proof.
  by intros [(? & _)|(module_attr & _ & _ & -> & [= ->])]%create_history_model_inv.
Qed.

(** X12.  The class that [create_history_model] makes for a model is called
    [Historical] followed by the name of the model and has the bases given
    to [HistoricalRecords].  Its [Meta] orders by descending date and
    identifier, takes the latest by date, carries the verbose name given by
    the user, or [historical] and the verbose name of the model when none or
    an empty one is given, and the table name when one is given.  Making
    the class enters the table of the model in [registered_models] and
    changes nothing else. *)
Theorem historical_model_class django self model w history_model w' :
  create_history_model django self model w = (Return history_model, w') →
  hm_name history_model = "Historical" +:+ m_name model ∧
  hm_bases history_model = bases self ∧
  hm_attrs history_model !! "Meta" =
    Some (AttrMeta {| ordering := ["-history_date"; "-history_id"];
                      get_latest_by := "history_date";
                      verbose_name := historical_verbose_name self model;
                      db_table := table_name self |}) ∧
  w' = set_registered_models (m_db_table model) (m_name model) w.
Proof.
  intros [(? & _)|(module_attr & _ & _ & -> & [= ->])]%create_history_model_inv; [done|].
  simpl. do 2 (split; [done|]). split; [|done].
  destruct (table_name self) as [t|].
  - rewrite lookup_alter_eq, lookup_insert_eq. done.
  - by rewrite lookup_insert_eq.
Qed.

Lemma historical_model_class_witness :
  create_history_model polls poll_history Poll empty_world =
    (Return HistoricalPoll,
     set_registered_models "polls_poll" "Poll" empty_world) ∧
  hm_name HistoricalPoll = "HistoricalPoll" ∧
  hm_attrs HistoricalPoll !! "Meta" =
    Some (AttrMeta (mkMeta ["-history_date"; "-history_id"] "history_date"
                           "historical poll" None)).
Proof.
  assert (create_history_model polls poll_history Poll empty_world =
            (Return HistoricalPoll, set_registered_models "polls_poll" "Poll" empty_world))
    as H by (vm_compute; reflexivity).
  split; [exact H|].
  destruct (historical_model_class polls poll_history Poll empty_world HistoricalPoll _ H)
    as (Hn & _ & Hmeta & _).
  split; [exact Hn | exact Hmeta].
Defined.

(** X13.  The module of the historical class is the module of [self], that is
    the module of the app given to [register] or else the module of the
    model, with one exception: when this is the module of the model and
    not the [models] module of its app, the class goes to the module that
    the app registry names for the app label, and making the class fails
    with [KeyError], before anything is changed, when the registry has no
    such app. *)
Theorem historical_model_module django self model w :
  "__module__" ∉ f_name <$> m_fields model →
  let run := create_history_model django self model w in
  let elsewhere :=
    m_module model = module self ∧ m_app_label model +:+ ".models" ≠ module self in
  (¬ elsewhere →
     ∃ history_model, run.1 = Return history_model ∧
       hm_attrs history_model !! "__module__" = Some (AttrModule (module self))) ∧
  (elsewhere → ∀ name, app_name django (m_app_label model) = Some name →
     ∃ history_model, run.1 = Return history_model ∧
       hm_attrs history_model !! "__module__" = Some (AttrModule name)) ∧
  (elsewhere → app_name django (m_app_label model) = None →
     run = (Raise (KeyError (m_app_label model)), w)).
Proof.
  intros Hfield run elsewhere.
  assert (∀ r w' hm, run = (r, w') → r = Return hm →
            ∃ module_attr,
              (m_module model ≠ module self ∨ m_app_label model +:+ ".models" = module self →
                 module_attr = module self) ∧
              (m_module model = module self →
               m_app_label model +:+ ".models" ≠ module self →
                 app_name django (m_app_label model) = Some module_attr) ∧
              hm_attrs hm !! "__module__" = Some (AttrModule module_attr)) as Hattr.
  { intros r w' hm Hrun ->.
    apply create_history_model_inv in Hrun
      as [(? & _)|(module_attr & H1 & H2 & _ & [= ->])]; [done|].
    exists module_attr. do 2 (split; [done|]). simpl.
    assert ((get_extra_fields django self model (copy_fields (write_engine django) model) ∪
             ((AttrField <$> copy_fields (write_engine django) model) ∪
              {[ "__module__" := AttrModule module_attr ]})) !! "__module__" =
            Some (AttrModule module_attr)) as Hm.
    { rewrite lookup_union_r.
      2:{ apply get_extra_fields_names. unfold extra_names.
          rewrite !not_elem_of_cons. repeat split; try done. apply not_elem_of_nil. }
      rewrite lookup_union_r; [by rewrite lookup_singleton_eq|].
      rewrite lookup_fmap.
      destruct (copy_fields (write_engine django) model !! "__module__") as [c|] eqn:Hc;
        [|done].
      exfalso. apply copy_fields_lookup in Hc as (f & Hf & -> & Hn).
      apply Hfield. rewrite Hn, copy_field_name. by apply list_elem_of_fmap_2. }
    destruct (table_name self).
    - rewrite lookup_alter_ne by done. by rewrite lookup_insert_ne.
    - by rewrite lookup_insert_ne. }
  destruct run as [r w'] eqn:Hrun.
  pose proof Hrun as Hinv. unfold run in Hinv.
  apply create_history_model_inv in Hinv
    as [(-> & -> & Hm & Ha & Happ)|(module_attr & H1 & H2 & _ & ->)].
  - split; [|split].
    + intros Hn. exfalso. apply Hn. by split.
    + intros _ name Hname. by rewrite Happ in Hname.
    + done.
  - destruct (Hattr _ _ _ eq_refl eq_refl) as (m & Hm1 & Hm2 & Hm).
    split; [|split].
    + intros Hn. eexists. split; [done|]. rewrite Hm. do 2 f_equal. apply Hm1.
      destruct (decide (m_module model = module self)) as [Heq|Hne]; [|by left].
      destruct (decide (m_app_label model +:+ ".models" = module self)); [by right|].
      exfalso. apply Hn. by split.
    + intros [He1 He2] name Hname. eexists. split; [done|]. rewrite Hm.
      specialize (Hm2 He1 He2). congruence.
    + intros [He1 He2] Hnone. specialize (H2 He1 He2). congruence.
Qed.

Lemma historical_model_module_witness :
  ("__module__" ∉ f_name <$> m_fields Poll) ∧
  ∃ history_model,
    (create_history_model polls poll_history Poll empty_world).1 = Return history_model ∧
    hm_attrs history_model !! "__module__" = Some (AttrModule "polls.models").
Proof.
  assert ("__module__" ∉ f_name <$> m_fields Poll) as H by by_evaluation.
  split; [exact H|].
  apply (proj1 (historical_model_module polls poll_history Poll empty_world H)).
  intros [_ Hne]. by apply Hne.
Defined.

(** ** What [finalize] does for a class *)

Lemma finalize_skips django register_ self sender w :
  applies_to self sender = false →
  finalize django register_ self sender w = (Return tt, w).
Proof.
  unfold applies_to, finalize.
  destruct (cls self) as [hint|]; [|done].
  intros [Hne Hinh]%orb_false_iff. apply bool_decide_eq_false in Hne.
  rewrite decide_True by done. by rewrite Hinh.
Qed.

Lemma finalize_inv django register_ self sender w r w' :
  applies_to self sender = true →
  m_proxy sender = false →
  finalize django register_ self sender w = (r, w') →
  (is_Some (simple_history_manager_attribute w !! m_name sender) ∧ w' = w ∧
   r = Raise (MultipleRegistrationsError
                (m_app_label sender +:+ "." +:+ m_name sender +:+
                 " registered multiple times for history tracking."))) ∨
  (simple_history_manager_attribute w !! m_name sender = None ∧
   ((∃ e, create_history_model django self sender w = (Raise e, w') ∧ r = Raise e) ∨
    (∃ history_model w1,
       create_history_model django self sender w = (Return history_model, w1) ∧
       r = Return tt ∧
       w' = set_manager_attribute (m_name sender) (manager_name self)
              (set_class_attr (m_name sender) (manager_name self)
                 (CA_HistoryDescriptor history_model)
                 (connect_handlers self (m_name sender)
                    (set_module_attr (module self) (hm_name history_model)
                       history_model w1)))))).
Proof.
  intros Happ Hproxy. unfold finalize. cbv zeta.
  assert (∀ (skip : bool) (rest : Py unit),
            (skip = true → applies_to self sender = false) →
            (if skip then ret tt else rest) w = rest w) as Hskip.
  { intros [|] rest H; [|done]. rewrite H in Happ; done. }
  assert (∀ hint, cls self = Some hint → hint ≠ m_name sender →
            negb (inherit self && bool_decide (hint ∈ m_mro sender)) = true →
            applies_to self sender = false) as Hno.
  { intros hint Hc Hne Hn. unfold applies_to. rewrite Hc.
    rewrite bool_decide_eq_false_2 by done. by apply negb_true_iff in Hn. }
  destruct (cls self) as [hint|] eqn:Hcls;
    [destruct (decide (hint ≠ m_name sender)); [rewrite Hskip by eauto|]|].
  all: rewrite Hproxy.
  all: unfold bind at 1; unfold get at 1; cbv beta iota.
  all: case_bool_decide as Htracked; [unfold raise; intros [= <- <-]; by left|].
  all: intros Hrun; right; split; [by apply eq_None_not_Some|]; revert Hrun.
  all: unfold bind at 1; unfold bind at 1.
  all: destruct (create_history_model django self sender w) as [[hm|e] w1] eqn:Hcreate;
    [|intros [= <- <-]; left; by exists e].
  all: unfold bind, modify, ret; intros [= <- <-]; right; by exists hm, w1.
Qed.

Lemma for_each_finalize_skips django register_ sender (rs : list Receiver) w :
  Forall (λ r, r_signal r = class_prepared → applies_to (r_self r) sender = false) rs →
  for_each (filter (λ r, r_signal r = class_prepared) rs)
    (λ r, finalize django register_ (r_self r) sender) w = (Return tt, w).
Proof.
  induction rs as [|r rs IH]; intros H; [done|].
  apply Forall_cons in H as [Hr H]. rewrite filter_cons.
  case_decide as Hs; [|by apply IH].
  simpl. unfold bind at 1. rewrite finalize_skips by by apply Hr. by apply IH.
Qed.

(** X14.  A [HistoricalRecords] object that is connected to [class_prepared]
    hears of every class.  Preparing a class changes nothing when every
    such object stands for another class: its hint is not the class, and it
    is not inherited or the class does not derive from the hint. *)
Theorem class_prepared_ignores_other_classes django sender w :
  Forall (λ r, r_signal r = class_prepared → applies_to (r_self r) sender = false)
         (receivers w) →
  send_class_prepared django sender w = (Return tt, w).
Proof.
  intros H. unfold send_class_prepared. unfold bind at 1. unfold get at 1. simpl.
  by apply for_each_finalize_skips.
Qed.

(** X15.  For a class that is no proxy and that [self] stands for, a
    [finalize] that returns has made the historical class and has put it
    into the module of [self], connected the four handlers for the class
    after the receivers there were, put the history manager on the class
    under the name of [self], noted this name on the class, and entered the
    table in [registered_models].  The class was not tracked before, and
    the live and the historical tables are as they were. *)
Theorem finalize_tracks_class django register_ self sender w w' :
  applies_to self sender = true →
  m_proxy sender = false →
  finalize django register_ self sender w = (Return tt, w') →
  ∃ history_model,
    create_history_model django self sender w =
      (Return history_model, set_registered_models (m_db_table sender) (m_name sender) w) ∧
    simple_history_manager_attribute w !! m_name sender = None ∧
    simple_history_manager_attribute w' =
      <[m_name sender := manager_name self]> (simple_history_manager_attribute w) ∧
    (∀ rest, lookup_mro (class_dict w') (manager_name self) (m_name sender :: rest) =
               Some (CA_HistoryDescriptor history_model)) ∧
    module_dict w' !! module self ≫= (λ d, d !! hm_name history_model) = Some history_model ∧
    receivers w' = receivers w ++ handlers_of self (m_name sender) ∧
    registered_models w' = <[m_db_table sender := m_name sender]> (registered_models w) ∧
    tables w' = tables w ∧ db w' = db w.
Proof.
  intros Happ Hproxy Hrun.
  apply finalize_inv in Hrun
    as [(_ & _ & [=])|(Hnone & [(e & _ & [=])|(hm & w1 & Hcreate & _ & ->)])]; [|done..].
  exists hm. pose proof Hcreate as [-> _]%create_history_model_state.
  split; [done|]. split; [done|]. simpl.
  split; [done|]. split.
  { intros rest. simpl. rewrite lookup_insert_eq. simpl. by rewrite lookup_insert_eq. }
  split; [rewrite lookup_insert_eq; simpl; by rewrite lookup_insert_eq|].
  split; [|done].
  unfold handlers_of. by rewrite <- !app_assoc.
Qed.

Lemma finalize_tracks_class_witness :
  applies_to poll_history Poll = true ∧ m_proxy Poll = false ∧
  finalize polls (register polls) poll_history Poll empty_world =
    (Return tt, finalized_poll_world) ∧
  receivers finalized_poll_world = handlers_of poll_history "Poll".
Proof.
  assert (finalize polls (register polls) poll_history Poll empty_world =
            (Return tt, finalized_poll_world)) as H by (vm_compute; reflexivity).
  do 2 (split; [reflexivity|]). split; [exact H|].
  destruct (finalize_tracks_class polls (register polls) poll_history Poll empty_world
              finalized_poll_world eq_refl eq_refl H)
    as (hm & _ & _ & _ & _ & _ & Hr & _).
  exact Hr.
Defined.

Lemma class_prepared_ignores_other_classes_witness :
  send_class_prepared polls Choice declared_poll_world = (Return tt, declared_poll_world).
Proof.
  apply (class_prepared_ignores_other_classes polls Choice declared_poll_world).
  vm_compute. repeat constructor.
Defined.

(** ** Proxy models *)

(** X16.  Tracking a proxy model before the model it is a proxy of fails:
    [finalize] registers the original with the keyword [records_class],
    which [HistoricalRecords] does not take, and the [TypeError] leaves the
    process as it was. *)
Theorem finalize_proxy_before_original django self sender original rest w :
  applies_to self sender = true →
  m_proxy sender = true →
  simple_history_manager_attribute w !! m_name sender = None →
  filter (λ b, m_abstract (class_of django b) = false) (m_bases sender) = original :: rest →
  m_proxy (class_of django original) = false →
  registered_models w !! m_db_table (class_of django original) = None →
  ∃ msg, finalize django (register django) self sender w = (Raise (TypeError msg), w).
Proof.
  intros Happ Hproxy Hnone Hbases Horig Hreg.
  unfold finalize. cbv zeta.
  assert (∀ (skip : bool) (rest : Py unit),
            (skip = true → applies_to self sender = false) →
            (if skip then ret tt else rest) w = rest w) as Hskip.
  { intros [|] rest' H; [|done]. rewrite H in Happ; done. }
  assert (∀ hint, cls self = Some hint → hint ≠ m_name sender →
            negb (inherit self && bool_decide (hint ∈ m_mro sender)) = true →
            applies_to self sender = false) as Hno.
  { intros hint Hc Hne Hn. unfold applies_to. rewrite Hc.
    rewrite bool_decide_eq_false_2 by done. by apply negb_true_iff in Hn. }
  destruct (cls self) as [hint|] eqn:Hcls;
    [destruct (decide (hint ≠ m_name sender)); [rewrite Hskip by eauto|]|].
  all: rewrite Hproxy, Hbases.
  all: unfold bind at 1; unfold get at 1; cbv beta iota.
  all: rewrite Hnone; rewrite bool_decide_eq_false_2 by (by intros [? ?]).
  all: unfold bind at 1; unfold bind at 1; unfold not_registered.
  all: unfold bind at 1; unfold get at 1; cbv beta iota; rewrite Horig.
  all: unfold ret at 1; cbv beta iota; rewrite Hreg.
  all: rewrite bool_decide_eq_true_2 by done.
  all: unfold bind at 1; unfold register; simpl.
  all: unfold bind at 1; unfold get at 1; cbv beta iota; rewrite Hreg.
  all: rewrite bool_decide_eq_true_2 by done.
  all: by eexists.
Qed.

Lemma finalize_proxy_before_original_witness :
  ∃ msg, finalize polls_with_proxy (register polls_with_proxy) proxy_history PollProxy
           empty_world = (Raise (TypeError msg), empty_world).
Proof.
  apply (finalize_proxy_before_original polls_with_proxy proxy_history PollProxy "Poll" []
           empty_world); vm_compute; reflexivity.
Defined.

(** X17.  A proxy model that is tracked after the model it is a proxy of gets
    no historical class of its own: [finalize] connects the handlers for
    the proxy and gives it the history manager that it inherits, so that
    the snapshots of its instances go to the table of the original.  The
    registry and the modules are as they were.  When the proxy inherits no
    history manager under the name of [self], [finalize] raises
    [AttributeError]. *)
Theorem finalize_proxy_after_original django register_ self sender original rest w :
  applies_to self sender = true →
  m_proxy sender = true →
  simple_history_manager_attribute w !! m_name sender = None →
  filter (λ b, m_abstract (class_of django b) = false) (m_bases sender) = original :: rest →
  m_proxy (class_of django original) = false →
  is_Some (registered_models w !! m_db_table (class_of django original)) →
  (∀ history_model,
     lookup_mro (class_dict w) (manager_name self) (m_mro sender) =
       Some (CA_HistoryDescriptor history_model) →
     ∃ w',
       finalize django register_ self sender w = (Return tt, w') ∧
       (∀ rest', lookup_mro (class_dict w') (manager_name self) (m_name sender :: rest') =
                   Some (CA_HistoryDescriptor history_model)) ∧
       receivers w' = receivers w ++ handlers_of self (m_name sender) ∧
       simple_history_manager_attribute w' !! m_name sender = Some (manager_name self) ∧
       registered_models w' = registered_models w ∧
       module_dict w' = module_dict w ∧
       tables w' = tables w) ∧
  (lookup_mro (class_dict w) (manager_name self) (m_mro sender) = None →
     ∃ msg, finalize django register_ self sender w = (Raise (AttributeError msg), w)).
Proof.
  intros Happ Hproxy Hnone Hbases Horig [v Hreg].
  assert (∀ (skip : bool) (rest : Py unit),
            (skip = true → applies_to self sender = false) →
            (if skip then ret tt else rest) w = rest w) as Hskip.
  { intros [|] rest' H; [|done]. rewrite H in Happ; done. }
  assert (∀ hint, cls self = Some hint → hint ≠ m_name sender →
            negb (inherit self && bool_decide (hint ∈ m_mro sender)) = true →
            applies_to self sender = false) as Hno.
  { intros hint Hc Hne Hn. unfold applies_to. rewrite Hc.
    rewrite bool_decide_eq_false_2 by done. by apply negb_true_iff in Hn. }
  split.
  - intros hm Hlookup. unfold finalize. cbv zeta.
    destruct (cls self) as [hint|] eqn:Hcls;
      [destruct (decide (hint ≠ m_name sender)); [rewrite Hskip by eauto|]|].
    all: rewrite Hproxy, Hbases.
    all: unfold bind at 1; unfold get at 1; cbv beta iota.
    all: rewrite Hnone; rewrite bool_decide_eq_false_2 by (by intros [? ?]).
    all: unfold bind at 1; unfold bind at 1; unfold not_registered.
    all: unfold bind at 1; unfold get at 1; cbv beta iota; rewrite Horig.
    all: unfold ret at 1; cbv beta iota; rewrite Hreg.
    all: rewrite bool_decide_eq_false_2 by done.
    all: unfold bind at 1; unfold ret at 1; cbv beta iota.
    all: unfold bind at 1; unfold get at 1; cbv beta iota; rewrite Hlookup.
    all: unfold ret at 1; cbv beta iota.
    all: unfold bind, modify; eexists; split; [reflexivity|]; simpl.
    all: split; [intros rest'; rewrite lookup_insert_eq; simpl; by rewrite lookup_insert_eq|].
    all: split; [unfold handlers_of; by rewrite <- !app_assoc|].
    all: split; [by rewrite lookup_insert_eq|done].
  - intros Hlookup. unfold finalize. cbv zeta.
    destruct (cls self) as [hint|] eqn:Hcls;
      [destruct (decide (hint ≠ m_name sender)); [rewrite Hskip by eauto|]|].
    all: rewrite Hproxy, Hbases.
    all: unfold bind at 1; unfold get at 1; cbv beta iota.
    all: rewrite Hnone; rewrite bool_decide_eq_false_2 by (by intros [? ?]).
    all: unfold bind at 1; unfold bind at 1; unfold not_registered.
    all: unfold bind at 1; unfold get at 1; cbv beta iota; rewrite Horig.
    all: unfold ret at 1; cbv beta iota; rewrite Hreg.
    all: rewrite bool_decide_eq_false_2 by done.
    all: unfold bind at 1; unfold ret at 1; cbv beta iota.
    all: unfold bind at 1; unfold get at 1; cbv beta iota; rewrite Hlookup.
    all: by eexists.
Qed.

Lemma finalize_proxy_after_original_witness :
  ∃ w', finalize polls_with_proxy (register polls_with_proxy) proxy_history PollProxy
          original_tracked_world = (Return tt, w') ∧
        history_model_of polls_with_proxy w' proxy_history
          (instance_of "PollProxy" [("id", VInt 1)]) = Some HistoricalPoll ∧
        registered_models w' = registered_models original_tracked_world.
Proof.
  assert (is_Some (registered_models original_tracked_world
                     !! m_db_table (class_of polls_with_proxy "Poll"))) as Hreg
    by (eexists; vm_compute; reflexivity).
  assert (lookup_mro (class_dict original_tracked_world) (manager_name proxy_history)
            (m_mro PollProxy) = Some (CA_HistoryDescriptor HistoricalPoll)) as Hlookup
    by (vm_compute; reflexivity).
  destruct (finalize_proxy_after_original polls_with_proxy (register polls_with_proxy)
              proxy_history PollProxy "Poll" [] original_tracked_world
              eq_refl eq_refl eq_refl eq_refl eq_refl Hreg) as [Hshared _].
  destruct (Hshared HistoricalPoll Hlookup) as (w' & Hrun & Hmro & _ & _ & Hregistry & _).
  exists w'. split; [exact Hrun|]. split; [|exact Hregistry].
  pose proof (Hmro ["Poll"; "Model"]) as Hm.
  unfold history_model_of.
  change (m_mro (class_of polls_with_proxy
                   (o_class (instance_of "PollProxy" [("id", VInt 1)]))))
    with (m_name PollProxy :: ["Poll"; "Model"]).
  by rewrite Hm.
Defined.

(** ** Registration makes a model recordable *)





(** ** What [register] does for a model *)

Lemma register_fuel_S django fuel model app name config :
  register_fuel django (S fuel) model app name config =
    (w <- get ;;
     if bool_decide (registered_models w !! m_db_table model = None) then
       records <- HistoricalRecords__init__ config ;;
       let records :=
         set_registration name (registration_module model app) (m_name model) records in
       add_extra_methods records model ;;;
       setup_m2m_history django
         (λ through_model, register_fuel django fuel through_model None "history"
                             default_config)
         records model ;;;
       finalize django (register_fuel django fuel) records model ;;;
       modify (set_registered_models (m_db_table model) (m_name model))
     else ret tt).
Proof. reflexivity. Qed.

Lemma HistoricalRecords__init___inv config w r w' :
  HistoricalRecords__init__ config w = (r, w') →
  w' = w ∧
  ((∃ msg, r = Raise (TypeError msg) ∧
           (c_unexpected config ≠ [] ∨ ∀ l, c_bases config ≠ BasesSeq l)) ∨
   (∃ l, c_unexpected config = [] ∧ c_bases config = BasesSeq l ∧
         r = Return (mkHistoricalRecords (c_verbose_name config)
                       (c_user_related_name config) (c_table_name config)
                       (c_inherit config) (c_m2m_fields config) l "" "" None))).
Proof.
  unfold HistoricalRecords__init__.
  destruct (c_unexpected config) as [|k ks].
  - destruct (c_bases config) as [l| |]; intros [= <- <-]; (split; [done|]).
    + right. by exists l.
    + left. eexists. split; [done|]. by right.
    + left. eexists. split; [done|]. by right.
  - intros [= <- <-]. split; [done|]. left. eexists. split; [done|]. by left.
Qed.

Lemma register_inv django model app name config w w' :
  registered_models w !! m_db_table model = None →
  register django model app name config w = (Return tt, w') →
  ∃ records w2 w3,
    HistoricalRecords__init__ config w = (Return records, w) ∧
    same_tables w w2 ∧
    finalize django (register_fuel django 2)
      (set_registration name (registration_module model app) (m_name model) records)
      model w2 = (Return tt, w3) ∧
    w' = set_registered_models (m_db_table model) (m_name model) w3.
Proof.
  intros Hreg. unfold register. rewrite register_fuel_S.
  intros (w0 & ? & [= <- <-] & H)%bind_Return.
  rewrite bool_decide_eq_true_2 in H by done.
  apply bind_Return in H as (records & w1 & Hinit & H).
  pose proof Hinit as [-> _]%HistoricalRecords__init___inv.
  apply bind_Return in H as ([] & w2 & Hadd & H).
  apply bind_Return in H as ([] & w3 & Hsetup & H).
  apply bind_Return in H as ([] & w4 & Hfin & H).
  injection H as <-.
  exists records, w3, w4. split; [done|]. split; [|done].
  injection Hadd as <-.
  pose proof (setup_m2m_history_same_tables django
                (λ through_model, register_fuel django 2 through_model None "history"
                                    default_config)
                (set_registration name (registration_module model app) (m_name model) records)
                model
                (λ m, register_fuel_same_tables django 2 m None "history" default_config)
                (set_class_attr (m_name model) "save_without_historical_record"
                   CA_save_without_historical_record w)) as Hsame.
  rewrite Hsetup in Hsame. exact Hsame.
Qed.

(** X18.  A first [register] of a model that is no proxy, when it returns, has
    made the historical class [Historical] followed by the name of the
    model, in the [models] module of the app given or else in the module of
    the model; the class of the model has the history manager under the
    name given; the four handlers for the model are the last receivers
    connected; the model is noted as tracked and as registered; and no
    historical row has been written. *)
Theorem register_tracks_model django model app name config w w' :
  registered_models w !! m_db_table model = None →
  m_proxy model = false →
  register django model app name config w = (Return tt, w') →
  ∃ self history_model,
    manager_name self = name ∧
    module self = registration_module model app ∧
    cls self = Some (m_name model) ∧
    hm_name history_model = "Historical" +:+ m_name model ∧
    (∀ rest, lookup_mro (class_dict w') name (m_name model :: rest) =
               Some (CA_HistoryDescriptor history_model)) ∧
    module_dict w' !! registration_module model app ≫= (λ d, d !! hm_name history_model)
      = Some history_model ∧
    (∃ before, receivers w' = before ++ handlers_of self (m_name model)) ∧
    simple_history_manager_attribute w' !! m_name model = Some name ∧
    registered_models w' !! m_db_table model = Some (m_name model) ∧
    tables w' = tables w.
Proof.
  intros Hreg Hproxy (records & w2 & w3 & Hinit & Hsame & Hfin & ->)%register_inv; [|done].
  set (self := set_registration name (registration_module model app) (m_name model) records)
    in *.
  assert (applies_to self model = true) as Happ.
  { unfold applies_to. simpl. by rewrite bool_decide_eq_true_2. }
  apply finalize_inv in Hfin
    as [(_ & _ & [=])|(_ & [(e & _ & [=])|(hm & w1 & Hcreate & _ & ->)])]; [|done..].
  apply create_history_model_state in Hcreate as [-> Hname].
  exists self, hm. do 3 (split; [done|]). split; [done|]. simpl.
  split; [intros rest; rewrite lookup_insert_eq; simpl; by rewrite lookup_insert_eq|].
  split; [rewrite lookup_insert_eq; simpl; by rewrite lookup_insert_eq|].
  split; [exists (receivers w2); unfold handlers_of; by rewrite <- !app_assoc|].
  split; [by rewrite lookup_insert_eq|].
  split; [by rewrite lookup_insert_eq|].
  exact Hsame.
Qed.

Lemma register_tracks_model_witness :
  registered_models empty_world !! m_db_table Poll = None ∧ m_proxy Poll = false ∧
  register polls Poll None "history" default_config empty_world = (Return tt, poll_world) ∧
  simple_history_manager_attribute poll_world !! "Poll" = Some "history" ∧
  tables poll_world = tables empty_world.
Proof.
  assert (register polls Poll None "history" default_config empty_world =
            (Return tt, poll_world)) as H by (vm_compute; reflexivity).
  do 2 (split; [reflexivity|]). split; [exact H|].
  destruct (register_tracks_model polls Poll None "history" default_config empty_world
              poll_world eq_refl eq_refl H)
    as (self & hm & _ & _ & _ & _ & _ & _ & _ & Hattr & _ & Htables).
  split; [exact Hattr | exact Htables].
Defined.

(** X19.  [register] checks its arguments before it changes anything: for a
    model that is not registered yet, [bases] given as a string, or as
    something that is no sequence, and a keyword that [HistoricalRecords]
    does not take raise [TypeError] and leave the process as it was, so
    that the model can be registered afterwards. *)
Theorem register_rejects_bad_arguments django model app name config w :
  registered_models w !! m_db_table model = None →
  (c_unexpected config ≠ [] ∨ ∀ l, c_bases config ≠ BasesSeq l) →
  (∃ msg, register django model app name config w = (Raise (TypeError msg), w)) ∧
  (c_unexpected config = [] →
     register django model app name config w =
       (Raise (TypeError "The `bases` option must be a list or a tuple."), w)).
Proof.
  intros Hreg Hbad.
  assert (∀ e, HistoricalRecords__init__ config w = (Raise e, w) →
               register django model app name config w = (Raise e, w)) as Hraise.
  { intros e He. unfold register. rewrite register_fuel_S.
    unfold bind at 1. unfold get at 1. cbv beta iota.
    rewrite bool_decide_eq_true_2 by done.
    unfold bind at 1. by rewrite He. }
  destruct (HistoricalRecords__init__ config w) as [r w1] eqn:Hinit.
  pose proof Hinit as [-> [(msg & -> & _)|(l & Hu & Hb & _)]]%HistoricalRecords__init___inv.
  - split; [exists msg; by apply Hraise|]. intros Hu. apply Hraise.
    unfold HistoricalRecords__init__ in *. rewrite Hu in *.
    destruct (c_bases config); by simplify_eq.
  - destruct Hbad as [Hbad|Hbad]; [done|]. by destruct (Hbad l).
Qed.

Lemma register_rejects_bad_arguments_witness :
  register polls Poll None "history"
    (mkConfig None (BasesString "Model") "+" None false M2M_None []) empty_world =
    (Raise (TypeError "The `bases` option must be a list or a tuple."), empty_world).
Proof.
  apply (register_rejects_bad_arguments polls Poll None "history"
           (mkConfig None (BasesString "Model") "+" None false M2M_None []) empty_world).
  - reflexivity.
  - right. intros l. discriminate.
  - reflexivity.
Defined.



(** ** Through models *)

Lemma not_registered_eq model w :
  not_registered model w =
    (Return (bool_decide (registered_models w !! registry_key model = None)), w).
Proof. unfold not_registered, registry_key, bind, get. simpl. by destruct (m_proxy model). Qed.

Lemma setup_through_left_alone django register_through field w :
  left_alone django w field →
  setup_through django register_through field w = (Return tt, w).
Proof.
  unfold left_alone, setup_through. intros H.
  unfold bind at 1. unfold get at 1. cbv beta iota.
  destruct (has_HistoricalRecords w (m2m_through field)); [done|]. simpl.
  unfold bind at 1. rewrite not_registered_eq.
  destruct H as [H|[->|[v Hv]]]; [done|done|].
  rewrite Hv. rewrite bool_decide_eq_false_2 by done. by rewrite andb_false_r.
Qed.

(** X21.  [setup_m2m_history] does nothing when [m2m_fields] is not given, is
    empty or is otherwise false, and raises [AssertionError] when it is
    true and no list.  With [ALL_M2M_FIELDS] it leaves the process as it is
    when every through model of the class carries a [HistoricalRecords]
    attribute, was declared by the user or is registered: it registers
    nothing but an auto-created through model that is not tracked yet. *)
Theorem setup_m2m_history_leaves_alone django register_through self cls w :
  (m2m_fields self = M2M_None ∨ m2m_fields self = M2M_Names [] ∨
   m2m_fields self = M2M_Other false →
     setup_m2m_history django register_through self cls w = (Return tt, w)) ∧
  (m2m_fields self = M2M_Other true →
     setup_m2m_history django register_through self cls w =
       (Raise (AssertionError "m2m_history_fields must be a list or tuple"), w)) ∧
  (m2m_fields self = ALL_M2M_FIELDS →
   Forall (left_alone django w) (m_many_to_many cls) →
     setup_m2m_history django register_through self cls w = (Return tt, w)).
Proof.
  unfold setup_m2m_history. split; [|split].
  - by intros [->|[->| ->]].
  - by intros ->.
  - intros -> H. induction H as [|field fields Hf _ IH]; simpl; [done|].
    unfold bind at 1. rewrite setup_through_left_alone by done. exact IH.
Qed.

(** ** What registration keeps *)

Ltac keeps_step :=
  match goal with
  | |- respects ?R (modify _) => apply (respects_modify R); intros ?; auto
  | |- respects ?R (bind _ _) => apply (respects_bind R); [|intros ?]
  | |- respects ?R (ret _) => by apply (respects_ret R)
  | |- respects ?R (raise _) => by apply (respects_raise R)
  | |- respects ?R get => by apply (respects_get R)
  | |- respects ?R (for_each _ _) => apply (respects_for_each R); intros ?
  | |- respects _ (if ?b then _ else _) => destruct b
  | |- respects _ (match ?x with _ => _ end) => destruct x
  end.

Section RegistrationKeeps.
Context (django : Django) (R : relation World) `{!PreOrder R}.
Hypothesis registry_kept : ∀ k v w, R w (set_registered_models k v w).
Hypothesis class_attr_kept : ∀ c k a w, R w (set_class_attr c k a w).
Hypothesis manager_attribute_kept : ∀ c n w, R w (set_manager_attribute c n w).
Hypothesis module_attr_kept : ∀ m k hm w, R w (set_module_attr m k hm w).
Hypothesis connect_kept : ∀ s sender self w, R w (connect s sender self w).

Lemma connect_handlers_kept self sender w : R w (connect_handlers self sender w).
Proof.
  unfold connect_handlers.
  etrans; [apply connect_kept|]. etrans; [apply connect_kept|].
  etrans; [apply connect_kept|]. apply connect_kept.
Qed.

Lemma HistoricalRecords__init___keeps c : respects R (HistoricalRecords__init__ c).
Proof. unfold HistoricalRecords__init__. repeat keeps_step. Qed.

Lemma create_history_model_keeps self model :
  respects R (create_history_model django self model).
Proof. unfold create_history_model. repeat keeps_step. Qed.

Lemma not_registered_keeps model : respects R (not_registered model).
Proof. unfold not_registered. repeat keeps_step. Qed.

Lemma setup_through_keeps register_through field :
  (∀ m, respects R (register_through m)) →
  respects R (setup_through django register_through field).
Proof.
  intros H. unfold setup_through.
  keeps_step; [keeps_step|].
  destruct (negb _); [|keeps_step].
  apply (respects_bind R); [apply not_registered_keeps|intros ?].
  destruct (_ && _); [|keeps_step].
  apply (respects_bind R); [apply HistoricalRecords__init___keeps|intros ?].
  apply (respects_bind R); [keeps_step|intros ?]. apply H.
Qed.

Lemma setup_m2m_history_keeps register_through self cls :
  (∀ m, respects R (register_through m)) →
  respects R (setup_m2m_history django register_through self cls).
Proof.
  intros H. unfold setup_m2m_history.
  destruct (m2m_fields self) as [| |[|name names]|[|]];
    try (by apply (respects_ret R));
    try (by apply (respects_raise R)).
  - apply (respects_for_each R); intros field.
    by apply setup_through_keeps.
  - apply (respects_for_each R); intros field_name.
    apply (respects_bind R); [|intros ?].
    + unfold many_to_many_field. repeat keeps_step.
    + by apply setup_through_keeps.
Qed.

Lemma finalize_keeps register_ self sender :
  (∀ m app name c, respects R (register_ m app name c)) →
  respects R (finalize django register_ self sender).
Proof.
  intros H. unfold finalize. cbv zeta.
  destruct (cls self) as [hint|];
    [destruct (decide (hint ≠ m_name sender));
       [destruct (negb _); [by apply (respects_ret R)|]|]|].
  all: keeps_step; [keeps_step|].
  all: destruct (bool_decide _); [keeps_step|].
  all: apply (respects_bind R); [ |intros ?];
    [|apply (respects_bind R);
        [apply (respects_modify R); intros ?; apply connect_handlers_kept|intros ?];
      repeat keeps_step].
  all: destruct (m_proxy sender).
  all: try (apply (respects_bind R); [apply create_history_model_keeps|intros ?];
            repeat keeps_step).
  all: destruct (filter _ _) as [|original ?]; [keeps_step|].
  all: apply (respects_bind R); [apply not_registered_keeps|intros [|]].
  all: try (apply (respects_bind R); [apply H|intros ?]).
  all: repeat keeps_step.
Qed.

Lemma register_fuel_keeps fuel model app manager_name records_config :
  respects R (register_fuel django fuel model app manager_name records_config).
Proof.
  revert model app manager_name records_config.
  induction fuel as [|fuel IH]; intros; simpl; [keeps_step|].
  keeps_step; [keeps_step|].
  destruct (bool_decide _); [|keeps_step].
  apply (respects_bind R); [apply HistoricalRecords__init___keeps|intros ?].
  apply (respects_bind R); [unfold add_extra_methods; keeps_step|intros ?].
  apply (respects_bind R); [ |intros ?].
  { apply setup_m2m_history_keeps. intros m. apply IH. }
  apply (respects_bind R); [ |intros ?].
  { apply finalize_keeps. intros. apply IH. }
  keeps_step.
Qed.

Lemma contribute_to_class_keeps self cls name :
  respects R (contribute_to_class django self cls name).
Proof.
  unfold contribute_to_class.
  apply (respects_bind R); [keeps_step|intros ?].
  apply (respects_bind R); [unfold add_extra_methods; keeps_step|intros ?].
  apply (respects_bind R); [ |intros ?; keeps_step].
  apply setup_m2m_history_keeps. intros m. apply register_fuel_keeps.
Qed.

Lemma send_class_prepared_keeps sender :
  respects R (send_class_prepared django sender).
Proof.
  unfold send_class_prepared.
  apply (respects_bind R); [keeps_step|intros ?].
  apply (respects_for_each R); intros r.
  apply finalize_keeps. intros. apply register_fuel_keeps.
Qed.
End RegistrationKeeps.

#[global] Instance grows_preorder : PreOrder grows.
Proof.
  split.
  - intros w. by repeat split.
  - intros w1 w2 w3 (?&?&?&?&?&?&?) (?&?&?&?&?&?&?).
    repeat split; try congruence; by etrans.
Qed.

Lemma grows_set_registered_models k v w : grows w (set_registered_models k v w).
Proof. split; [|by repeat split]. simpl. rewrite dom_insert. set_solver. Qed.

Lemma grows_set_class_attr c k a w : grows w (set_class_attr c k a w).
Proof. by repeat split. Qed.

Lemma grows_set_manager_attribute c n w : grows w (set_manager_attribute c n w).
Proof.
  split; [done|]. split; [|by repeat split]. simpl. rewrite dom_insert. set_solver.
Qed.

Lemma grows_set_module_attr m k hm w : grows w (set_module_attr m k hm w).
Proof. by repeat split. Qed.

Lemma grows_connect s sender self w : grows w (connect s sender self w).
Proof.
  do 2 (split; [done|]). split; [|by repeat split]. simpl. by apply prefix_app_r.
Qed.

(** X22.  Registration only adds.  Whatever [register], [finalize], a
    [HistoricalRecords] attribute in a class body and the preparation of a
    class do, also when they raise: every table that was registered is
    registered, every class that was tracked is tracked, the receivers that
    were connected are the first receivers, in their order, and the
    historical and the live tables are as they were. *)
Theorem registration_only_adds django model app name config self sender cls attribute w :
  grows w (register django model app name config w).2 ∧
  grows w (finalize django (register django) self sender w).2 ∧
  grows w (contribute_to_class django self cls attribute w).2 ∧
  grows w (send_class_prepared django sender w).2.
Proof.
  pose proof grows_set_registered_models as H1.
  pose proof grows_set_class_attr as H2.
  pose proof grows_set_manager_attribute as H3.
  pose proof grows_set_module_attr as H4.
  pose proof grows_connect as H5.
  split; [apply (register_fuel_keeps django grows H1 H2 H3 H4 H5)|].
  split.
  { apply (finalize_keeps django grows H1 H2 H3 H4 H5). intros.
    apply (register_fuel_keeps django grows H1 H2 H3 H4 H5). }
  split; [apply (contribute_to_class_keeps django grows H1 H2 H3 H4 H5)|].
  apply (send_class_prepared_keeps django grows H1 H2 H3 H4 H5).
Qed.

(** ** Through models of [ALL_M2M_FIELDS] *)

Lemma has_HistoricalRecords_spec w c :
  has_HistoricalRecords w c = true ↔
  ∃ k r, class_dict w !! c ≫= (λ d, d !! k) = Some (CA_HistoricalRecords r).
Proof.
  unfold has_HistoricalRecords. rewrite existsb_exists. split.
  - intros ([k a] & Hin & Ha). apply list_elem_of_In, elem_of_map_to_list in Hin.
    simpl in Ha. destruct a as [r| |]; try done.
    exists k, r. by destruct (class_dict w !! c).
  - intros (k & r & H). exists (k, CA_HistoricalRecords r). split; [|done].
    apply list_elem_of_In, elem_of_map_to_list.
    by destruct (class_dict w !! c).
Qed.

Lemma register_default_inv django fuel model w w' :
  registered_models w !! m_db_table model = None →
  m_proxy model = false →
  register_fuel django (S fuel) model None "history" default_config w = (Return tt, w') →
  ∃ self history_model w1,
    manager_name self = "history" ∧
    class_dict w1 = class_dict (set_class_attr (m_name model) "save_without_historical_record"
                                  CA_save_without_historical_record w) ∧
    w' = set_registered_models (m_db_table model) (m_name model)
           (set_manager_attribute (m_name model) "history"
              (set_class_attr (m_name model) "history" (CA_HistoryDescriptor history_model)
                 (connect_handlers self (m_name model)
                    (set_module_attr (module self) (hm_name history_model) history_model
                       w1)))).
Proof.
  intros Hreg Hproxy. rewrite register_fuel_S.
  intros (w0 & ? & [= <- <-] & H)%bind_Return.
  rewrite bool_decide_eq_true_2 in H by done.
  apply bind_Return in H as (records & w1 & [= <- <-] & H).
  apply bind_Return in H as ([] & w2 & [= <-] & H).
  apply bind_Return in H as ([] & w3 & [= <-] & H).
  apply bind_Return in H as ([] & w4 & Hfin & H).
  injection H as <-.
  apply finalize_inv in Hfin
    as [(_ & _ & [=])|(_ & [(e & _ & [=])|(hm & w1 & Hcreate & _ & ->)])];
    [| |done].
  2:{ unfold applies_to. simpl. by rewrite bool_decide_eq_true_2. }
  apply create_history_model_state in Hcreate as [-> _].
  exists (set_registration "history" (m_module model) (m_name model)
            (mkHistoricalRecords None "+" None false M2M_None ["Model"] "" "" None)),
         hm,
         (set_registered_models (m_db_table model) (m_name model)
            (set_class_attr (m_name model) "save_without_historical_record"
               CA_save_without_historical_record w)).
  split; [reflexivity|]. split; reflexivity.
Qed.

Lemma setup_through_inv django fuel field w w' :
  m_proxy (class_of django (m2m_through field)) = false →
  setup_through django
    (λ m, register_fuel django (S fuel) m None "history" default_config) field w =
    (Return tt, w') →
  (∀ c, has_HistoricalRecords w' c = true → has_HistoricalRecords w c = true) ∧
  (has_HistoricalRecords w (m2m_through field) = false →
   m_auto_created (class_of django (m2m_through field)) = true →
   is_Some (registered_models w' !! m_db_table (class_of django (m2m_through field)))).
Proof.
  intros Hproxy. unfold setup_through.
  intros (w0 & ? & [= <- <-] & H)%bind_Return.
  destruct (has_HistoricalRecords w (m2m_through field)) eqn:Hhas; cbn [negb] in H.
  { injection H as <-. by split. }
  apply bind_Return in H as (unregistered & w1 & Hnot & H).
  rewrite not_registered_eq in Hnot. injection Hnot as <- <-.
  unfold registry_key in H. rewrite Hproxy in H.
  destruct (m_auto_created _) eqn:Hauto; cbn [andb] in H; [|injection H as <-; by split].
  case_bool_decide as Hreg; [|injection H as <-].
  2:{ split; [done|]. intros _ _. by apply not_eq_None_Some. }
  apply bind_Return in H as (records & w1 & [= <- <-] & H).
  apply bind_Return in H as ([] & w2 & [= <-] & H).
  pose proof (register_fuel_registers _ _ _ _ _ _ _ _ H) as Hdone.
  split; [|done].
  apply register_default_inv in H as (self & hm & w1 & _ & Hdict & ->); [|done..].
  intros c. rewrite !has_HistoricalRecords_spec. simpl. rewrite Hdict. simpl.
  set (name := m_name (class_of django (m2m_through field))).
  intros (k & r & Hk). exists k, r.
  destruct (decide (c = name)) as [->|Hne].
  - rewrite lookup_insert_eq in Hk. simpl in Hk.
    rewrite lookup_insert_eq in Hk. simpl in Hk.
    rewrite lookup_insert_eq in Hk. simpl in Hk.
    destruct (decide (k = "history")) as [->|Hk1];
      [by rewrite lookup_insert_eq in Hk|].
    rewrite lookup_insert_ne in Hk by done.
    destruct (decide (k = "save_without_historical_record")) as [->|Hk2];
      [by rewrite lookup_insert_eq in Hk|].
    rewrite lookup_insert_ne in Hk by done.
    rewrite lookup_insert_ne in Hk by done.
    by destruct (class_dict w !! name).
  - by rewrite !lookup_insert_ne in Hk by done.
Qed.

Lemma for_each_setup_through django fuel fields w w' :
  Forall (λ field, m_proxy (class_of django (m2m_through field)) = false) fields →
  for_each fields
    (setup_through django
       (λ m, register_fuel django (S fuel) m None "history" default_config)) w =
    (Return tt, w') →
  ∀ field, field ∈ fields →
    has_HistoricalRecords w (m2m_through field) = false →
    m_auto_created (class_of django (m2m_through field)) = true →
    is_Some (registered_models w' !! m_db_table (class_of django (m2m_through field))).
Proof.
  intros Hproxy. revert w.
  induction Hproxy as [|f fields Hf _ IH]; intros w Hrun field Hin Hhas Hauto.
  { by apply elem_of_nil in Hin. }
  cbn [for_each] in Hrun. apply bind_Return in Hrun as ([] & w1 & Hstep & Hrest).
  pose proof (setup_through_inv _ _ _ _ _ Hf Hstep) as [Hrecords Hregistered].
  apply elem_of_cons in Hin as [->|Hin].
  - specialize (Hregistered Hhas Hauto).
    pose proof (respects_for_each grows fields
                  (setup_through django
                     (λ m, register_fuel django (S fuel) m None "history" default_config)))
      as Hgrows.
    assert (grows w1 w') as (Hdom & _).
    { replace w' with (for_each fields
                         (setup_through django
                            (λ m, register_fuel django (S fuel) m None "history"
                                    default_config)) w1).2
        by by rewrite Hrest.
      apply Hgrows. intros g.
      apply (setup_through_keeps django grows grows_set_class_attr). intros m.
      apply (register_fuel_keeps django grows grows_set_registered_models
               grows_set_class_attr grows_set_manager_attribute grows_set_module_attr
               grows_connect). }
    apply elem_of_dom, Hdom, elem_of_dom, Hregistered.
  - apply (IH w1 Hrest field Hin); [|done].
    destruct (has_HistoricalRecords w1 (m2m_through field)) eqn:Hh; [|done].
    apply Hrecords in Hh. congruence.
Qed.

(** X23.  A first [register] of a model with [m2m_fields=ALL_M2M_FIELDS], when
    it returns, has registered the through model of every many-to-many
    field of the model that Django created by itself: the changes of these
    relations are recorded without a declaration by the user. *)
Theorem all_m2m_fields_registers_through_models django model app name config w w' :
  c_m2m_fields config = ALL_M2M_FIELDS →
  registered_models w !! m_db_table model = None →
  Forall (λ field, m_proxy (class_of django (m2m_through field)) = false)
         (m_many_to_many model) →
  register django model app name config w = (Return tt, w') →
  ∀ field, field ∈ m_many_to_many model →
    m_auto_created (class_of django (m2m_through field)) = true →
    has_HistoricalRecords w (m2m_through field) = false →
    is_Some (registered_models w' !! m_db_table (class_of django (m2m_through field))).
Proof.
  intros Hall Hreg Hproxy Hrun field Hin Hauto Hhas.
  unfold register in Hrun. rewrite register_fuel_S in Hrun.
  apply bind_Return in Hrun as (w0 & ? & [= <- <-] & H).
  rewrite bool_decide_eq_true_2 in H by done.
  apply bind_Return in H as (records & w1 & Hinit & H).
  pose proof Hinit as [-> [(? & [=] & _)|(l & _ & _ & [= ->])]]%HistoricalRecords__init___inv.
  apply bind_Return in H as ([] & w2 & [= <-] & H).
  apply bind_Return in H as ([] & w3 & Hsetup & H).
  apply bind_Return in H as ([] & w4 & Hfin & H).
  injection H as <-.
  unfold setup_m2m_history in Hsetup. cbn [m2m_fields set_registration] in Hsetup.
  rewrite Hall in Hsetup.
  assert (is_Some (registered_models w3 !! m_db_table (class_of django (m2m_through field))))
    as Hthrough.
  { apply (for_each_setup_through django 1 _ _ _ Hproxy Hsetup field Hin); [|done].
    destruct (has_HistoricalRecords (set_class_attr _ _ _ w) (m2m_through field)) eqn:Hh;
      [|done].
    apply has_HistoricalRecords_spec in Hh as (k & r & Hk). simpl in Hk.
    assert (has_HistoricalRecords w (m2m_through field) = true) as Hw; [|congruence].
    apply has_HistoricalRecords_spec. exists k, r.
    destruct (decide (m2m_through field = m_name model)) as [Heq|Hne].
    - rewrite Heq in *. rewrite lookup_insert_eq in Hk. simpl in Hk.
      destruct (decide (k = "save_without_historical_record")) as [->|Hk2];
        [by rewrite lookup_insert_eq in Hk|].
      rewrite lookup_insert_ne in Hk by done.
      by destruct (class_dict w !! m_name model).
    - by rewrite lookup_insert_ne in Hk by done. }
  assert (grows w3 w4) as (Hdom & _).
  { replace w4 with (finalize django (register_fuel django 2)
                       (set_registration name (registration_module model app) (m_name model)
                          (mkHistoricalRecords (c_verbose_name config)
                             (c_user_related_name config) (c_table_name config)
                             (c_inherit config) (c_m2m_fields config) l "" "" None))
                       model w3).2 by by rewrite Hfin.
    apply (finalize_keeps django grows grows_set_registered_models
             grows_set_class_attr grows_set_manager_attribute grows_set_module_attr
             grows_connect). intros.
    apply (register_fuel_keeps django grows grows_set_registered_models
             grows_set_class_attr grows_set_manager_attribute grows_set_module_attr
             grows_connect). }
  simpl. destruct (decide (m_db_table model =
                           m_db_table (class_of django (m2m_through field)))) as [<-|Hne].
  - by rewrite lookup_insert_eq.
  - rewrite lookup_insert_ne by done. apply elem_of_dom, Hdom, elem_of_dom, Hthrough.
Qed.

Lemma all_m2m_fields_registers_through_models_witness :
  is_Some (registered_models
             (register polls Article None "history" all_m2m_config empty_world).2
             !! "polls_article_categories").
Proof.
  assert (register polls Article None "history" all_m2m_config empty_world =
            (Return tt, (register polls Article None "history" all_m2m_config
                           empty_world).2)) as H by (vm_compute; reflexivity).
  apply (all_m2m_fields_registers_through_models polls Article None "history"
           all_m2m_config empty_world _ eq_refl eq_refl
           ltac:(repeat constructor) H
           (mkM2M "categories" "Article_categories" "Category" "article_id" "category_id")).
  - apply list_elem_of_here.
  - reflexivity.
  - reflexivity.
Defined.

(** ** A [HistoricalRecords] attribute in a class body *)

(** X24.  [history = HistoricalRecords()] in the body of a class, without
    [m2m_fields], gives the object the name of the attribute, the module of
    the class and the class as its hint, connects its [finalize] to
    [class_prepared] and puts [save_without_historical_record] on the
    class; the class is tracked when Django has prepared it: the signal
    then runs the [finalize] of the object for the class, the objects of
    other classes doing nothing. *)
Theorem class_attribute_tracks_on_class_prepared django self cls attribute w :
  m2m_fields self = M2M_None →
  Forall (λ r, r_signal r = class_prepared → applies_to (r_self r) cls = false)
         (receivers w) →
  let self' := set_registration attribute (m_module cls) (m_name cls) self in
  let w1 := set_class_attr (m_name cls) "save_without_historical_record"
              CA_save_without_historical_record (connect class_prepared None self' w) in
  contribute_to_class django self cls attribute w = (Return self', w1) ∧
  applies_to self' cls = true ∧
  simple_history_manager_attribute w1 = simple_history_manager_attribute w ∧
  send_class_prepared django cls w1 = finalize django (register django) self' cls w1.
Proof.
  intros Hm2m Hothers self' w1.
  split; [|split; [|split]].
  - unfold contribute_to_class, setup_m2m_history. simpl. by rewrite Hm2m.
  - unfold applies_to. simpl. by rewrite bool_decide_eq_true_2.
  - done.
  - unfold send_class_prepared. unfold bind at 1. unfold get at 1. cbv beta iota.
    change (receivers w1) with (receivers w ++ [mkReceiver class_prepared None self']).
    rewrite filter_app, for_each_app. unfold bind at 1.
    rewrite for_each_finalize_skips by done.
    rewrite filter_cons, decide_True by done. rewrite filter_nil. simpl.
    unfold bind. by destruct (finalize _ _ _ _ _) as [[[]|e] w2].
Qed.

Lemma class_attribute_tracks_on_class_prepared_witness :
  contribute_to_class polls history Poll "history" empty_world =
    (Return poll_history, declared_poll_world) ∧
  send_class_prepared polls Poll declared_poll_world =
    finalize polls (register polls) poll_history Poll declared_poll_world.
Proof.
  destruct (class_attribute_tracks_on_class_prepared polls history Poll "history"
              empty_world eq_refl ltac:(constructor)) as (H1 & _ & _ & H2).
  split; [exact H1 | exact H2].
Defined.
